(** * CyberGuard: the USSD and SMS scoring heuristics, the flat-file store
      and the report moderation endpoints of [app.py], with the lookup
      variant of [cyberguard_clean.py].

    The development is a shallow embedding.  A Python [str] is a [string]
    whose characters are the code points 0..255; the methods of [str], of
    [re] and of [string] that the program calls are written out in the
    modules [Py] and [Re] with the behaviour CPython has on that range.
    Python integers are [Z], a [dict] with string keys is a [gmap], a [set]
    of strings is a [gset], a list is a [list]. *)

From Stdlib Require Import ZArith QArith Lia Bool Ascii.
From stdpp Require Import base strings list gmap sets pretty.

Local Open Scope Z_scope.

(** ** The methods of [str] used by the program *)

Module Py.

(** [ch.isspace()], which is also the class stripped by [str.strip()] and
    the separator class of [str.split()]. *)
Definition isspace (a : ascii) : bool :=
  let n := N_of_ascii a in
  ((9 <=? n) && (n <=? 13) || (28 <=? n) && (n <=? 32)
   || (n =? 133) || (n =? 160))%N.

(** [ch.isdigit()] restricted to the decimal digits, i.e. the class [\d]. *)
Definition isdecimal (a : ascii) : bool :=
  let n := N_of_ascii a in ((48 <=? n) && (n <=? 57))%N.

(** [ch.isdigit()]: the decimal digits and the superscripts 2, 3 and 1. *)
Definition isdigit (a : ascii) : bool :=
  let n := N_of_ascii a in
  isdecimal a || ((n =? 178) || (n =? 179) || (n =? 185))%N.

Definition isupper_ascii (a : ascii) : bool :=
  let n := N_of_ascii a in ((65 <=? n) && (n <=? 90))%N.

Definition islower_ascii (a : ascii) : bool :=
  let n := N_of_ascii a in ((97 <=? n) && (n <=? 122))%N.

(** [ch.lower()]: the letters A-Z and the accented capitals 192..222
    (the multiplication sign 215 apart) move up by 32. *)
Definition lower_char (a : ascii) : ascii :=
  let n := N_of_ascii a in
  if (isupper_ascii a || (192 <=? n) && (n <=? 222) && negb (n =? 215))%N
  then ascii_of_N (n + 32) else a.

Fixpoint lower (s : string) : string :=
  match s with
  | EmptyString => EmptyString
  | String a s' => String (lower_char a) (lower s')
  end.

Fixpoint lstrip (s : string) : string :=
  match s with
  | EmptyString => EmptyString
  | String a s' => if isspace a then lstrip s' else s
  end.

Definition rstrip (s : string) : string := String.rev (lstrip (String.rev s)).

(** [s.strip()] *)
Definition strip (s : string) : string := rstrip (lstrip s).

(** [s.replace(old, "")] for a one-character [old]. *)
Fixpoint remove_char (old : ascii) (s : string) : string :=
  match s with
  | EmptyString => EmptyString
  | String a s' =>
      if Ascii.eqb a old then remove_char old s' else String a (remove_char old s')
  end.

(** [s.startswith(p)] *)
Fixpoint startswith (s p : string) {struct p} : bool :=
  match p, s with
  | EmptyString, _ => true
  | String _ _, EmptyString => false
  | String b p', String a s' => Ascii.eqb a b && startswith s' p'
  end.

(** [k in s] *)
Fixpoint contains (k s : string) : bool :=
  startswith s k ||
  match s with
  | EmptyString => false
  | String _ s' => contains k s'
  end.

(** [s.split(sep)] for a one-character [sep]: empty pieces are kept. *)
Fixpoint split_go (sep : ascii) (cur s : string) : list string :=
  match s with
  | EmptyString => [String.rev cur]
  | String a s' =>
      if Ascii.eqb a sep then String.rev cur :: split_go sep EmptyString s'
      else split_go sep (String a cur) s'
  end.

Definition split (sep : ascii) (s : string) : list string :=
  split_go sep EmptyString s.

Definition flush (cur : string) : list string :=
  match cur with
  | EmptyString => []
  | String _ _ => [String.rev cur]
  end.

(** [s.split()]: the maximal runs of characters that are not white space. *)
Fixpoint split_ws_go (cur s : string) : list string :=
  match s with
  | EmptyString => flush cur
  | String a s' =>
      if isspace a then flush cur ++ split_ws_go EmptyString s'
      else split_ws_go (String a cur) s'
  end.

Definition split_ws (s : string) : list string := split_ws_go EmptyString s.

Fixpoint char_in (a : ascii) (set : string) : bool :=
  match set with
  | EmptyString => false
  | String b set' => Ascii.eqb a b || char_in a set'
  end.

(** [string.punctuation] *)
Definition punctuation : string :=
  String "!" (String "034" "#$%&'()*+,-./:;<=>?@[\]^_`{|}~").

(** [s.translate(str.maketrans('', '', deleted))] *)
Fixpoint translate_delete (deleted s : string) : string :=
  match s with
  | EmptyString => EmptyString
  | String a s' =>
      if char_in a deleted then translate_delete deleted s'
      else String a (translate_delete deleted s')
  end.

(** [sep.join(l)] *)
Fixpoint join (sep : string) (l : list string) : string :=
  match l with
  | [] => EmptyString
  | [x] => x
  | x :: l' => x +:+ sep +:+ join sep l'
  end.

(** [any(p(x) for x in l)] *)
Definition any {A} (p : A → bool) (l : list A) : bool := existsb p l.

End Py.

(** ** The fragment of [re] used by the program *)

Module Re.

Inductive regex : Type :=
| Void
| Eps
| Sym (p : ascii → bool)
| Cat (r1 r2 : regex)
| Alt (r1 r2 : regex)
| Star (r : regex).

(** The words of a pattern. *)
Inductive Lang : regex → string → Prop :=
| LEps : Lang Eps EmptyString
| LSym p a : p a = true → Lang (Sym p) (String a EmptyString)
| LCat r1 r2 s1 s2 : Lang r1 s1 → Lang r2 s2 → Lang (Cat r1 r2) (s1 +:+ s2)
| LAltL r1 r2 s : Lang r1 s → Lang (Alt r1 r2) s
| LAltR r1 r2 s : Lang r2 s → Lang (Alt r1 r2) s
| LStar0 r : Lang (Star r) EmptyString
| LStarS r s1 s2 : Lang r s1 → Lang (Star r) s2 → Lang (Star r) (s1 +:+ s2).

Fixpoint nullable (r : regex) : bool :=
  match r with
  | Void => false
  | Eps => true
  | Sym _ => false
  | Cat r1 r2 => nullable r1 && nullable r2
  | Alt r1 r2 => nullable r1 || nullable r2
  | Star _ => true
  end.

Definition cat (r1 r2 : regex) : regex :=
  match r1, r2 with
  | Void, _ => Void
  | _, Void => Void
  | Eps, _ => r2
  | _, _ => Cat r1 r2
  end.

Definition alt (r1 r2 : regex) : regex :=
  match r1, r2 with
  | Void, _ => r2
  | _, Void => r1
  | _, _ => Alt r1 r2
  end.

(** The residual of [r] after the character [a]. *)
Fixpoint deriv (a : ascii) (r : regex) : regex :=
  match r with
  | Void => Void
  | Eps => Void
  | Sym p => if p a then Eps else Void
  | Cat r1 r2 =>
      if nullable r1 then alt (cat (deriv a r1) r2) (deriv a r2)
      else cat (deriv a r1) r2
  | Alt r1 r2 => alt (deriv a r1) (deriv a r2)
  | Star r1 => cat (deriv a r1) (Star r1)
  end.

(** [re.fullmatch(r, s) is not None] *)
Fixpoint matches (r : regex) (s : string) : bool :=
  match s with
  | EmptyString => nullable r
  | String a s' => matches (deriv a r) s'
  end.

(** Pattern syntax. *)
Definition chr (a : ascii) : regex := Sym (Ascii.eqb a).

Fixpoint lit (s : string) : regex :=
  match s with
  | EmptyString => Eps
  | String a s' => Cat (chr a) (lit s')
  end.

Definition plus (r : regex) : regex := Cat r (Star r).
Definition opt (r : regex) : regex := Alt r Eps.

Fixpoint power (n : nat) (r : regex) : regex :=
  match n with
  | O => Eps
  | S n' => Cat r (power n' r)
  end.

(** [r{n,}] *)
Definition at_least (n : nat) (r : regex) : regex := Cat (power n r) (Star r).

(** [r{n,m}] *)
Definition between (n m : nat) (r : regex) : regex :=
  Cat (power n r) (power (m - n) (opt r)).

Definition newline : ascii := "010"%char.

(** [\d] *)
Definition digit : regex := Sym Py.isdecimal.
(** [\s] *)
Definition space : regex := Sym Py.isspace.
(** [.], without the DOTALL flag *)
Definition dot : regex := Sym (λ a, negb (Ascii.eqb a newline)).
Definition anychar : regex := Sym (λ _, true).

(** [re.search(r, s) is not None] for a pattern without anchors. *)
Definition search (r : regex) (s : string) : bool :=
  matches (Cat (Star anychar) (Cat r (Star anychar))) s.

(** [re.match("^" + r + "$", s) is not None]: the dollar sign matches at
    the end of the string and also just before a newline that ends it. *)
Definition match_dollar (r : regex) (s : string) : bool :=
  matches (Cat r (opt (chr newline))) s.

(** [re.sub(cls, "", s)] for a pattern that is one character class. *)
Fixpoint sub_class_empty (cls : ascii → bool) (s : string) : string :=
  match s with
  | EmptyString => EmptyString
  | String a s' =>
      if cls a then sub_class_empty cls s' else String a (sub_class_empty cls s')
  end.

End Re.

(** ** [app.py]: the scoring heuristics *)

Module App.

(** [SAFE_PREFIX_PATTERNS], in the order of the source (the repeated
    entries are kept). *)
Definition SAFE_PREFIX_PATTERNS : list string :=
  [ "*123"; "*123*"; "*310"; "*311"; "*312"; "*323"; "*321"; "*131"; "*404";
    "*606"; "*244"; "*244*"; "*556";
    "*121"; "*140"; "*123"; "*124"; "*126"; "*137"; "*124"; "*127"; "*129";
    "*130"; "*131"; "*132"; "*133";
    "*228"; "*232"; "*233"; "*229"; "*901"; "*902"; "*909"; "*911"; "*826";
    "*989"; "*737"; "*737*"; "*779"; "*779*";
    "*135"; "*136"; "*137"; "*138"; "*139"; "*144"; "*#21"; "*#61"; "*#62";
    "*#67"; "*#06";
    "*199"; "*770"; "*894"; "*329"; "*565"; "*326"; "*24542"; "*244*1";
    "*123*1"; "*123*2"; "*123*4" ].

(** [TRUSTED_USSD_SOURCE_URLS] *)
Definition TRUSTED_USSD_SOURCE_URLS : list string := [].

(** The literal of [KNOWN_SAFE_CODES] inside [pattern_score_ussd]. *)
Definition KNOWN_SAFE_CODES_literal : list string :=
  [ "*123#"; "*123*1#"; "*123*1*1#"; "*123*2#"; "*123*4#"; "*310#"; "*311#";
    "*312#";
    "*321#"; "*131#"; "*121#"; "*124#"; "*228#"; "*901#"; "*902#"; "*909#";
    "*911#";
    "*826#"; "*989#"; "*737#"; "*199#"; "*#21#"; "*#61#"; "*#62#"; "*#67#";
    "*#06#";
    "*244*1#"; "*24542#"; "*232#"; "*233#"; "*322#"; "*326#"; "*329#";
    "*565#"; "*126#" ].

Definition KNOWN_SAFE_CODES : gset string := list_to_set KNOWN_SAFE_CODES_literal.

(** [code.strip().replace(" ", "") if code else ""] *)
Definition normalize_ussd (code : string) : string :=
  match code with
  | EmptyString => EmptyString
  | String _ _ => Py.remove_char " " (Py.strip code)
  end.

(** The class [[\d\*\#A-Za-z]]. *)
Definition ussd_char (a : ascii) : bool :=
  Py.isdecimal a || Ascii.eqb a "*" || Ascii.eqb a "#"
  || Py.isupper_ascii a || Py.islower_ascii a.

(** The pattern [\*[\d\*\#A-Za-z]+#?] between [^] and [$]. *)
Definition USSD_FORMAT : Re.regex :=
  Re.Cat (Re.chr "*") (Re.Cat (Re.plus (Re.Sym ussd_char)) (Re.opt (Re.chr "#"))).

(** [re.match(r"^\*[\d\*\#A-Za-z]+#?$", s)] *)
Definition is_ussd_format (s : string) : bool := Re.match_dollar USSD_FORMAT s.

(** [re.sub(r"^\*|\#$", "", c)]: a star at the start goes, and a hash at the
    end (or just before a newline that ends the string) goes. *)
Fixpoint drop_last_hash (s : string) : string :=
  match s with
  | EmptyString => EmptyString
  | String a s' =>
      if Ascii.eqb a "#" &&
         (String.eqb s' EmptyString || String.eqb s' (String Re.newline EmptyString))
      then s'
      else String a (drop_last_hash s')
  end.

Definition sub_star_hash (c : string) : string :=
  match c with
  | String a s' => if Ascii.eqb a "*" then drop_last_hash s' else drop_last_hash c
  | EmptyString => EmptyString
  end.

Definition high_risk_kw : list string :=
  [ "bvn"; "pin"; "password"; "passcode"; "verif"; "auth" ].
Definition medium_risk_kw : list string :=
  [ "account"; "confirm"; "secure"; "update"; "validate" ].

(** The running pair [(score, reasons)] of the scorer. *)
Definition acc : Type := Z * list string.

(** [score += pts; reasons.append(r)] *)
Definition hit (pts : Z) (r : string) (st : acc) : acc :=
  (st.1 + pts, st.2 ++ [r]).

(** [for k in kws: if k in low: score += pts; reasons.append(f"{label}: '{k}'")] *)
Definition keyword_loop (kws : list string) (pts : Z) (label low : string)
    (st : acc) : acc :=
  foldl (λ st k, if Py.contains k low
                 then hit pts (label +:+ ": '" +:+ k +:+ "'") st else st) st kws.

(** The number of keywords of [kws] that occur in [low]. *)
Fixpoint hits (kws : list string) (low : string) : Z :=
  match kws with
  | [] => 0
  | k :: kws' => (if Py.contains k low then 1 else 0) + hits kws' low
  end.

(** The rules of [pattern_score_ussd] between the two early returns and
    the cap, on the normalized code [c]. *)
Definition ussd_rules (c : string) : acc :=
  let st : acc := (0, []) in
  let st := if negb (is_ussd_format c) then hit 4 "Invalid USSD format" st else st in
  let is_known_safe := Py.any (Py.startswith c) SAFE_PREFIX_PATTERNS in
  let st := if is_known_safe
            then (Z.max 0 (st.1 - 2), st.2 ++ ["Known safe prefix"]) else st in
  let digits := Re.sub_class_empty (λ a, negb (Py.isdecimal a)) c in
  let st := if bool_decide (9 ≤ String.length digits)%nat
            then hit 6 ("Long numeric sequence (" +:+ pretty (String.length digits)
                        +:+ " digits)") st
            else if bool_decide (6 ≤ String.length digits)%nat
            then hit 2 "Moderate numeric sequence" st
            else st in
  let low := Py.lower c in
  let st := keyword_loop high_risk_kw 8 "High-risk keyword" low st in
  let st := keyword_loop medium_risk_kw 4 "Medium-risk keyword" low st in
  let segments := Py.split "*" (sub_star_hash c) in
  let st := if bool_decide (3 < length segments)%nat
            then hit 3 ("Many segments (" +:+ pretty (length segments) +:+ ")") st
            else st in
  let st := if bool_decide (size (list_to_set segments : gset string) ≤ 1)%nat
               && bool_decide (1 < length segments)%nat
            then hit 4 "Repeating segments" st else st in
  let st := if Re.search (Re.Sym (λ a, Py.isupper_ascii a || Py.islower_ascii a)) c
               && negb is_known_safe
            then hit 2 "Contains letters" st else st in
  let st := if negb is_known_safe then hit 1 "Unknown prefix" st else st in
  st.

(** [pattern_score_ussd(code)] *)
Definition pattern_score_ussd (code : string) : Z * list string :=
  let c := normalize_ussd code in
  if String.eqb c EmptyString then (100, ["Empty code"]) else
  if bool_decide (c ∈ KNOWN_SAFE_CODES) then (0, ["Known safe telco/bank code"]) else
  let st := ussd_rules c in
  (Z.min (Z.max 0 st.1) 10, st.2).

(** The dictionary returned by [improved_check_sms_scam]; the two early
    returns leave the keys [content] and [score] out. *)
Record SmsResult : Type := {
  content : option string;
  scam : bool;
  confidence : Z;
  score : option Z;
  reasons : list string
}.

Definition legitimate_patterns : list Re.regex :=
  [ (* your otp is \d{4,6} *)
    Re.Cat (Re.lit "your otp is ") (Re.between 4 6 Re.digit);
    (* verification code:?\s*\d+ *)
    Re.Cat (Re.lit "verification code")
      (Re.Cat (Re.opt (Re.chr ":")) (Re.Cat (Re.Star Re.space) (Re.plus Re.digit)));
    (* meeting at \d *)
    Re.Cat (Re.lit "meeting at ") Re.digit;
    (* delivery (arriving|scheduled) *)
    Re.Cat (Re.lit "delivery ") (Re.Alt (Re.lit "arriving") (Re.lit "scheduled"));
    (* hello,? how are you *)
    Re.Cat (Re.lit "hello") (Re.Cat (Re.opt (Re.chr ",")) (Re.lit " how are you")) ].

(** The literal of [scam_indicators]. *)
Definition scam_indicators_literal : gmap string Z :=
  list_to_map
    [ ("won", 4); ("win", 4); ("prize", 4); ("lottery", 5); ("million", 4);
      ("cash", 3);
      ("award", 3); ("claim", 3); ("urgent", 3); ("immediately", 3);
      ("verification", 2);
      ("bvn", 6); ("password", 5); ("pin", 5); ("transfer", 3); ("free", 3);
      ("gift", 3); ("congratulations", 2); ("congrats", 2); ("account", 3);
      ("bank", 2) ].

(** [a.*b] *)
Definition then_later (a b : Re.regex) : Re.regex :=
  Re.Cat a (Re.Cat (Re.Star Re.dot) b).

Definition patterns : list (Re.regex * Z * string) :=
  [ (* you.*won.*\d+ *)
    (then_later (Re.lit "you") (then_later (Re.lit "won") (Re.plus Re.digit)),
     6, "Winning announcement");
    (* call.*\d{8,} *)
    (then_later (Re.lit "call") (Re.at_least 8 Re.digit), 5, "Unknown number request");
    (* click.*http *)
    (then_later (Re.lit "click") (Re.lit "http"), 5, "Suspicious link");
    (* account.*verif *)
    (then_later (Re.lit "account") (Re.lit "verif"), 4, "Account verification");
    (* free.*gift *)
    (then_later (Re.lit "free") (Re.lit "gift"), 4, "Free gift offer");
    (* your.*bvn *)
    (then_later (Re.lit "your") (Re.lit "bvn"), 6, "BVN request") ].

(** The two early returns. *)
Definition not_scam (rs : list string) : SmsResult :=
  {| content := None; scam := false; confidence := 0; score := None; reasons := rs |}.

(** [for word in words: if word in scam_indicators: ...]; the state is
    [(score, triggered)]. *)
Definition word_loop (scam_indicators : gmap string Z) (words : list string)
    (st : Z * list string) : Z * list string :=
  foldl (λ st word, match scam_indicators !! word with
                    | Some pts => (st.1 + pts, st.2 ++ [word])
                    | None => st
                    end) st words.

(** [for pattern, points, reason in patterns: if re.search(...): ...] *)
Definition pattern_loop (normalized : string) (st : acc) : acc :=
  foldl (λ st (p : Re.regex * Z * string),
           if Re.search p.1.1 normalized then hit p.1.2 p.2 st else st) st patterns.

(** The rules of [improved_check_sms_scam] after the early returns and
    before the cap. *)
Definition sms_rules (normalized : string) (words : list string) : acc :=
  let scam_indicators :=
    if Py.contains "otp" normalized
       && Py.any (λ word, Py.contains word normalized)
            ["your"; "code"; "is"; "verification"]
    then <["otp" := 1]> scam_indicators_literal
    else <["otp" := 3]> scam_indicators_literal in
  let wl := word_loop scam_indicators words (0, []) in
  let triggered := wl.2 in
  let st : acc :=
    (wl.1, match triggered with
           | [] => []
           | _ :: _ => ["Suspicious words: " +:+ Py.join ", " triggered]
           end) in
  let st := pattern_loop normalized st in
  let st := if bool_decide (length words = 1%nat)
               && match words with
                  | w :: _ => bool_decide (w ∈ ["congratulations"; "congrats"])
                  | [] => false
                  end
            then (Z.max (st.1 - 3) 0, ["Single word - needs context"]) else st in
  st.

(** [improved_check_sms_scam(content)] *)
Definition improved_check_sms_scam (content : string) : SmsResult :=
  if String.eqb content EmptyString then not_scam [] else
  if is_ussd_format (Py.strip content) then not_scam ["USSD code detected"] else
  let normalized := Py.translate_delete Py.punctuation (Py.lower content) in
  let words := Py.split_ws normalized in
  if Py.any (λ pattern, Re.search pattern normalized) legitimate_patterns
  then not_scam ["Legitimate communication pattern"] else
  let st := sms_rules normalized words in
  {| content := Some content;
     scam := bool_decide (6 ≤ st.1);
     confidence := Z.min st.1 10;
     score := Some st.1;
     reasons := st.2 |}.

(** *** The flat-file store *)

(** A report of the community database, and the body of a submission. *)
Record Report : Type := {
  report_type : string;
  report_content : string;
  location : string;
  username : string;
  timestamp : string;
  status : string;
  lat : option Q;
  lon : option Q
}.

Record ReportRequest : Type := {
  rq_report_type : string;
  rq_content : string;
  rq_location : option string;
  rq_username : option string
}.

Record UpdateReportStatus : Type := {
  us_index : Z;
  us_status : string;
  us_action : option string
}.

Record CodeActionRequest : Type := { ca_index : Z }.

Record CuratedCode : Type := {
  cc_code : string;
  cc_type : string;
  cc_provider : string;
  cc_description : string;
  cc_reference : string;
  cc_added_by : string;
  cc_timestamp : string;
  cc_verified : bool
}.

(** An entry of the USSD cache; every key is read with [.get]. *)
Record CacheEntry : Type := {
  ce_safe : option bool;
  ce_score : option Z;
  ce_reasons : option (list string);
  ce_verified_online : option bool;
  ce_source : option string
}.

(** A JSON file as the program meets it: [read_text()] raises, or the text
    is there and [json.loads] raises on it, or the text decodes. *)
Inductive json_file (A : Type) : Type :=
| Unreadable
| Malformed (text : string)
| Holds (value : A).
Arguments Unreadable {A}.
Arguments Malformed {A} text.
Arguments Holds {A} value.

Inductive exn : Type :=
| OSError
| JSONDecodeError (doc : string).

Inductive outcome (A : Type) : Type :=
| Returns (a : A)
| Raises (e : exn).
Arguments Returns {A} a.
Arguments Raises {A} e.

(** [json.loads(path.read_text())] *)
Definition loads_read_text {A} (f : json_file A) : outcome A :=
  match f with
  | Unreadable => Raises OSError
  | Malformed text => Raises (JSONDecodeError text)
  | Holds v => Returns v
  end.

(** A read that fails: [read_text()] or [json.loads] raises. *)
Definition fails {A} (f : json_file A) : Prop :=
  ∃ e, loads_read_text f = Raises e.

(** [try: return body / except: return default] *)
Definition try_return {A} (body : outcome A) (default : A) : A :=
  match body with
  | Returns a => a
  | Raises _ => default
  end.

(** The files under [data/] and what the handlers ask of the outside: the
    network, the clock and the geocoder.  A text file is its content as
    reading in text mode delivers it (line ends as newlines), or [None] when
    it cannot be opened. *)
Record World : Type := {
  OFFLINE_USSD_CODES : option string;
  BLACKLIST_USSD : option string;
  COMMUNITY_REPORTS_DB : json_file (list Report);
  USSD_CACHE : json_file (gmap string CacheEntry);
  CURATED_CODES_FILE : json_file (list CuratedCode);
  (* requests.head("https://www.google.com") does not raise *)
  google_reachable : bool;
  (* requests.get(u): the status code and the text, None when it raises *)
  requests_get : string → option (Z * string);
  (* datetime.datetime.now().isoformat() where datetime names the module,
     as in bank_verification.py *)
  now_isoformat : string;
  (* the answer of geocode_location for a location that is not empty *)
  geocoder : string → option Q * option Q
}.

Definition is_online (w : World) : bool := google_reachable w.

(** [load_lines(path)] *)
Definition load_lines (f : option string) : list string :=
  match f with
  | None => []
  | Some text =>
      Py.strip <$> filter (λ l, Py.strip l ≠ EmptyString) (Py.split Re.newline text)
  end.

Definition read_reports (w : World) : list Report :=
  try_return (loads_read_text (COMMUNITY_REPORTS_DB w)) [].

Definition read_ussd_cache (w : World) : gmap string CacheEntry :=
  try_return (loads_read_text (USSD_CACHE w)) ∅.

Definition load_curated_codes (w : World) : list CuratedCode :=
  try_return (loads_read_text (CURATED_CODES_FILE w)) [].

Definition load_safe_ussd (w : World) : gset string :=
  list_to_set (normalize_ussd <$> load_lines (OFFLINE_USSD_CODES w)).

Definition load_blacklist_ussd (w : World) : gset string :=
  list_to_set (normalize_ussd <$> load_lines (BLACKLIST_USSD w)).

Definition set_reports (v : json_file (list Report)) (w : World) : World :=
  {| OFFLINE_USSD_CODES := OFFLINE_USSD_CODES w;
     BLACKLIST_USSD := BLACKLIST_USSD w;
     COMMUNITY_REPORTS_DB := v;
     USSD_CACHE := USSD_CACHE w;
     CURATED_CODES_FILE := CURATED_CODES_FILE w;
     google_reachable := google_reachable w;
     requests_get := requests_get w;
     now_isoformat := now_isoformat w;
     geocoder := geocoder w |}.

Definition set_cache (v : json_file (gmap string CacheEntry)) (w : World) : World :=
  {| OFFLINE_USSD_CODES := OFFLINE_USSD_CODES w;
     BLACKLIST_USSD := BLACKLIST_USSD w;
     COMMUNITY_REPORTS_DB := COMMUNITY_REPORTS_DB w;
     USSD_CACHE := v;
     CURATED_CODES_FILE := CURATED_CODES_FILE w;
     google_reachable := google_reachable w;
     requests_get := requests_get w;
     now_isoformat := now_isoformat w;
     geocoder := geocoder w |}.

Definition set_curated (v : json_file (list CuratedCode)) (w : World) : World :=
  {| OFFLINE_USSD_CODES := OFFLINE_USSD_CODES w;
     BLACKLIST_USSD := BLACKLIST_USSD w;
     COMMUNITY_REPORTS_DB := COMMUNITY_REPORTS_DB w;
     USSD_CACHE := USSD_CACHE w;
     CURATED_CODES_FILE := v;
     google_reachable := google_reachable w;
     requests_get := requests_get w;
     now_isoformat := now_isoformat w;
     geocoder := geocoder w |}.

Definition set_safe_txt (v : option string) (w : World) : World :=
  {| OFFLINE_USSD_CODES := v;
     BLACKLIST_USSD := BLACKLIST_USSD w;
     COMMUNITY_REPORTS_DB := COMMUNITY_REPORTS_DB w;
     USSD_CACHE := USSD_CACHE w;
     CURATED_CODES_FILE := CURATED_CODES_FILE w;
     google_reachable := google_reachable w;
     requests_get := requests_get w;
     now_isoformat := now_isoformat w;
     geocoder := geocoder w |}.

Definition set_blacklist_txt (v : option string) (w : World) : World :=
  {| OFFLINE_USSD_CODES := OFFLINE_USSD_CODES w;
     BLACKLIST_USSD := v;
     COMMUNITY_REPORTS_DB := COMMUNITY_REPORTS_DB w;
     USSD_CACHE := USSD_CACHE w;
     CURATED_CODES_FILE := CURATED_CODES_FILE w;
     google_reachable := google_reachable w;
     requests_get := requests_get w;
     now_isoformat := now_isoformat w;
     geocoder := geocoder w |}.

(** [with open(path, "a") as fh: fh.write(line + "\n")] *)
Definition append_line (line : string) (f : option string) : option string :=
  Some (default EmptyString f +:+ line +:+ String Re.newline EmptyString).

(** *** Request handlers: a state and error monad over [World] *)

Inductive response (A : Type) : Type :=
| OK (body : A)
| HTTPException (status_code : Z) (detail : string).
Arguments OK {A} body.
Arguments HTTPException {A} status_code detail.

Definition handler (A : Type) : Type := World → response A * World.

(** [return body] *)
Definition respond {A} (body : A) : handler A := λ w, (OK body, w).

(** Sequencing: an exception ends the handler and keeps what was written. *)
Definition bind {A B} (m : handler A) (k : A → handler B) : handler B :=
  λ w, match m w with
       | (OK a, w') => k a w'
       | (HTTPException c d, w') => (HTTPException c d, w')
       end.

Notation "'let*' x := m 'in' k" := (bind m (λ x, k))
  (at level 10, x binder, k at level 200).
Definition raise {A} (status_code : Z) (detail : string) : handler A :=
  λ w, (HTTPException status_code detail, w).
Definition ask {A} (f : World → A) : handler A := λ w, (OK (f w), w).
Definition update (f : World → World) : handler unit := λ w, (OK tt, f w).

(** [datetime.datetime.now().isoformat()] as [app.py] evaluates it.  The
    module imports [datetime] and then, with [from datetime import datetime],
    binds the same name to the class; the class has no attribute [datetime],
    so the expression raises [AttributeError] wherever a handler reaches it,
    and the server answers 500. *)
Definition datetime_datetime_now_isoformat : handler string :=
  raise 500 "Internal Server Error".

Definition write_reports (reports : list Report) : handler unit :=
  update (set_reports (Holds reports)).
Definition write_ussd_cache (d : gmap string CacheEntry) : handler unit :=
  update (set_cache (Holds d)).
Definition save_curated_codes (codes : list CuratedCode) : handler unit :=
  update (set_curated (Holds codes)).

(** [online_verify_ussd(code, urls)] *)
Definition online_verify_ussd (w : World) (code : string)
    (urls : option (list string)) : bool * option string :=
  let urls := match urls with
              | Some (u :: us) => u :: us
              | _ => TRUSTED_USSD_SOURCE_URLS
              end in
  match urls with
  | [] => (false, None)
  | _ :: _ =>
      let norm := Py.lower (normalize_ussd code) in
      match
        find (λ u, match requests_get w u with
                   | Some (status_code, text) =>
                       bool_decide (status_code = 200)
                       && Py.contains norm (Py.lower text)
                   | None => false
                   end) urls
      with
      | Some u => (true, Some u)
      | None => (false, None)
      end
  end.

(** The dictionary returned by [check_ussd]; the key [source] is absent
    from two of the returns. *)
Record UssdResult : Type := {
  ur_code : string;
  ur_safe : bool;
  ur_score : Z;
  ur_reasons : list string;
  ur_verified_online : bool;
  ur_source : option (option string);
  ur_cached : bool
}.

(** [check_ussd(code, full_mode)], the handler of [/check-ussd]. *)
Definition check_ussd (code : string) (full_mode : bool) : handler UssdResult :=
  if String.eqb code EmptyString then raise 400 "USSD code required" else
  let norm := normalize_ussd code in
  let* safe_set := ask load_safe_ussd in
  let* blacklist := ask load_blacklist_ussd in
  let* cache := ask read_ussd_cache in
  if bool_decide (norm ∈ blacklist) then
    respond {| ur_code := norm; ur_safe := false; ur_score := 10;
            ur_reasons := ["Blacklisted"]; ur_verified_online := false;
            ur_source := None; ur_cached := false |}
  else
  match cache !! norm with
  | Some entry =>
      respond {| ur_code := norm;
              ur_safe := default false (ce_safe entry);
              ur_score := default 0 (ce_score entry);
              ur_reasons := default [] (ce_reasons entry);
              ur_verified_online := default false (ce_verified_online entry);
              ur_source := Some (ce_source entry);
              ur_cached := true |}
  | None =>
  if bool_decide (norm ∈ safe_set) then
    let sr := pattern_score_ussd norm in
    let result :=
      {| ur_code := norm; ur_safe := true; ur_score := sr.1;
         ur_reasons := sr.2 ++ ["In safe list"]; ur_verified_online := false;
         ur_source := None; ur_cached := false |} in
    let* online := ask is_online in
    if full_mode && online then
      let* '(v, src) := ask (λ w, online_verify_ussd w norm None) in
      if v then
        let* _ := write_ussd_cache
          (<[norm := {| ce_safe := Some true; ce_score := Some sr.1;
                        ce_reasons := Some sr.2;
                        ce_verified_online := Some true;
                        ce_source := src |}]> cache) in
        respond {| ur_code := norm; ur_safe := true; ur_score := sr.1;
                ur_reasons := sr.2 ++ ["In safe list"];
                ur_verified_online := true;
                ur_source := Some src; ur_cached := false |}
      else respond result
    else respond result
  else
    let sr := pattern_score_ussd norm in
    let safe := bool_decide (sr.1 < 5) in
    let* online := ask is_online in
    if full_mode && online then
      let* '(v, src) := ask (λ w, online_verify_ussd w norm None) in
      if v then
        let reasons := sr.2 ++ ["Verified by " +:+ default "None" src] in
        let* _ := write_ussd_cache
          (<[norm := {| ce_safe := Some true; ce_score := Some sr.1;
                        ce_reasons := Some reasons;
                        ce_verified_online := Some true;
                        ce_source := src |}]> cache) in
        respond {| ur_code := norm; ur_safe := true; ur_score := sr.1;
                ur_reasons := reasons; ur_verified_online := true;
                ur_source := Some src; ur_cached := true |}
      else
        respond {| ur_code := norm; ur_safe := safe; ur_score := sr.1;
                ur_reasons := sr.2; ur_verified_online := v;
                ur_source := Some src; ur_cached := false |}
    else
      respond {| ur_code := norm; ur_safe := safe; ur_score := sr.1;
              ur_reasons := sr.2; ur_verified_online := false;
              ur_source := Some None; ur_cached := false |}
  end.

(** [check_sms_scam(content)], the handler of [/check-sms-scam]. *)
Definition check_sms_scam (content : string) : handler SmsResult :=
  respond (improved_check_sms_scam content).

(** The world a handler leaves behind, and what it answers. *)
Definition world_after {A} (m : handler A) (w : World) : World := (m w).2.
Definition answer {A} (m : handler A) (w : World) : response A := (m w).1.

(** The store as the module initialises it when the files do not exist
    (the two JSON lists and the JSON object empty, the text files empty),
    in an environment without network. *)
Definition fresh_world : World :=
  {| OFFLINE_USSD_CODES := Some EmptyString;
     BLACKLIST_USSD := Some EmptyString;
     COMMUNITY_REPORTS_DB := Holds [];
     USSD_CACHE := Holds ∅;
     CURATED_CODES_FILE := Holds [];
     google_reachable := false;
     requests_get := λ _, None;
     now_isoformat := "2025-01-01T00:00:00";
     geocoder := λ _, (None, None) |}.

(** *** Community reports and their moderation *)

(** [x or fallback] for an optional string. *)
Definition or_else (x : option string) (fallback : string) : string :=
  match x with
  | None | Some EmptyString => fallback
  | Some v => v
  end.

(** [geocode_location(location)]: nothing for an empty location; the
    request to Nominatim and the table of cities are the geocoder's. *)
Definition geocode_location (w : World) (loc : option string) : option Q * option Q :=
  match loc with
  | None | Some EmptyString => (None, None)
  | Some l => geocoder w l
  end.

(** [report["status"] = s] *)
Definition with_status (s : string) (r : Report) : Report :=
  {| report_type := report_type r; report_content := report_content r;
     location := location r; username := username r;
     timestamp := timestamp r; status := s; lat := lat r; lon := lon r |}.

(** [if index < 0 or index >= len(reports)] *)
Definition bad_index (index : Z) (reports : list Report) : bool :=
  bool_decide (index < 0) || bool_decide (Z.of_nat (length reports) ≤ index).

(** [submit_report(report)], the handler of [/community/report]. *)
Definition submit_report (report : ReportRequest) : handler (string * Report) :=
  let* reports := ask read_reports in
  let* '(la, lo) := ask (λ w, geocode_location w (rq_location report)) in
  let* ts := datetime_datetime_now_isoformat in
  let entry :=
    {| report_type := rq_report_type report; report_content := rq_content report;
       location := or_else (rq_location report) "Unknown";
       username := or_else (rq_username report) "Anonymous";
       timestamp := ts; status := "Pending"; lat := la; lon := lo |} in
  let* _ := write_reports (reports ++ [entry]) in
  respond ("Report submitted", entry).

(** [if code not in load_xxx(): with open(path, "a") as fh: fh.write(code + "\n")] *)
Definition add_safe_line (code : string) : handler unit :=
  let* safe := ask load_safe_ussd in
  if bool_decide (code ∈ safe) then respond tt
  else update (λ w, set_safe_txt (append_line code (OFFLINE_USSD_CODES w)) w).

Definition add_blacklist_line (code : string) : handler unit :=
  let* bl := ask load_blacklist_ussd in
  if bool_decide (code ∈ bl) then respond tt
  else update (λ w, set_blacklist_txt (append_line code (BLACKLIST_USSD w)) w).

(** [update_report_status(data)], the handler of [/community/update-report]. *)
Definition update_report_status (data : UpdateReportStatus)
    : handler (string * Report) :=
  let* reports := ask read_reports in
  if bad_index (us_index data) reports then raise 400 "Invalid report index" else
  let i := Z.to_nat (us_index data) in
  match reports !! i with
  | None => raise 500 "Internal Server Error"
  | Some r =>
      let r := with_status (us_status data) r in
      let reports := <[i := r]> reports in
      let* _ := if bool_decide (us_action data = Some "add_safe")
                then add_safe_line (normalize_ussd (report_content r))
                else respond tt in
      let* _ := if bool_decide (us_action data = Some "add_blacklist")
                then add_blacklist_line (normalize_ussd (report_content r))
                else respond tt in
      let* _ := write_reports reports in
      respond ("Report updated", r)
  end.

(** [reject_report(request)], the handler of [/curation/reject-report]. *)
Definition reject_report (request : CodeActionRequest) : handler string :=
  let* reports := ask read_reports in
  if bad_index (ca_index request) reports then raise 400 "Invalid report index" else
  let i := Z.to_nat (ca_index request) in
  let* _ := write_reports (alter (with_status "Rejected") i reports) in
  respond "Report rejected".

Section Curation.

(** [str.upper()] leaves the range of characters of this development (for
    the sharp s, the micro sign and y with diaeresis), so it is a parameter. *)
Variable str_upper : string → string.

(** [normalize_code(code)] *)
Definition normalize_code (code : string) : string :=
  str_upper (Py.remove_char " " (Py.strip code)).

(** [approve_report(request)], the handler of [/curation/approve-report]. *)
Definition approve_report (request : CodeActionRequest) : handler string :=
  let* reports := ask read_reports in
  if bad_index (ca_index request) reports then raise 400 "Invalid report index" else
  let i := Z.to_nat (ca_index request) in
  match reports !! i with
  | None => raise 500 "Internal Server Error"
  | Some report =>
      if negb (String.eqb (report_type report) "ussd")
      then raise 400 "Not a USSD report" else
      let* curated_codes := ask load_curated_codes in
      let normalized_code := normalize_code (report_content report) in
      let* _ :=
        if negb (Py.any (λ c, bool_decide (normalize_code (cc_code c) = normalized_code))
                   curated_codes)
        then
          let* ts := datetime_datetime_now_isoformat in
          let new_code :=
            {| cc_code := report_content report;
               cc_type := "community_verified";
               cc_provider := "Community Verified";
               cc_description :=
                 "Verified from community report by " +:+ username report;
               cc_reference := "community_report";
               cc_added_by := username report;
               cc_timestamp := ts;
               cc_verified := true |} in
          let* _ := save_curated_codes (curated_codes ++ [new_code]) in
          add_safe_line normalized_code
        else respond tt in
      let* _ := write_reports (<[i := with_status "Verified" report]> reports) in
      respond "Report approved and code added to database"
  end.

End Curation.

(** *** Sample runs *)

(** A store none of whose JSON files can be read or parsed. *)
Definition broken_world : World :=
  {| OFFLINE_USSD_CODES := None;
     BLACKLIST_USSD := None;
     COMMUNITY_REPORTS_DB := Unreadable;
     USSD_CACHE := Malformed "{";
     CURATED_CODES_FILE := Malformed "[{";
     google_reachable := false;
     requests_get := λ _, None;
     now_isoformat := "2025-01-01T00:00:00";
     geocoder := λ _, (None, None) |}.

(** A user reports the code [*901#]. *)
Definition report_of_901 : ReportRequest :=
  {| rq_report_type := "ussd"; rq_content := "*901#";
     rq_location := None; rq_username := None |}.

(** A report of that code, as the report database holds it. *)
Definition entry_of_901 : Report :=
  {| report_type := "ussd"; report_content := "*901#";
     location := "Unknown"; username := "Anonymous";
     timestamp := "2025-01-01T00:00:00"; status := "Pending";
     lat := None; lon := None |}.

(** A store whose report database holds that one report.  The file is
    taken as it is found: [submit_report] itself stores none. *)
Definition world_with_report : World :=
  set_reports (Holds [entry_of_901]) fresh_world.

(** The same store when the code of the report is curated already. *)
Definition world_with_curated_report : World :=
  set_curated
    (Holds [ {| cc_code := "*901#"; cc_type := "bank"; cc_provider := "First Bank";
                cc_description := "Banking menu"; cc_reference := "bank website";
                cc_added_by := "admin"; cc_timestamp := "2025-01-01T00:00:00";
                cc_verified := true |} ])
    world_with_report.

(** A moderator puts the reported code on the blacklist. *)
Definition world_blacklisting_901 : World :=
  world_after
    (update_report_status
       {| us_index := 0; us_status := "Verified"; us_action := Some "add_blacklist" |})
    world_with_report.

End App.

(** ** [cyberguard_clean.py]: the lookup variant *)

Module Clean.

Record SafeCode : Type := { sc_code : string; sc_description : string }.

(** The USSD database the handler loads at start-up. *)
Record Database : Type := {
  safe_codes : list SafeCode;
  scam_patterns : list string;
  scam_keywords : list string
}.

(** What [load_database] returns when the file is missing or unreadable. *)
Definition empty_database : Database :=
  {| safe_codes := []; scam_patterns := []; scam_keywords := [] |}.

(** A database with one safe code. *)
Definition sample_database : Database :=
  {| safe_codes := [ {| sc_code := "*901#"; sc_description := "Access Bank" |} ];
     scam_patterns := [];
     scam_keywords := [ "bvn" ] |}.

(** The texts of the [message] key, by their format string. *)
Inductive Message : Type :=
| MsgSafe (description : string)
| MsgScamPattern (pattern : string)
| MsgSuspicious (joined_keywords : string)
| MsgUnknownCode
| MsgEmptyMessage
| MsgHighRiskSms (joined_reasons : string)
| MsgSuspiciousSms (joined_reasons : string)
| MsgPotentiallyRisky (reason : string)
| MsgLikelyLegitimate.

Record CheckResult : Type := {
  safe : bool;
  confidence : Z;
  message : Message;
  color : string
}.

Section Variant.

(** [re.search(pattern, s, re.IGNORECASE) is not None] for a pattern given
    as text, [None] when compiling it raises [re.error]. *)
Variable re_search_ignorecase : string → string → option bool.

Variable database : Database.

(** [check_ussd_code(self, code)] *)
Definition check_ussd_code (code : string) : CheckResult :=
  let normalized := Py.strip (Py.lower code) in
  match find (λ safe_code, String.eqb (Py.lower (sc_code safe_code)) normalized)
             (safe_codes database) with
  | Some safe_code =>
      {| safe := true; confidence := 95;
         message := MsgSafe (sc_description safe_code); color := "green" |}
  | None =>
  match find (λ pattern, default false (re_search_ignorecase pattern normalized))
             (scam_patterns database) with
  | Some pattern =>
      {| safe := false; confidence := 90;
         message := MsgScamPattern pattern; color := "red" |}
  | None =>
  let found_keywords :=
    filter (λ keyword, Py.contains keyword normalized = true) (scam_keywords database) in
  match found_keywords with
  | _ :: _ =>
      {| safe := false; confidence := 75;
         message := MsgSuspicious (Py.join ", " found_keywords); color := "orange" |}
  | [] =>
      {| safe := false; confidence := 50;
         message := MsgUnknownCode; color := "gray" |}
  end end end.

Definition scam_indicators : list string :=
  [ "won"; "prize"; "lottery"; "congratulations"; "claim";
    "free"; "gift"; "urgent"; "bvn"; "password"; "pin";
    "verification"; "suspended"; "reset"; "million"; "cash" ].

(** [any(char.isdigit() for char in s)] *)
Fixpoint any_isdigit (s : string) : bool :=
  match s with
  | EmptyString => false
  | String a s' => Py.isdigit a || any_isdigit s'
  end.

(** The score and the reasons that [check_sms_message] accumulates. *)
Definition sms_score (normalized : string) : Z * list string :=
  let st : Z * list string :=
    foldl (λ st indicator, if Py.contains indicator normalized
                           then (st.1 + 5, st.2 ++ [indicator]) else st)
          (0, []) scam_indicators in
  let st := if Py.contains "http://" normalized || Py.contains "https://" normalized
               || Py.contains "www." normalized
            then (st.1 + 10, st.2 ++ ["suspicious_url"]) else st in
  if Py.contains "call" normalized && any_isdigit normalized
  then (st.1 + 8, st.2 ++ ["phone_request"]) else st.

(** [check_sms_message(self, message)] *)
Definition check_sms_message (msg : string) : CheckResult :=
  if String.eqb (Py.strip msg) EmptyString then
    {| safe := false; confidence := 0; message := MsgEmptyMessage; color := "gray" |}
  else
  let normalized := Py.lower msg in
  let st := sms_score normalized in
  if bool_decide (15 ≤ st.1) then
    {| safe := false; confidence := 90;
       message := MsgHighRiskSms (Py.join ", " (take 3 st.2)); color := "red" |}
  else if bool_decide (10 ≤ st.1) then
    {| safe := false; confidence := 75;
       message := MsgSuspiciousSms (Py.join ", " (take 2 st.2)); color := "orange" |}
  else if bool_decide (5 ≤ st.1) then
    {| safe := false; confidence := 60;
       message := MsgPotentiallyRisky (default "suspicious_content" (head st.2));
       color := "orange" |}
  else
    {| safe := true; confidence := 95; message := MsgLikelyLegitimate; color := "green" |}.

End Variant.

End Clean.

(** ** Shapes of strings that the properties speak of *)

Module PyMore.

(** No leading and no trailing white space. *)
Definition trimmed (s : string) : Prop :=
  Py.lstrip s = s ∧ Py.lstrip (String.rev s) = String.rev s.

(** No white space at all. *)
Fixpoint no_space (s : string) : bool :=
  match s with
  | EmptyString => true
  | String a s' => negb (Py.isspace a) && no_space s'
  end.

(** The number of characters of [s] in the class [p]. *)
Fixpoint count (p : ascii → bool) (s : string) : nat :=
  match s with
  | EmptyString => 0
  | String a s' => (if p a then 1 else 0) + count p s'
  end.

(** A text file to which a line can be appended: it is missing, empty, or
    ends with a newline. *)
Definition terminated (f : option string) : Prop :=
  match f with
  | None => True
  | Some text =>
      text = EmptyString ∨ ∃ t, text = t +:+ String Re.newline EmptyString
  end.

(** Every character class of the pattern [r] gives the same answer on [a]
    and on [f a]. *)
Fixpoint stable (f : ascii → ascii) (r : Re.regex) : Prop :=
  match r with
  | Re.Sym p => ∀ a, p (f a) = p a
  | Re.Cat r1 r2 | Re.Alt r1 r2 => stable f r1 ∧ stable f r2
  | Re.Star r1 => stable f r1
  | Re.Void | Re.Eps => True
  end.

End PyMore.

(** ** [bank_verification.py]: the mock registry lookups and their cache *)

Module Bank.
Import App.

(** The dictionary returned by [verify_ussd_code]. *)
Record BankResult : Type := {
  verified : bool;
  source : string;
  bank : string;
  timestamp : string
}.

(** The literal of [cbn_verified_codes]. *)
Definition cbn_verified_codes : gset string :=
  list_to_set
    [ "*901#"; "*902#"; "*909#"; "*911#"; "*826#"; "*989#"; "*945#";
      "*322#"; "*326#"; "*329#"; "*737#"; "*779#"; "*894#" ].

(** The literal of [nibss_verified]. *)
Definition nibss_verified : gset string :=
  list_to_set [ "*901#"; "*902#"; "*909#"; "*826#"; "*989#"; "*737#" ].

Definition verify_with_cbn_registry (ussd_code : string) : bool :=
  bool_decide (ussd_code ∈ cbn_verified_codes).

Definition verify_with_nibss (ussd_code : string) : bool :=
  bool_decide (ussd_code ∈ nibss_verified).

(** The literal of [bank_mapping]. *)
Definition bank_mapping : gmap string string :=
  list_to_map
    [ ("*901#", "First Bank"); ("*902#", "Union Bank"); ("*909#", "Zenith Bank");
      ("*911#", "Fidelity Bank"); ("*826#", "Sterling Bank"); ("*989#", "Ecobank");
      ("*945#", "GTBank"); ("*322#", "Access Bank"); ("*737#", "GTBank USSD");
      ("*779#", "QuickBank"); ("*894#", "VBank") ].

(** [bank_mapping.get(ussd_code, "Unknown Bank")] *)
Definition map_code_to_bank (ussd_code : string) : string :=
  default "Unknown Bank" (bank_mapping !! ussd_code).

(** The object [bank_verifier]: the dictionary [verified_cache], the file
    behind it, and whether that file can be written. *)
Record BankVerification : Type := {
  verified_cache : gmap string BankResult;
  cache_file : json_file (gmap string BankResult);
  cache_file_writable : bool
}.

(** [__init__] with [load_cache]: the cache is the decoded file, and stays
    empty when the file is missing or does not decode. *)
Definition load_cache (file : json_file (gmap string BankResult)) (writable : bool)
    : BankVerification :=
  {| verified_cache := try_return (loads_read_text file) ∅;
     cache_file := file;
     cache_file_writable := writable |}.

(** [save_cache]: a failed write is logged and otherwise ignored. *)
Definition save_cache (b : BankVerification) : BankVerification :=
  if cache_file_writable b
  then {| verified_cache := verified_cache b;
          cache_file := Holds (verified_cache b);
          cache_file_writable := true |}
  else b.

(** [verify_ussd_code(ussd_code)], at the time [now]. *)
Definition verify_ussd_code (now : string) (ussd_code : string)
    (b : BankVerification) : BankResult * BankVerification :=
  match verified_cache b !! ussd_code with
  | Some cached => (cached, b)
  | None =>
      let result :=
        if verify_with_cbn_registry ussd_code
        then {| verified := true; source := "cbn";
                bank := map_code_to_bank ussd_code; timestamp := now |}
        else if verify_with_nibss ussd_code
        then {| verified := true; source := "nibss";
                bank := map_code_to_bank ussd_code; timestamp := now |}
        else {| verified := false; source := "none";
                bank := "unknown"; timestamp := now |} in
      (result,
       save_cache {| verified_cache := <[ussd_code := result]> (verified_cache b);
                     cache_file := cache_file b;
                     cache_file_writable := cache_file_writable b |})
  end.

End Bank.

(** ** [app.py]: the other endpoints *)

Module AppMore.
Import App.

(** [get_reports(status)], the handler of [/community/reports]. *)
Definition get_reports (st : option string) : handler (list Report) :=
  let* reports := ask read_reports in
  match st with
  | None | Some EmptyString => respond reports
  | Some s => respond (filter (λ r, Py.lower (status r) = Py.lower s) reports)
  end.

(** The test of the two pending listings. *)
Definition is_pending_ussd (r : Report) : Prop :=
  status r = "Pending" ∧ report_type r = "ussd".

#[global] Instance is_pending_ussd_dec (r : Report) : Decision (is_pending_ussd r).
Proof. unfold is_pending_ussd. apply _. Defined.

(** [get_pending_reports()], the handler of [/curation/pending]: each
    pending USSD report with its index in the database. *)
Definition get_pending_reports : handler (list (Report * nat)) :=
  let* reports := ask read_reports in
  respond (filter (λ ri : Report * nat, is_pending_ussd ri.1)
                  (imap (λ i report, (report, i)) reports)).

Record CurationStats : Type := {
  total_codes : nat;
  verified_codes : nat;
  bank_codes : nat;
  pending_reports : nat
}.

(** [get_curation_stats()], the handler of [/curation/stats]. *)
Definition get_curation_stats : handler CurationStats :=
  let* curated_codes := ask load_curated_codes in
  let* reports := ask read_reports in
  respond {| total_codes := length curated_codes;
             verified_codes := length curated_codes;
             bank_codes := length (filter (λ c, cc_type c = "bank") curated_codes);
             pending_reports := length (filter is_pending_ussd reports) |}.

(** [get_curated_codes()], the handler of [/curation/codes]. *)
Definition get_curated_codes : handler (list CuratedCode) := ask load_curated_codes.

Record CurationRequest : Type := {
  cr_code : string;
  cr_type : string;
  cr_provider : string;
  cr_description : string;
  cr_reference : string
}.

(** An item of a bulk request: a dictionary whose keys may be missing. *)
Record BulkItem : Type := {
  bi_code : option string;
  bi_type : option string;
  bi_provider : option string;
  bi_description : option string
}.

(** The dictionary returned by [mobile_check_ussd]: the known-safe answer
    has a [reason] and no score, the scored one the converse. *)
Record MobileResult : Type := {
  mo_safe : bool;
  mo_reason : option string;
  mo_score : option Z;
  mo_reasons : option (list string);
  mo_confidence : Z
}.

(** [mobile_check_ussd(code)], the handler of [/mobile/check]. *)
Definition mobile_check_ussd (code : string) : handler MobileResult :=
  let normalized := normalize_ussd code in
  let* safe_codes := ask load_safe_ussd in
  if bool_decide (normalized ∈ safe_codes) then
    respond {| mo_safe := true; mo_reason := Some "known_safe"; mo_score := None;
               mo_reasons := None; mo_confidence := 95 |}
  else
    let sr := pattern_score_ussd code in
    respond {| mo_safe := bool_decide (sr.1 < 6); mo_reason := None;
               mo_score := Some sr.1; mo_reasons := Some (take 3 sr.2);
               mo_confidence := Z.max 0 (100 - sr.1 * 10) |}.

(** The dictionary returned by [predict_legitimate]; the confidence is a
    float, taken with its exact value. *)
Record MlResult : Type := {
  legitimate : bool;
  ml_confidence : Q
}.

(** The float written [0.7]. *)
Definition float_0_7 : Q := 3152519739159347 # 4503599627370496.

(** [x > 0.7] *)
Definition above_0_7 (x : Q) : bool := negb (Qle_bool x float_0_7).

(** [calculate_enhanced_score(basic, bank, ml)] *)
Definition calculate_enhanced_score (basic : UssdResult) (bank : Bank.BankResult)
    (ml : MlResult) : Z :=
  let base_score := ur_score basic in
  let base_score :=
    if Bank.verified bank then Z.max 0 (base_score - 3) else base_score in
  let base_score :=
    if legitimate ml && above_0_7 (ml_confidence ml)
    then Z.max 0 (base_score - 2)
    else if negb (legitimate ml) && above_0_7 (ml_confidence ml)
    then Z.min 10 (base_score + 2)
    else base_score in
  Z.min 10 base_score.

(** What [check_ussd_enhanced] needs beside the store: whether the three
    optional modules were imported, the bank verifier, and the classifier. *)
Record Enhanced : Type := {
  ENHANCED_FEATURES : bool;
  bank_verifier : Bank.BankVerification;
  predict_legitimate : string → MlResult
}.

(** The dictionary returned by [check_ussd_enhanced]. *)
Record EnhancedResult : Type := {
  er_basic : UssdResult;
  er_bank_verified : bool;
  er_bank_source : string;
  er_bank_name : string;
  er_ml_legitimate : bool;
  er_ml_confidence : Q;
  er_enhanced_score : Z
}.

(** [check_ussd_enhanced(code, full_mode)], the handler of
    [/check-ussd-enhanced]; it also leaves the bank verifier's new state. *)
Definition check_ussd_enhanced (env : Enhanced) (code : string) (full_mode : bool)
    (w : World) : response EnhancedResult * World * Bank.BankVerification :=
  if String.eqb code EmptyString
  then (HTTPException 400 "USSD code required", w, bank_verifier env) else
  if negb (ENHANCED_FEATURES env)
  then (HTTPException 503
          "Enhanced features not available. Please install ML dependencies.",
        w, bank_verifier env) else
  let norm := normalize_ussd code in
  match check_ussd code full_mode w with
  | (HTTPException c d, w') => (HTTPException c d, w', bank_verifier env)
  | (OK basic_result, w') =>
      let bv := Bank.verify_ussd_code (now_isoformat w') norm (bank_verifier env) in
      let ml_analysis := predict_legitimate env norm in
      (OK {| er_basic := basic_result;
             er_bank_verified := Bank.verified bv.1;
             er_bank_source := Bank.source bv.1;
             er_bank_name := Bank.bank bv.1;
             er_ml_legitimate := legitimate ml_analysis;
             er_ml_confidence := ml_confidence ml_analysis;
             er_enhanced_score :=
               calculate_enhanced_score basic_result bv.1 ml_analysis |},
       w', bv.2)
  end.

Section CurationMore.

(** [str.upper()], as for [normalize_code]. *)
Variable str_upper : string → string.

(** [any(normalize_code(c["code"]) == normalized_code for c in curated_codes)] *)
Definition code_exists (normalized_code : string) (curated_codes : list CuratedCode)
    : bool :=
  Py.any (λ c, bool_decide (normalize_code str_upper (cc_code c) = normalized_code))
         curated_codes.

(** [add_curated_code(request)], the handler of [/curation/add]. *)
Definition add_curated_code (request : CurationRequest) : handler string :=
  let* curated_codes := ask load_curated_codes in
  let normalized_code := normalize_code str_upper (cr_code request) in
  if code_exists normalized_code curated_codes
  then raise 400 "Code already exists in database" else
  let* ts := datetime_datetime_now_isoformat in
  let new_code :=
    {| cc_code := cr_code request;
       cc_type := cr_type request;
       cc_provider := cr_provider request;
       cc_description := cr_description request;
       cc_reference := cr_reference request;
       cc_added_by := "admin";
       cc_timestamp := ts;
       cc_verified := true |} in
  let* _ := save_curated_codes (curated_codes ++ [new_code]) in
  let* _ := add_safe_line normalized_code in
  respond ("Code " +:+ cr_code request +:+ " added successfully").

(** The loop of [bulk_add_codes]; an item without the key [code] raises
    [KeyError], which the server answers with 500. *)
Fixpoint bulk_loop (codes : list BulkItem) (curated_codes : list CuratedCode)
    (added_count : nat) : handler (list CuratedCode * nat) :=
  match codes with
  | [] => respond (curated_codes, added_count)
  | code_data :: rest =>
      match bi_code code_data with
      | None => raise 500 "Internal Server Error"
      | Some code =>
          let normalized_code := normalize_code str_upper code in
          if code_exists normalized_code curated_codes
          then bulk_loop rest curated_codes added_count
          else
            let* ts := datetime_datetime_now_isoformat in
            let new_code :=
              {| cc_code := code;
                 cc_type := default "other" (bi_type code_data);
                 cc_provider := default "Unknown" (bi_provider code_data);
                 cc_description := default EmptyString (bi_description code_data);
                 cc_reference := "bulk_import";
                 cc_added_by := "admin";
                 cc_timestamp := ts;
                 cc_verified := true |} in
            let* _ := add_safe_line normalized_code in
            bulk_loop rest (curated_codes ++ [new_code]) (S added_count)
      end
  end.

(** [bulk_add_codes(request)], the handler of [/curation/bulk-add]. *)
Definition bulk_add_codes (codes : list BulkItem) : handler string :=
  let* curated_codes := ask load_curated_codes in
  let* '(curated_codes, added_count) := bulk_loop codes curated_codes 0 in
  let* _ := save_curated_codes curated_codes in
  respond ("Added " +:+ pretty added_count +:+ " new codes").

(** [delete_curated_code(request)], the handler of [/curation/delete]. *)
Definition delete_curated_code (code : string) : handler string :=
  let* curated_codes := ask load_curated_codes in
  let normalized_target := normalize_code str_upper code in
  let filtered_codes :=
    filter (λ c, normalize_code str_upper (cc_code c) ≠ normalized_target)
           curated_codes in
  if bool_decide (length filtered_codes = length curated_codes)
  then raise 404 "Code not found in database" else
  let* _ := save_curated_codes filtered_codes in
  respond ("Code " +:+ code +:+ " deleted successfully").

(** The normalized code of a curated code. *)
Definition code_key (c : CuratedCode) : string :=
  normalize_code str_upper (cc_code c).

(** No two curated codes have the same normalized code. *)
Definition distinct_codes (curated_codes : list CuratedCode) : Prop :=
  NoDup (code_key <$> curated_codes).

End CurationMore.

(** *** The server: requests answered one after the other *)

(** A request to one of the endpoints above. *)
Inductive request : Type :=
| ReqCheckUssd (code : string) (full_mode : bool)
| ReqCheckSmsScam (content : string)
| ReqMobileCheck (code : string)
| ReqSubmitReport (report : ReportRequest)
| ReqGetReports (st : option string)
| ReqUpdateReport (data : UpdateReportStatus)
| ReqCurationStats
| ReqCuratedCodes
| ReqPendingReports
| ReqCurationAdd (request : CurationRequest)
| ReqBulkAdd (codes : list BulkItem)
| ReqApproveReport (request : CodeActionRequest)
| ReqRejectReport (request : CodeActionRequest)
| ReqCurationDelete (code : string).

Section Server.

Variable str_upper : string → string.

(** The store after the request has been answered, be it with a body or
    with an error. *)
Definition serve (w : World) (rq : request) : World :=
  match rq with
  | ReqCheckUssd code full_mode => world_after (check_ussd code full_mode) w
  | ReqCheckSmsScam content => world_after (check_sms_scam content) w
  | ReqMobileCheck code => world_after (mobile_check_ussd code) w
  | ReqSubmitReport report => world_after (submit_report report) w
  | ReqGetReports st => world_after (get_reports st) w
  | ReqUpdateReport data => world_after (update_report_status data) w
  | ReqCurationStats => world_after get_curation_stats w
  | ReqCuratedCodes => world_after get_curated_codes w
  | ReqPendingReports => world_after get_pending_reports w
  | ReqCurationAdd request => world_after (add_curated_code str_upper request) w
  | ReqBulkAdd codes => world_after (bulk_add_codes str_upper codes) w
  | ReqApproveReport request => world_after (approve_report str_upper request) w
  | ReqRejectReport request => world_after (reject_report request) w
  | ReqCurationDelete code => world_after (delete_curated_code str_upper code) w
  end.

(** The store after a sequence of requests. *)
Definition serve_all (w : World) (rqs : list request) : World :=
  foldl serve w rqs.

End Server.

(** A report with its status left out. *)
Definition without_status (r : Report) : Report := with_status EmptyString r.

(** One write to the store, of the four kinds that the handlers above
    perform: the status of a stored report is overwritten, the normalized
    content of a stored report is appended to the safe list or to the
    blacklist, or the curated codes are replaced by some of them. *)
Inductive write : World → World → Prop :=
| write_status (w : World) (i : nat) (r : Report) (s : string) :
    read_reports w !! i = Some r →
    write w (set_reports (Holds (<[i := with_status s r]> (read_reports w))) w)
| write_safe_line (w : World) (i : nat) (r : Report) :
    read_reports w !! i = Some r →
    write w (set_safe_txt
               (append_line (normalize_ussd (report_content r))
                  (OFFLINE_USSD_CODES w)) w)
| write_blacklist_line (w : World) (i : nat) (r : Report) :
    read_reports w !! i = Some r →
    write w (set_blacklist_txt
               (append_line (normalize_ussd (report_content r))
                  (BLACKLIST_USSD w)) w)
| write_curated (w : World) (cs : list CuratedCode) :
    cs `sublist_of` load_curated_codes w →
    write w (set_curated (Holds cs) w).

(** An item of a bulk request whose code is among the curated codes. *)
Definition already_curated (str_upper : string → string)
    (curated_codes : list CuratedCode) (item : BulkItem) : Prop :=
  ∃ code, bi_code item = Some code
          ∧ code_exists str_upper (normalize_code str_upper code) curated_codes = true.

(** *** Sample runs *)

(** A list file that holds the one code [*901#]. *)
Definition file_with_901 : option string :=
  Some ("*901#" +:+ String Re.newline EmptyString).

(** A store whose blacklist file holds that one code, as an operator
    leaves it there. *)
Definition world_with_blacklist_file : World :=
  set_blacklist_txt file_with_901 fresh_world.

(** The optional modules are there, the verifier starts without a cache
    file, and the classifier calls every code legitimate. *)
Definition sample_enhanced : Enhanced :=
  {| ENHANCED_FEATURES := true;
     bank_verifier := Bank.load_cache Unreadable true;
     predict_legitimate := λ _, {| legitimate := true; ml_confidence := 9 # 10 |} |}.

(** A curator adds the code [*770#]. *)
Definition request_for_770 : CurationRequest :=
  {| cr_code := "*770#"; cr_type := "bank"; cr_provider := "Fidelity Bank";
     cr_description := "Airtime top-up"; cr_reference := "bank website" |}.

(** *** Properties of the store that handlers keep *)

(** Both code lists are missing, empty, or end with a newline. *)
Definition lists_terminated (w : World) : Prop :=
  PyMore.terminated (OFFLINE_USSD_CODES w) ∧ PyMore.terminated (BLACKLIST_USSD w).

End AppMore.

(** ** [cyberguard_clean.py]: loading the database and dispatching a check *)

Module CleanMore.
Import Clean.

(** [load_database()]: the decoded file, or the empty database when the
    file is missing or does not decode. *)
Definition load_database (file : App.json_file Database) : Database :=
  App.try_return (App.loads_read_text file) empty_database.

(** The body of the answer of [handle_check]. *)
Inductive CheckAnswer : Type :=
| Checked (result : CheckResult)
| NoInput.

Section Dispatch.

Variable re_search_ignorecase : string → string → option bool.
Variable database : Database.

(** [handle_check()], on the parameters [code] and [sms] of the query
    (each the empty string when absent). *)
Definition handle_check (code sms : string) : CheckAnswer :=
  match code with
  | String _ _ => Checked (check_ussd_code re_search_ignorecase database code)
  | EmptyString =>
      match sms with
      | String _ _ => Checked (check_sms_message sms)
      | EmptyString => NoInput
      end
  end.

End Dispatch.

End CleanMore.

(** * Properties *)

(** ** The matcher decides the language of a pattern *)

Module ReFacts.
Import Re.

Lemma app_empty (s : string) : EmptyString +:+ s = s.
Proof. reflexivity. Qed.

Lemma app_String (a : ascii) (s t : string) : String a s +:+ t = String a (s +:+ t).
Proof. reflexivity. Qed.

Lemma app_eq_empty (s t : string) :
  s +:+ t = EmptyString → s = EmptyString ∧ t = EmptyString.
Proof. destruct s; [rewrite app_empty; auto | rewrite app_String; discriminate]. Qed.

Lemma Lang_Void_inv (s : string) : ¬ Lang Void s.
Proof. inversion 1. Qed.

Lemma Lang_Eps_inv (s : string) : Lang Eps s → s = EmptyString.
Proof. by inversion 1. Qed.

Lemma Lang_cat (r1 r2 : regex) (s : string) : Lang (cat r1 r2) s ↔ Lang (Cat r1 r2) s.
Proof.
  split.
  - destruct r1, r2; simpl; intros H; try exact H;
      try (by apply Lang_Void_inv in H);
      by apply (LCat Eps _ EmptyString s); [constructor|].
  - intros H. inversion H as [| |? ? s1 s2 H1 H2| | | |]; subst.
    destruct r1; try (by apply Lang_Void_inv in H1);
      destruct r2; try (by apply Lang_Void_inv in H2); simpl; try exact H;
      apply Lang_Eps_inv in H1; subst; by rewrite app_empty.
Qed.

Lemma Lang_alt (r1 r2 : regex) (s : string) : Lang (alt r1 r2) s ↔ Lang (Alt r1 r2) s.
Proof.
  split.
  - destruct r1, r2; simpl; intros H; try exact H;
      solve [by apply LAltL | by apply LAltR].
  - intros H. inversion H as [| | |? ? ? H1|? ? ? H2| |]; subst.
    + destruct r1; try (by apply Lang_Void_inv in H1);
        destruct r2; simpl; solve [exact H1 | by apply LAltL].
    + destruct r2; try (by apply Lang_Void_inv in H2);
        destruct r1; simpl; solve [exact H2 | by apply LAltR].
Qed.

Lemma nullable_Lang (r : regex) : nullable r = true ↔ Lang r EmptyString.
Proof.
  split.
  - induction r as [| |p|r1 IH1 r2 IH2|r1 IH1 r2 IH2|r IH]; simpl; intros H;
      try discriminate.
    + constructor.
    + apply andb_true_iff in H as [H1 H2].
      apply (LCat r1 r2 EmptyString EmptyString); auto.
    + apply orb_true_iff in H as [H|H]; [apply LAltL | apply LAltR]; auto.
    + constructor.
  - intros H. remember EmptyString as s eqn:Hs.
    induction H as [|p a Hp|r1 r2 s1 s2 H1 IH1 H2 IH2|r1 r2 s H1 IH1
                    |r1 r2 s H2 IH2|r|r s1 s2 H1 IH1 H2 IH2]; simpl; try done.
    + apply app_eq_empty in Hs as [-> ->]. by rewrite IH1, IH2.
    + by rewrite IH1.
    + rewrite IH2 by done. apply orb_true_r.
Qed.

Lemma deriv_sound (a : ascii) (r : regex) (s : string) :
  Lang (deriv a r) s → Lang r (String a s).
Proof.
  revert s.
  induction r as [| |p|r1 IH1 r2 IH2|r1 IH1 r2 IH2|r IH]; simpl; intros s H.
  - by apply Lang_Void_inv in H.
  - by apply Lang_Void_inv in H.
  - destruct (p a) eqn:Hp; [|by apply Lang_Void_inv in H].
    apply Lang_Eps_inv in H as ->. by constructor.
  - assert (Hcat : ∀ t, Lang (cat (deriv a r1) r2) t → Lang (Cat r1 r2) (String a t)).
    { intros t Ht. apply Lang_cat in Ht.
      inversion Ht as [| |? ? s1 s2 H1 H2| | | |]; subst.
      apply (LCat r1 r2 (String a s1) s2); auto. }
    destruct (nullable r1) eqn:Hn; [|by apply Hcat].
    apply Lang_alt in H. inversion H as [| | |? ? ? H1|? ? ? H2| |]; subst.
    + by apply Hcat.
    + apply (LCat r1 r2 EmptyString (String a s));
        [by apply nullable_Lang | auto].
  - apply Lang_alt in H. inversion H; subst; [apply LAltL | apply LAltR]; auto.
  - apply Lang_cat in H. inversion H as [| |? ? s1 s2 H1 H2| | | |]; subst.
    apply (LStarS r (String a s1) s2); auto.
Qed.

Lemma deriv_complete (a : ascii) (r : regex) (s : string) :
  Lang r (String a s) → Lang (deriv a r) s.
Proof.
  intros H. remember (String a s) as w eqn:Hw. revert s Hw.
  induction H as [|p b Hp|r1 r2 s1 s2 H1 IH1 H2 IH2|r1 r2 t H1 IH1
                  |r1 r2 t H2 IH2|r|r s1 s2 H1 IH1 H2 IH2]; intros s Hw;
    simpl; try discriminate.
  - injection Hw as -> <-. rewrite Hp. constructor.
  - destruct s1 as [|c s1].
    + rewrite app_empty in Hw.
      apply nullable_Lang in H1. rewrite H1.
      apply Lang_alt, LAltR. by apply IH2.
    + rewrite app_String in Hw. injection Hw as -> <-.
      assert (Lang (cat (deriv a r1) r2) (s1 +:+ s2)).
      { apply Lang_cat. constructor; [by apply IH1 | done]. }
      destruct (nullable r1); [by apply Lang_alt, LAltL | done].
  - apply Lang_alt, LAltL. by apply IH1.
  - apply Lang_alt, LAltR. by apply IH2.
  - destruct s1 as [|c s1].
    + rewrite app_empty in Hw. by apply IH2.
    + rewrite app_String in Hw. injection Hw as -> <-.
      apply Lang_cat. constructor; [by apply IH1 | done].
Qed.

(** [matches] accepts exactly the words of the pattern. *)
Theorem matches_Lang (r : regex) (s : string) : matches r s = true ↔ Lang r s.
Proof.
  revert r. induction s as [|a s IH]; intros r; simpl.
  - apply nullable_Lang.
  - rewrite IH. split; [apply deriv_sound | apply deriv_complete].
Qed.

Lemma Lang_anystar (s : string) : Lang (Star anychar) s.
Proof.
  induction s as [|a s IH]; [constructor|].
  apply (LStarS anychar (String a EmptyString) s); [by constructor | done].
Qed.

(** [search] finds a word of the pattern somewhere in the text. *)
Theorem search_spec (r : regex) (s : string) :
  search r s = true ↔ ∃ pre mid post, s = pre +:+ mid +:+ post ∧ Lang r mid.
Proof.
  unfold search. rewrite matches_Lang. split.
  - intros H. inversion H as [| |? ? pre rest _ Hrest| | | |]; subst.
    inversion Hrest as [| |? ? mid post Hmid _| | | |]; subst. eauto.
  - intros (pre & mid & post & -> & Hmid).
    repeat constructor; auto using Lang_anystar.
Qed.

Lemma app_empty_r (s : string) : s +:+ EmptyString = s.
Proof. induction s; [done|]. rewrite app_String. by f_equal. Qed.

(** [match_dollar] accepts a word of the pattern, or one followed by a
    final newline. *)
Theorem match_dollar_spec (r : regex) (s : string) :
  match_dollar r s = true
  ↔ Lang r s ∨ ∃ s', s = s' +:+ String newline EmptyString ∧ Lang r s'.
Proof.
  unfold match_dollar. rewrite matches_Lang. split.
  - intros H. inversion H as [| |? ? s1 s2 H1 H2| | | |]; subst.
    inversion H2 as [| | |? ? ? Hnl|? ? ? Heps| |]; subst.
    + inversion Hnl as [|? a Ha| | | | |]; subst.
      apply Ascii.eqb_eq in Ha as <-. eauto.
    + inversion Heps; subst. left. by rewrite app_empty_r.
  - intros [H|(s' & -> & H)].
    + rewrite <- (app_empty_r s).
      apply (LCat r _ s EmptyString); [done|]. apply LAltR. constructor.
    + apply (LCat r _ s'); [done|]. apply LAltL. constructor. apply Ascii.eqb_refl.
Qed.

End ReFacts.

(** ** Substrings *)

Module PyFacts.
Import ReFacts.

Lemma startswith_spec (s p : string) :
  Py.startswith s p = true ↔ ∃ post, s = p +:+ post.
Proof.
  revert s. induction p as [|b p IH]; intros s; simpl.
  - split; [|done]. intros _. by exists s.
  - destruct s as [|a s].
    + split; [done|]. intros [post H]. rewrite app_String in H. discriminate.
    + rewrite andb_true_iff, Ascii.eqb_eq, IH. split.
      * intros [-> [post ->]]. by exists post.
      * intros [post H]. rewrite app_String in H. injection H as -> ->. eauto.
Qed.

(** [contains k s] holds exactly when [k] is a substring of [s]. *)
Theorem contains_spec (k s : string) :
  Py.contains k s = true ↔ ∃ pre post, s = pre +:+ k +:+ post.
Proof.
  induction s as [|a s IH]; simpl.
  - rewrite orb_false_r, startswith_spec. split.
    + intros [post H]. by exists EmptyString, post.
    + intros (pre & post & H). destruct pre; [eauto|].
      rewrite app_String in H. discriminate.
  - rewrite orb_true_iff, startswith_spec, IH. split.
    + intros [[post H]|(pre & post & ->)].
      * by exists EmptyString, post.
      * by exists (String a pre), post.
    + intros (pre & post & H). destruct pre as [|b pre].
      * left. by exists post.
      * right. rewrite app_String in H. injection H as -> ->. eauto.
Qed.

End PyFacts.

(** ** The two scorers: bounds and thresholds *)

Module ScoreFacts.
Import App.

Lemma hits_nonneg kws low : 0 ≤ hits kws low.
Proof. induction kws as [|k kws IH]; simpl; [done|]. destruct (Py.contains k low); lia. Qed.

Lemma hits_pos k kws low : k ∈ kws → Py.contains k low = true → 1 ≤ hits kws low.
Proof.
  induction 1 as [k kws|k k' kws Hin IH]; simpl; intros Hc.
  - rewrite Hc. pose proof (hits_nonneg kws low). lia.
  - specialize (IH Hc). destruct (Py.contains k' low); lia.
Qed.

Lemma keyword_loop_fst kws pts label low st :
  (keyword_loop kws pts label low st).1 = st.1 + pts * hits kws low.
Proof.
  unfold keyword_loop. revert st.
  induction kws as [|k kws IH]; intros st; simpl; [lia|].
  rewrite IH. destruct (Py.contains k low); simpl; lia.
Qed.

Lemma contains_nonempty k s :
  k ≠ EmptyString → Py.contains k (Py.lower s) = true → s ≠ EmptyString.
Proof. intros Hk Hc ->. by destruct k. Qed.

Lemma elem_of_known_safe c :
  c ∈ KNOWN_SAFE_CODES ↔ c ∈ KNOWN_SAFE_CODES_literal.
Proof. unfold KNOWN_SAFE_CODES. apply elem_of_list_to_set. Qed.

Lemma known_safe_codes_checked :
  forallb (λ c, String.eqb (normalize_ussd c) c
                && forallb (λ k, negb (Py.contains k (Py.lower c))) high_risk_kw)
          KNOWN_SAFE_CODES_literal = true.
Proof. vm_compute. reflexivity. Qed.

Lemma known_safe_codes_normalized c :
  c ∈ KNOWN_SAFE_CODES → normalize_ussd c = c.
Proof.
  intros Hc%elem_of_known_safe%list_elem_of_In.
  pose proof known_safe_codes_checked as H.
  rewrite List.forallb_forall in H. apply H in Hc.
  apply andb_true_iff in Hc as [Hc _]. by apply String.eqb_eq.
Qed.

Lemma known_safe_codes_no_keyword c k :
  c ∈ KNOWN_SAFE_CODES → k ∈ high_risk_kw → Py.contains k (Py.lower c) = false.
Proof.
  intros Hc%elem_of_known_safe%list_elem_of_In Hk%list_elem_of_In.
  pose proof known_safe_codes_checked as H.
  rewrite List.forallb_forall in H. apply H in Hc.
  apply andb_true_iff in Hc as [_ Hc].
  rewrite List.forallb_forall in Hc. apply Hc in Hk.
  by apply negb_true_iff.
Qed.

Lemma hit_if_ge (b : bool) (pts : Z) (r : string) (st : acc) :
  0 ≤ pts → st.1 ≤ (if b then hit pts r st else st).1.
Proof. destruct b; unfold hit; simpl; lia. Qed.

Lemma ussd_rules_nonneg (c : string) : 0 ≤ (ussd_rules c).1.
Proof.
  unfold ussd_rules. cbv zeta.
  do 4 (etrans; [|apply hit_if_ge; lia]).
  rewrite !keyword_loop_fst.
  pose proof (hits_nonneg high_risk_kw (Py.lower c)).
  pose proof (hits_nonneg medium_risk_kw (Py.lower c)).
  destruct (is_ussd_format c), (Py.any (Py.startswith c) SAFE_PREFIX_PATTERNS);
    repeat case_bool_decide; unfold hit; cbn [fst snd negb]; lia.
Qed.

Lemma ussd_rules_keyword (c k : string) :
  k ∈ high_risk_kw → Py.contains k (Py.lower c) = true → 8 ≤ (ussd_rules c).1.
Proof.
  intros Hk Hc.
  pose proof (hits_pos k high_risk_kw _ Hk Hc).
  pose proof (hits_nonneg medium_risk_kw (Py.lower c)).
  unfold ussd_rules. cbv zeta.
  do 4 (etrans; [|apply hit_if_ge; lia]).
  rewrite !keyword_loop_fst.
  destruct (is_ussd_format c), (Py.any (Py.startswith c) SAFE_PREFIX_PATTERNS);
    repeat case_bool_decide; unfold hit; cbn [fst snd negb]; lia.
Qed.

(** C2.  A code whose normalized form contains [bvn], [pin] or [password]
    in any letter case, and which is not in the whitelist, gets a score of
    at least 8 after the cap, which is the SCAM threshold. *)
Theorem high_risk_keyword_reaches_threshold (code k : string) :
  k ∈ ["bvn"; "pin"; "password"] →
  Py.contains k (Py.lower (normalize_ussd code)) = true →
  code ∉ KNOWN_SAFE_CODES →
  8 ≤ (pattern_score_ussd code).1 ≤ 10.
Proof.
  intros Hk Hc _.
  assert (Hk' : k ∈ high_risk_kw).
  { unfold high_risk_kw. rewrite !elem_of_cons in *. tauto. }
  assert (Hne : k ≠ EmptyString).
  { intros ->. rewrite !elem_of_cons, elem_of_nil in Hk.
    destruct Hk as [|[|[|[]]]]; discriminate. }
  pose proof (contains_nonempty k _ Hne Hc) as Hc0.
  pose proof (ussd_rules_keyword _ k Hk' Hc) as Hrules.
  unfold pattern_score_ussd. cbv zeta.
  destruct (String.eqb_spec (normalize_ussd code) EmptyString) as [|_]; [done|].
  case_bool_decide as Hsafe.
  { by rewrite (known_safe_codes_no_keyword _ k) in Hc. }
  cbn [fst]. lia.
Qed.

Lemma high_risk_keyword_reaches_threshold_witness :
  ("bvn" ∈ ["bvn"; "pin"; "password"])
  ∧ Py.contains "bvn" (Py.lower (normalize_ussd "*555*BVN#")) = true
  ∧ ("*555*BVN#" ∉ KNOWN_SAFE_CODES)
  ∧ 8 ≤ (pattern_score_ussd "*555*BVN#").1 ≤ 10.
Proof.
  assert (H1 : "bvn" ∈ ["bvn"; "pin"; "password"]) by apply list_elem_of_here.
  assert (H2 : Py.contains "bvn" (Py.lower (normalize_ussd "*555*BVN#")) = true)
    by reflexivity.
  assert (H3 : "*555*BVN#" ∉ KNOWN_SAFE_CODES).
  { apply (bool_decide_eq_false_1 _). vm_compute. reflexivity. }
  split; [exact H1|]. split; [exact H2|]. split; [exact H3|].
  exact (high_risk_keyword_reaches_threshold _ _ H1 H2 H3).
Defined.

Lemma scam_indicators_literal_nonneg (k : string) (v : Z) :
  scam_indicators_literal !! k = Some v → 0 ≤ v.
Proof.
  unfold scam_indicators_literal. intros H%elem_of_list_to_map_2.
  rewrite !elem_of_cons, elem_of_nil in H.
  repeat destruct H as [[= -> ->]|H]; lia || done.
Qed.

Lemma scam_indicators_nonneg (n : Z) (k : string) (v : Z) :
  0 ≤ n → <["otp" := n]> scam_indicators_literal !! k = Some v → 0 ≤ v.
Proof.
  intros Hn [[_ <-]|[_ H]]%lookup_insert_Some; [done|].
  by apply scam_indicators_literal_nonneg in H.
Qed.

Lemma word_loop_ge (m : gmap string Z) (words : list string) (st : Z * list string) :
  (∀ k v, m !! k = Some v → 0 ≤ v) → st.1 ≤ (word_loop m words st).1.
Proof.
  intros Hm. unfold word_loop. revert st.
  induction words as [|w words IH]; intros st; simpl; [done|].
  etrans; [|apply IH].
  destruct (m !! w) as [v|] eqn:Hw; simpl; [|done].
  apply Hm in Hw. lia.
Qed.

Lemma pattern_loop_ge (normalized : string) (st : acc) :
  st.1 ≤ (pattern_loop normalized st).1.
Proof.
  unfold pattern_loop.
  assert (Hpts : Forall (λ p : Re.regex * Z * string, 0 ≤ p.1.2) patterns).
  { unfold patterns. repeat constructor; simpl; lia. }
  revert st. induction Hpts as [|p ps Hp _ IH]; intros st; simpl; [done|].
  etrans; [|apply IH]. by apply hit_if_ge.
Qed.

Lemma sms_rules_nonneg (normalized : string) (words : list string) :
  0 ≤ (sms_rules normalized words).1.
Proof.
  unfold sms_rules. cbv zeta.
  match goal with
  | |- _ ≤ (if ?b then _ else ?st).1 =>
      assert (0 ≤ st.1); [|destruct b; cbn [fst]; lia]
  end.
  etrans; [|apply pattern_loop_ge]. cbn [fst].
  etrans; [|apply word_loop_ge]; [done|].
  intros k v. destruct (_ && _); apply scam_indicators_nonneg; lia.
Qed.

(** The score is the sentinel 100 or lies within the cap. *)
Lemma pattern_score_ussd_range (code : string) :
  (pattern_score_ussd code).1 = 100 ∨ 0 ≤ (pattern_score_ussd code).1 ≤ 10.
Proof.
  unfold pattern_score_ussd. cbv zeta.
  destruct (String.eqb _ _); [by left|].
  case_bool_decide; right; cbn [fst]; lia.
Qed.

(** C1 (amended).  When the normalized code is not empty the USSD score
    lies in [0,10], and an empty normalized code returns the score 100.
    For every text the SMS confidence lies in [0,10]; the [score] key
    beside it, when present, is the uncapped sum: it is at least 0 and the
    confidence is its minimum with 10. *)
Theorem scores_are_clamped (code content : string) :
  (normalize_ussd code ≠ EmptyString → 0 ≤ (pattern_score_ussd code).1 ≤ 10)
  ∧ (normalize_ussd code = EmptyString →
     pattern_score_ussd code = (100, ["Empty code"]))
  ∧ 0 ≤ confidence (improved_check_sms_scam content) ≤ 10
  ∧ (∀ raw, score (improved_check_sms_scam content) = Some raw →
       0 ≤ raw ∧ confidence (improved_check_sms_scam content) = Z.min raw 10).
Proof.
  split; [|split].
  - intros Hne. unfold pattern_score_ussd. cbv zeta.
    destruct (String.eqb_spec (normalize_ussd code) EmptyString); [done|].
    case_bool_decide; cbn [fst]; lia.
  - intros Hc. unfold pattern_score_ussd. cbv zeta. by rewrite Hc.
  - unfold improved_check_sms_scam. cbv zeta.
    destruct (String.eqb content EmptyString); [by split; [|intros raw [=]]|].
    destruct (is_ussd_format _); [by split; [|intros raw [=]]|].
    destruct (Py.any _ legitimate_patterns); [by split; [|intros raw [=]]|].
    pose proof (sms_rules_nonneg
      (Py.translate_delete Py.punctuation (Py.lower content))
      (Py.split_ws (Py.translate_delete Py.punctuation (Py.lower content)))).
    simpl. split; [lia|]. intros raw [= <-]. split; [done|lia].
Qed.

Lemma scores_are_clamped_witness :
  normalize_ussd "*555*1234567*bvn*bvn#" ≠ EmptyString
  ∧ 0 ≤ (pattern_score_ussd "*555*1234567*bvn*bvn#").1 ≤ 10
  ∧ normalize_ussd "   " = EmptyString
  ∧ pattern_score_ussd "   " = (100, ["Empty code"])
  ∧ 0 ≤ confidence (improved_check_sms_scam "You won a prize call 0801") ≤ 10.
Proof.
  assert (Hne : normalize_ussd "*555*1234567*bvn*bvn#" ≠ EmptyString) by discriminate.
  assert (He : normalize_ussd "   " = EmptyString) by reflexivity.
  split; [exact Hne|].
  split; [exact (proj1 (scores_are_clamped "*555*1234567*bvn*bvn#" "") Hne)|].
  split; [exact He|].
  split; [exact (proj1 (proj2 (scores_are_clamped "   " "")) He)|].
  exact (proj1 (proj2 (proj2 (scores_are_clamped "" "You won a prize call 0801")))).
Defined.

(** C1, counterexample.  The empty code gets the score 100, outside
    [0,10]. *)
Lemma empty_code_scores_100 :
  (pattern_score_ussd EmptyString).1 = 100
  ∧ ¬ (0 ≤ (pattern_score_ussd EmptyString).1 ≤ 10).
Proof. split; [reflexivity|]. simpl. lia. Qed.

(** The uncapped [score] key of the SMS result can exceed 10. *)
Lemma sms_raw_score_exceeds_cap :
  score (improved_check_sms_scam "You won a prize call 0801") = Some 14
  ∧ confidence (improved_check_sms_scam "You won a prize call 0801") = 10.
Proof. split; reflexivity. Qed.

End ScoreFacts.

(** ** The [/check-ussd] endpoint *)

Module EndpointFacts.
Import App ScoreFacts.

Lemma known_safe_code_nonempty c : c ∈ KNOWN_SAFE_CODES → c ≠ EmptyString.
Proof.
  intros Hc ->. revert Hc. apply (bool_decide_eq_false_1 _). vm_compute. reflexivity.
Qed.

Lemma pattern_score_known_safe (code : string) :
  code ∈ KNOWN_SAFE_CODES →
  pattern_score_ussd code = (0, ["Known safe telco/bank code"]).
Proof.
  intros Hc. unfold pattern_score_ussd. cbv zeta.
  rewrite (known_safe_codes_normalized code Hc).
  destruct (String.eqb_spec code EmptyString) as [He|_].
  { by apply known_safe_code_nonempty in Hc. }
  by rewrite bool_decide_eq_true_2.
Qed.

(** C3 (amended).  A code of the whitelist gets the score 0, and
    [/check-ussd] answers [safe = True] with score 0 for it whenever the code
    is not in the blacklist file and has no entry in the cache. *)
Theorem known_safe_code_is_safe (code : string) (w : World) (full_mode : bool) :
  code ∈ KNOWN_SAFE_CODES →
  (pattern_score_ussd code).1 = 0
  ∧ (code ∉ load_blacklist_ussd w → read_ussd_cache w !! code = None →
     ∃ r, check_ussd code full_mode w = (OK r, w)
          ∧ ur_safe r = true ∧ ur_score r = 0).
Proof.
  intros Hc. pose proof (pattern_score_known_safe code Hc) as Hs.
  split; [by rewrite Hs|]. intros Hbl Hcache.
  unfold check_ussd.
  destruct (String.eqb_spec code EmptyString) as [He|_].
  { by apply known_safe_code_nonempty in Hc. }
  cbv zeta. rewrite (known_safe_codes_normalized code Hc).
  unfold bind, ask, respond, is_online. simpl.
  rewrite (bool_decide_eq_false_2 _ Hbl), Hcache, Hs. simpl.
  case_bool_decide; destruct (full_mode && google_reachable w); simpl; eauto.
Qed.

(** C7 (amended).  For the code [*123*password*#] the format is valid, the
    known-safe prefix [*123] applies and the keyword [password] adds 8: the
    score is 8, below the cap of 10.  [/check-ussd] answers [safe = False]
    for it whenever the code is neither in the safe list file nor in the
    cache. *)
Theorem password_code_scores_eight (w : World) (full_mode : bool) :
  "*123*password*#" ∉ load_safe_ussd w →
  read_ussd_cache w !! "*123*password*#" = None →
  pattern_score_ussd "*123*password*#"
    = (8, ["Known safe prefix"; "High-risk keyword: 'password'"])
  ∧ is_ussd_format "*123*password*#" = true
  ∧ ∃ r, check_ussd "*123*password*#" full_mode w = (OK r, w) ∧ ur_safe r = false.
Proof.
  intros Hsafe Hcache.
  assert (Hs : pattern_score_ussd "*123*password*#"
    = (8, ["Known safe prefix"; "High-risk keyword: 'password'"])) by (vm_compute; reflexivity).
  split; [exact Hs|]. split; [reflexivity|].
  unfold check_ussd. cbv zeta.
  change (normalize_ussd "*123*password*#") with "*123*password*#".
  unfold bind, ask, respond, is_online. simpl.
  case_bool_decide; simpl; [eauto|].
  rewrite Hcache, (bool_decide_eq_false_2 _ Hsafe), Hs. simpl.
  destruct (full_mode && google_reachable w); simpl; eauto.
Qed.

Lemma known_safe_code_is_safe_witness :
  ("*901#" ∈ KNOWN_SAFE_CODES)
  ∧ (pattern_score_ussd "*901#").1 = 0
  ∧ ∃ r, check_ussd "*901#" false fresh_world = (OK r, fresh_world)
         ∧ ur_safe r = true ∧ ur_score r = 0.
Proof.
  assert (H : "*901#" ∈ KNOWN_SAFE_CODES).
  { apply (bool_decide_eq_true_1 _). vm_compute. reflexivity. }
  assert (Hbl : "*901#" ∉ load_blacklist_ussd fresh_world).
  { apply (bool_decide_eq_false_1 _). vm_compute. reflexivity. }
  assert (Hcache : read_ussd_cache fresh_world !! "*901#" = None) by reflexivity.
  pose proof (known_safe_code_is_safe "*901#" fresh_world false H) as [Hs Hr].
  split; [exact H|]. split; [exact Hs|]. exact (Hr Hbl Hcache).
Defined.

(** C3, counterexample.  The code [*901#] is in the whitelist, and
    [/check-ussd] answers [safe = False] with score 10 for it on a store
    whose blacklist file holds the code, and likewise on a store whose
    report database holds a report of the code, after a moderator has put
    the code on the blacklist through update-report. *)
Lemma blacklisted_known_safe_code_is_unsafe :
  ("*901#" ∈ KNOWN_SAFE_CODES)
  ∧ answer (check_ussd "*901#" false) AppMore.world_with_blacklist_file
    = OK {| ur_code := "*901#"; ur_safe := false; ur_score := 10;
            ur_reasons := ["Blacklisted"]; ur_verified_online := false;
            ur_source := None; ur_cached := false |}
  ∧ answer (check_ussd "*901#" false) world_blacklisting_901
    = OK {| ur_code := "*901#"; ur_safe := false; ur_score := 10;
            ur_reasons := ["Blacklisted"]; ur_verified_online := false;
            ur_source := None; ur_cached := false |}.
Proof.
  split; [|split].
  - apply (bool_decide_eq_true_1 _). vm_compute. reflexivity.
  - vm_compute. reflexivity.
  - vm_compute. reflexivity.
Qed.

Lemma password_code_scores_eight_witness :
  ("*123*password*#" ∉ load_safe_ussd fresh_world)
  ∧ read_ussd_cache fresh_world !! "*123*password*#" = None
  ∧ pattern_score_ussd "*123*password*#"
    = (8, ["Known safe prefix"; "High-risk keyword: 'password'"])
  ∧ is_ussd_format "*123*password*#" = true
  ∧ ∃ r, check_ussd "*123*password*#" false fresh_world = (OK r, fresh_world)
         ∧ ur_safe r = false.
Proof.
  assert (Hsafe : "*123*password*#" ∉ load_safe_ussd fresh_world).
  { apply (bool_decide_eq_false_1 _). vm_compute. reflexivity. }
  assert (Hcache : read_ussd_cache fresh_world !! "*123*password*#" = None)
    by reflexivity.
  split; [exact Hsafe|]. split; [exact Hcache|].
  exact (password_code_scores_eight fresh_world false Hsafe Hcache).
Defined.

(** C7, counterexample.  The score of [*123*password*#] is 8: it does not
    reach the cap of 10. *)
Lemma password_code_is_below_the_cap :
  (pattern_score_ussd "*123*password*#").1 = 8
  ∧ (pattern_score_ussd "*123*password*#").1 ≠ 10.
Proof. split; [vm_compute; reflexivity | vm_compute; discriminate]. Qed.

(** The answer of [/check-ussd], unlike the score, depends on the store. *)
Lemma check_ussd_depends_on_the_store :
  answer (check_ussd "*901#" false) fresh_world
  ≠ answer (check_ussd "*901#" false) world_blacklisting_901.
Proof. vm_compute. discriminate. Qed.

End EndpointFacts.

(** ** The SMS scorer: the two short circuits *)

Module SmsFacts.
Import App.

Lemma any_true_Exists {A} (p : A → bool) (l : list A) :
  Py.any p l = true ↔ Exists (λ x, p x = true) l.
Proof.
  unfold Py.any. rewrite List.existsb_exists, List.Exists_exists. done.
Qed.

Lemma empty_is_not_ussd_format : is_ussd_format (Py.strip EmptyString) = false.
Proof. reflexivity. Qed.

(** C10.  A text that is a USSD code once the surrounding white space is
    stripped, i.e. one that matches [^\*[\d\*\#A-Za-z]+#?$], is answered
    with [scam = False], [confidence = 0] and the one reason "USSD code
    detected"; the dictionary has no [score] key, the keyword scoring is
    not reached, whatever keywords the text contains. *)
Theorem ussd_text_is_never_scored (content : string) :
  is_ussd_format (Py.strip content) = true →
  scam (improved_check_sms_scam content) = false
  ∧ confidence (improved_check_sms_scam content) = 0
  ∧ reasons (improved_check_sms_scam content) = ["USSD code detected"]
  ∧ score (improved_check_sms_scam content) = None.
Proof.
  intros Hfmt. unfold improved_check_sms_scam.
  destruct (String.eqb_spec content EmptyString) as [->|Hne].
  - rewrite empty_is_not_ussd_format in Hfmt. discriminate.
  - rewrite Hfmt. done.
Qed.

Lemma ussd_text_is_never_scored_witness :
  is_ussd_format (Py.strip "*bvn*password#") = true
  ∧ scam (improved_check_sms_scam "*bvn*password#") = false
  ∧ confidence (improved_check_sms_scam "*bvn*password#") = 0
  ∧ reasons (improved_check_sms_scam "*bvn*password#") = ["USSD code detected"]
  ∧ score (improved_check_sms_scam "*bvn*password#") = None.
Proof.
  split; [reflexivity|].
  apply (ussd_text_is_never_scored "*bvn*password#"). reflexivity.
Defined.

(** C5.  A message whose normalized form (lower-cased, punctuation
    removed) matches one of the legitimate templates is answered with
    [scam = False] and [confidence = 0] by one of the early returns: the
    dictionary has no [score] key, no keyword was scored. *)
Theorem legitimate_template_is_not_scam (content : string) :
  Exists (λ pattern,
            Re.search pattern
              (Py.translate_delete Py.punctuation (Py.lower content)) = true)
         legitimate_patterns →
  scam (improved_check_sms_scam content) = false
  ∧ confidence (improved_check_sms_scam content) = 0
  ∧ score (improved_check_sms_scam content) = None.
Proof.
  intros Hlegit. apply any_true_Exists in Hlegit.
  unfold improved_check_sms_scam.
  destruct (String.eqb content EmptyString); [done|].
  destruct (is_ussd_format (Py.strip content)); [done|].
  rewrite Hlegit. done.
Qed.

Lemma legitimate_template_is_not_scam_witness :
  Exists (λ pattern,
            Re.search pattern
              (Py.translate_delete Py.punctuation (Py.lower "your otp is 1234")) = true)
         legitimate_patterns
  ∧ scam (improved_check_sms_scam "your otp is 1234") = false
  ∧ confidence (improved_check_sms_scam "your otp is 1234") = 0
  ∧ score (improved_check_sms_scam "your otp is 1234") = None.
Proof.
  assert (H : Exists (λ pattern,
            Re.search pattern
              (Py.translate_delete Py.punctuation (Py.lower "your otp is 1234")) = true)
         legitimate_patterns).
  { apply Exists_cons_hd. reflexivity. }
  split; [exact H|].
  exact (legitimate_template_is_not_scam "your otp is 1234" H).
Defined.

End SmsFacts.

(** ** The flat-file store *)

Module StoreFacts.
Import App.

Lemma fails_iff {A} (f : json_file A) :
  fails f ↔ f = Unreadable ∨ ∃ text, f = Malformed text.
Proof.
  unfold fails. destruct f as [|text|v]; simpl; split.
  - auto.
  - by exists OSError.
  - right. by exists text.
  - intros _. by exists (JSONDecodeError text).
  - intros [e He]. discriminate.
  - intros [H|[text H]]; discriminate.
Qed.

Lemma try_return_raises {A} (body : outcome A) (d : A) :
  (∃ e, body = Raises e) → try_return body d = d.
Proof. by intros [e ->]. Qed.

(** C9.  Whenever reading or parsing a JSON collection raises, the reader
    returns the empty default: [read_reports] the empty list,
    [read_ussd_cache] the empty dictionary, [load_curated_codes] the empty
    list.  The readers are total: no file state makes them raise. *)
Theorem read_failure_yields_empty_default (w : World) :
  (fails (COMMUNITY_REPORTS_DB w) → read_reports w = [])
  ∧ (fails (USSD_CACHE w) → read_ussd_cache w = ∅)
  ∧ (fails (CURATED_CODES_FILE w) → load_curated_codes w = []).
Proof.
  unfold read_reports, read_ussd_cache, load_curated_codes.
  repeat split; apply try_return_raises.
Qed.

Lemma read_failure_yields_empty_default_witness :
  fails (COMMUNITY_REPORTS_DB broken_world) ∧ read_reports broken_world = []
  ∧ fails (USSD_CACHE broken_world) ∧ read_ussd_cache broken_world = ∅
  ∧ fails (CURATED_CODES_FILE broken_world) ∧ load_curated_codes broken_world = [].
Proof.
  assert (H1 : fails (COMMUNITY_REPORTS_DB broken_world)) by (by eexists).
  assert (H2 : fails (USSD_CACHE broken_world)) by (by eexists).
  assert (H3 : fails (CURATED_CODES_FILE broken_world)) by (by eexists).
  pose proof (read_failure_yields_empty_default broken_world) as (R1 & R2 & R3).
  split; [exact H1|]. split; [exact (R1 H1)|].
  split; [exact H2|]. split; [exact (R2 H2)|].
  split; [exact H3|]. exact (R3 H3).
Defined.

(** A file that decodes is returned as it is. *)
Lemma read_reports_holds (w : World) (v : list Report) :
  COMMUNITY_REPORTS_DB w = Holds v → read_reports w = v.
Proof. unfold read_reports. by intros ->. Qed.

End StoreFacts.

(** ** Community reports: what the moderation endpoints do to a status *)

Module ModerationFacts.
Import App.

Lemma lookup_good_index (reports : list Report) (i : nat) (r : Report) :
  reports !! i = Some r → bad_index (Z.of_nat i) reports = false.
Proof.
  intros H%lookup_lt_Some. unfold bad_index.
  rewrite !bool_decide_eq_false_2; [done|lia..].
Qed.

Lemma read_reports_set_reports (rs : list Report) (w : World) :
  read_reports (set_reports (Holds rs) w) = rs.
Proof. reflexivity. Qed.

Lemma add_safe_line_runs (code : string) (w : World) :
  ∃ w', add_safe_line code w = (OK tt, w').
Proof.
  unfold add_safe_line, bind, ask, update, respond. simpl.
  case_bool_decide; eauto.
Qed.

Lemma add_blacklist_line_runs (code : string) (w : World) :
  ∃ w', add_blacklist_line code w = (OK tt, w').
Proof.
  unfold add_blacklist_line, bind, ask, update, respond. simpl.
  case_bool_decide; eauto.
Qed.

Lemma optional_step_runs (b : bool) (m : handler unit) (w : World) :
  (∀ w, ∃ w', m w = (OK tt, w')) →
  ∃ w', (if b then m else respond tt) w = (OK tt, w').
Proof. intros Hm. destruct b; [apply Hm|]. by exists w. Qed.

Lemma reject_report_sets (w : World) (i : nat) (r : Report) :
  read_reports w !! i = Some r →
  read_reports (world_after (reject_report {| ca_index := Z.of_nat i |}) w)
    = <[i := with_status "Rejected" r]> (read_reports w).
Proof.
  intros Hi. unfold world_after, reject_report, bind, ask, raise, respond,
    write_reports, update. simpl.
  rewrite (lookup_good_index _ _ _ Hi), Nat2Z.id. simpl.
  rewrite read_reports_set_reports.
  apply list_eq. intros j. destruct (decide (i = j)) as [<-|Hne].
  - rewrite list_lookup_alter_eq, Hi, list_lookup_insert_eq; [done|].
    by apply lookup_lt_Some in Hi.
  - by rewrite list_lookup_alter_ne, list_lookup_insert_ne.
Qed.

Lemma update_report_status_sets (w : World) (i : nat) (r : Report)
    (s : string) (action : option string) :
  read_reports w !! i = Some r →
  read_reports (world_after (update_report_status
      {| us_index := Z.of_nat i; us_status := s; us_action := action |}) w)
    = <[i := with_status s r]> (read_reports w).
Proof.
  intros Hi. unfold world_after, update_report_status, bind at 1, ask at 1. simpl.
  rewrite (lookup_good_index _ _ _ Hi), Nat2Z.id, Hi.
  unfold bind.
  match goal with
  | |- context [(if ?b then add_safe_line ?c else respond tt) w] =>
      destruct (optional_step_runs b (add_safe_line c) w (add_safe_line_runs c))
        as [w1 ->]
  end.
  match goal with
  | |- context [(if ?b then add_blacklist_line ?c else respond tt) w1] =>
      destruct (optional_step_runs b (add_blacklist_line c) w1
                  (add_blacklist_line_runs c)) as [w2 ->]
  end.
  reflexivity.
Qed.

(** For a report whose code is curated already, [approve_report] skips the
    addition and writes the status. *)
Lemma approve_report_curated_run (str_upper : string → string) (w : World)
    (i : nat) (r : Report) :
  read_reports w !! i = Some r →
  report_type r = "ussd" →
  AppMore.code_exists str_upper (normalize_code str_upper (report_content r))
    (load_curated_codes w) = true →
  approve_report str_upper {| ca_index := Z.of_nat i |} w
  = (OK "Report approved and code added to database",
     set_reports (Holds (<[i := with_status "Verified" r]> (read_reports w))) w).
Proof.
  intros Hi Hty Hex. unfold AppMore.code_exists in Hex.
  unfold approve_report, bind, ask, respond, write_reports, update. simpl.
  rewrite (lookup_good_index _ _ _ Hi), Nat2Z.id, Hi, Hty. simpl.
  by rewrite Hex.
Qed.

Lemma approve_report_sets (str_upper : string → string) (w : World) (i : nat)
    (r : Report) :
  read_reports w !! i = Some r →
  report_type r = "ussd" →
  AppMore.code_exists str_upper (normalize_code str_upper (report_content r))
    (load_curated_codes w) = true →
  read_reports (world_after (approve_report str_upper {| ca_index := Z.of_nat i |}) w)
    = <[i := with_status "Verified" r]> (read_reports w).
Proof.
  intros Hi Hty Hex. unfold world_after.
  by rewrite (approve_report_curated_run _ _ _ _ Hi Hty Hex).
Qed.

Lemma approve_report_refuses (str_upper : string → string) (w : World) (i : nat)
    (r : Report) :
  read_reports w !! i = Some r →
  report_type r ≠ "ussd" →
  approve_report str_upper {| ca_index := Z.of_nat i |} w
    = (HTTPException 400 "Not a USSD report", w).
Proof.
  intros Hi Hty%String.eqb_neq.
  unfold approve_report, bind, ask, raise. simpl.
  by rewrite (lookup_good_index _ _ _ Hi), Nat2Z.id, Hi, Hty.
Qed.

(** Outside the list the three endpoints answer 400 and write nothing. *)
Lemma moderation_bad_index (str_upper : string → string) (w : World) (index : Z)
    (s : string) (action : option string) :
  bad_index index (read_reports w) = true →
  update_report_status {| us_index := index; us_status := s; us_action := action |} w
    = (HTTPException 400 "Invalid report index", w)
  ∧ approve_report str_upper {| ca_index := index |} w
    = (HTTPException 400 "Invalid report index", w)
  ∧ reject_report {| ca_index := index |} w
    = (HTTPException 400 "Invalid report index", w).
Proof.
  intros Hbad.
  unfold update_report_status, approve_report, reject_report, bind, ask, raise.
  simpl. by rewrite Hbad.
Qed.

(** C4 (amended).  At a valid index each moderation endpoint that sets a
    status overwrites the status of that one report, whatever its current
    status is, and leaves the other reports as they were read: reject-report
    sets Rejected, update-report sets the status string that the caller
    sends, and approve-report sets Verified for a report of type ussd whose
    code is curated already, and answers 400 for a report of another type.
    For an index outside the list the three endpoints answer 400 and write
    nothing. *)
Theorem moderation_sets_status (str_upper : string → string) (w : World)
    (i : nat) (r : Report) (s : string) (action : option string) (index : Z) :
  (read_reports w !! i = Some r →
   read_reports (world_after (reject_report {| ca_index := Z.of_nat i |}) w)
     = <[i := with_status "Rejected" r]> (read_reports w)
   ∧ read_reports (world_after (update_report_status
         {| us_index := Z.of_nat i; us_status := s; us_action := action |}) w)
       = <[i := with_status s r]> (read_reports w)
   ∧ (report_type r = "ussd" →
      AppMore.code_exists str_upper (normalize_code str_upper (report_content r))
        (load_curated_codes w) = true →
      read_reports
        (world_after (approve_report str_upper {| ca_index := Z.of_nat i |}) w)
        = <[i := with_status "Verified" r]> (read_reports w))
   ∧ (report_type r ≠ "ussd" →
      approve_report str_upper {| ca_index := Z.of_nat i |} w
        = (HTTPException 400 "Not a USSD report", w)))
  ∧ (bad_index index (read_reports w) = true →
     update_report_status
       {| us_index := index; us_status := s; us_action := action |} w
       = (HTTPException 400 "Invalid report index", w)
     ∧ approve_report str_upper {| ca_index := index |} w
       = (HTTPException 400 "Invalid report index", w)
     ∧ reject_report {| ca_index := index |} w
       = (HTTPException 400 "Invalid report index", w)).
Proof.
  split; [|apply moderation_bad_index].
  intros Hi.
  split; [by apply reject_report_sets|].
  split; [by apply update_report_status_sets|].
  split; [by apply approve_report_sets | by apply approve_report_refuses].
Qed.

Lemma moderation_sets_status_witness :
  read_reports world_with_curated_report !! 0%nat = Some entry_of_901
  ∧ AppMore.code_exists Py.lower (normalize_code Py.lower "*901#")
      (load_curated_codes world_with_curated_report) = true
  ∧ status <$> read_reports
      (world_after (approve_report Py.lower {| ca_index := 0 |})
         world_with_curated_report)
    = ["Verified"]
  ∧ status <$> read_reports
      (world_after (reject_report {| ca_index := 0 |}) world_with_curated_report)
    = ["Rejected"]
  ∧ reject_report {| ca_index := 1 |} world_with_curated_report
    = (HTTPException 400 "Invalid report index", world_with_curated_report).
Proof.
  assert (H : read_reports world_with_curated_report !! 0%nat = Some entry_of_901)
    by reflexivity.
  assert (Hex : AppMore.code_exists Py.lower
                  (normalize_code Py.lower (report_content entry_of_901))
                  (load_curated_codes world_with_curated_report) = true)
    by reflexivity.
  assert (Hbad : bad_index 1 (read_reports world_with_curated_report) = true)
    by reflexivity.
  split; [exact H|]. split; [exact Hex|].
  pose proof (moderation_sets_status Py.lower world_with_curated_report 0
                entry_of_901 "Escalated" None 1) as [Hvalid Hinvalid].
  destruct (Hvalid H) as (Hreject & _ & Happrove & _).
  destruct (Hinvalid Hbad) as (_ & _ & Hrej400).
  change (Z.of_nat 0) with 0 in Happrove, Hreject.
  rewrite (Happrove eq_refl Hex), Hreject.
  split; [reflexivity|]. split; [reflexivity|exact Hrej400].
Defined.

(** C4, counterexample.  On a report database that holds one Pending
    report, update-report reaches the status Escalated, which is none of
    the three, and after a rejection it moves the report from Rejected back
    to Pending. *)
Lemma moderation_reaches_other_statuses :
  status <$> read_reports world_with_report = ["Pending"]
  ∧ status <$> read_reports
      (world_after
         (update_report_status
            {| us_index := 0; us_status := "Escalated"; us_action := None |})
         world_with_report) = ["Escalated"]
  ∧ status <$> read_reports
      (world_after (reject_report {| ca_index := 0 |}) world_with_report)
    = ["Rejected"]
  ∧ status <$> read_reports
      (world_after
         (update_report_status
            {| us_index := 0; us_status := "Pending"; us_action := None |})
         (world_after (reject_report {| ca_index := 0 |}) world_with_report))
    = ["Pending"].
Proof. repeat split; vm_compute; reflexivity. Qed.

End ModerationFacts.

(** ** The variant of [cyberguard_clean.py] against the scorers *)

Module VariantFacts.
Import App Clean ScoreFacts.

Lemma check_ussd_code_safe (f : string → string → option bool) (db : Database)
    (code : string) :
  safe (check_ussd_code f db code) = true
  ↔ ∃ sc, sc ∈ safe_codes db ∧ Py.lower (sc_code sc) = Py.strip (Py.lower code).
Proof.
  unfold check_ussd_code. cbv zeta.
  destruct (find _ (safe_codes db)) as [sc|] eqn:Hfind.
  - apply List.find_some in Hfind as [Hin Heq].
    split; [|done]. intros _. exists sc.
    split; [by apply list_elem_of_In | by apply String.eqb_eq].
  - split.
    + by repeat case_match.
    + intros (sc & Hin%list_elem_of_In & Heq).
      apply (List.find_none _ _ Hfind) in Hin.
      apply String.eqb_neq in Hin. done.
Qed.

Lemma check_ussd_code_confidence (f : string → string → option bool)
    (db : Database) (code : string) :
  confidence (check_ussd_code f db code) ∈ [95; 90; 75; 50].
Proof.
  unfold check_ussd_code. cbv zeta.
  repeat case_match; simpl; set_solver.
Qed.

Lemma find_is_Some {A} (p : A → bool) (l : list A) :
  is_Some (find p l) ↔ ∃ x, x ∈ l ∧ p x = true.
Proof.
  split.
  - intros [x [Hin Hp]%List.find_some]. exists x. by rewrite list_elem_of_In.
  - intros (x & Hin%list_elem_of_In & Hp).
    destruct (find p l) eqn:Hf; [done|].
    by rewrite (List.find_none _ _ Hf _ Hin) in Hp.
Qed.

Lemma find_None_iff {A} (p : A → bool) (l : list A) :
  find p l = None ↔ ¬ ∃ x, x ∈ l ∧ p x = true.
Proof.
  rewrite <- find_is_Some. destruct (find p l) as [x|].
  - split; [done|]. intros H. destruct H. by eexists.
  - split; [|done]. intros _ [? [=]].
Qed.

(** The four answers of [check_ussd_code], each with its case. *)
Lemma check_ussd_code_cases (f : string → string → option bool) (db : Database)
    (code : string) :
  ((∃ sc, sc ∈ safe_codes db ∧ Py.lower (sc_code sc) = Py.strip (Py.lower code)) →
   safe (check_ussd_code f db code) = true
   ∧ confidence (check_ussd_code f db code) = 95)
  ∧ ((¬ ∃ sc, sc ∈ safe_codes db
              ∧ Py.lower (sc_code sc) = Py.strip (Py.lower code)) →
     safe (check_ussd_code f db code) = false
     ∧ ((∃ p, p ∈ scam_patterns db ∧ f p (Py.strip (Py.lower code)) = Some true) →
        confidence (check_ussd_code f db code) = 90)
     ∧ ((¬ ∃ p, p ∈ scam_patterns db
                ∧ f p (Py.strip (Py.lower code)) = Some true) →
        ((∃ k, k ∈ scam_keywords db
               ∧ Py.contains k (Py.strip (Py.lower code)) = true) →
         confidence (check_ussd_code f db code) = 75)
        ∧ ((¬ ∃ k, k ∈ scam_keywords db
                   ∧ Py.contains k (Py.strip (Py.lower code)) = true) →
           confidence (check_ussd_code f db code) = 50))).
Proof.
  unfold check_ussd_code. cbv zeta.
  set (normalized := Py.strip (Py.lower code)).
  set (is_safe := λ safe_code, String.eqb (Py.lower (sc_code safe_code)) normalized).
  set (is_scam := λ pattern, default false (f pattern normalized)).
  assert (Hsafe : (∃ sc, sc ∈ safe_codes db ∧ Py.lower (sc_code sc) = normalized)
                  ↔ ∃ sc, sc ∈ safe_codes db ∧ is_safe sc = true).
  { unfold is_safe. by setoid_rewrite String.eqb_eq. }
  assert (Hscam : (∃ p, p ∈ scam_patterns db ∧ f p normalized = Some true)
                  ↔ ∃ p, p ∈ scam_patterns db ∧ is_scam p = true).
  { unfold is_scam. split; intros (p & Hin & Hp); exists p; (split; [done|]).
    - by rewrite Hp.
    - by destruct (f p normalized) as [[]|]. }
  rewrite Hsafe, Hscam.
  rewrite <- (find_None_iff is_safe), <- (find_is_Some is_safe).
  rewrite <- (find_None_iff is_scam), <- (find_is_Some is_scam).
  destruct (find is_safe (safe_codes db)) as [sc|].
  { split; [done|]. by intros [=]. }
  split; [by intros [? [=]]|]. intros _.
  destruct (find is_scam (scam_patterns db)) as [p|].
  { split; [done|]. split; [done|]. by intros [=]. }
  assert (Hkw : (∃ k, k ∈ scam_keywords db ∧ Py.contains k normalized = true)
                ↔ filter (λ keyword, Py.contains keyword normalized = true)
                         (scam_keywords db) ≠ []).
  { split.
    - intros (k & Hin & Hk) Hnil.
      assert (k ∈ filter (λ keyword, Py.contains keyword normalized = true)
                         (scam_keywords db)) as Hin' by by apply list_elem_of_filter.
      rewrite Hnil in Hin'. by apply elem_of_nil in Hin'.
    - destruct (filter _ _) as [|k ks] eqn:Hf; [done|]. intros _.
      assert (k ∈ filter (λ keyword, Py.contains keyword normalized = true)
                         (scam_keywords db)) as Hin by (rewrite Hf; apply list_elem_of_here).
      apply list_elem_of_filter in Hin as [Hk Hin]. by exists k. }
  rewrite Hkw.
  destruct (filter _ (scam_keywords db)) as [|k ks].
  - split; [done|]. split; [by intros [? [=]]|]. intros _. by split.
  - split; [done|]. split; [by intros [? [=]]|]. intros _.
    split; [done|]. intros H. by destruct H.
Qed.

Lemma indicator_loop_fst (normalized : string) (kws : list string)
    (st : Z * list string) :
  (foldl (λ st indicator, if Py.contains indicator normalized
                          then (st.1 + 5, st.2 ++ [indicator]) else st) st kws).1
  = st.1 + 5 * hits kws normalized.
Proof.
  revert st. induction kws as [|k kws IH]; intros st; simpl; [lia|].
  rewrite IH. destruct (Py.contains k normalized); simpl; lia.
Qed.

(** The sum of [check_sms_message]: 5 for each indicator found, 10 for a
    link, 8 for a phone request. *)
Lemma sms_score_fst (normalized : string) :
  (sms_score normalized).1
  = 5 * hits scam_indicators normalized
    + (if Py.contains "http://" normalized || Py.contains "https://" normalized
          || Py.contains "www." normalized then 10 else 0)
    + (if Py.contains "call" normalized && any_isdigit normalized then 8 else 0).
Proof.
  unfold sms_score. cbv zeta.
  destruct (_ && _), (_ || _); cbn [fst]; rewrite indicator_loop_fst; cbn [fst]; lia.
Qed.

(** The five answers of [check_sms_message], each with its case. *)
Lemma check_sms_message_cases (msg : string) (n : Z) :
  n = (sms_score (Py.lower msg)).1 →
  (Py.strip msg = EmptyString →
   safe (check_sms_message msg) = false ∧ confidence (check_sms_message msg) = 0)
  ∧ (Py.strip msg ≠ EmptyString →
     (15 ≤ n →
      safe (check_sms_message msg) = false
      ∧ confidence (check_sms_message msg) = 90)
     ∧ (10 ≤ n < 15 →
        safe (check_sms_message msg) = false
        ∧ confidence (check_sms_message msg) = 75)
     ∧ (5 ≤ n < 10 →
        safe (check_sms_message msg) = false
        ∧ confidence (check_sms_message msg) = 60)
     ∧ (n < 5 →
        safe (check_sms_message msg) = true
        ∧ confidence (check_sms_message msg) = 95)).
Proof.
  intros ->. unfold check_sms_message. cbv zeta.
  destruct (String.eqb_spec (Py.strip msg) EmptyString) as [He|Hne].
  - split; [done|]. by intros H.
  - split; [done|]. intros _.
    repeat case_bool_decide; cbn [safe confidence];
      repeat split; intros; first [done | lia].
Qed.

(** C8 (amended).  The variant of [cyberguard_clean.py] does not compute
    the scorers of [app.py].  [check_ussd_code] is a lookup in its
    database, on the lower-cased and stripped code: it answers [safe = True]
    with confidence 95 when the code equals the lower-cased code of a safe
    entry; otherwise it answers [safe = False], with confidence 90 when a
    scam pattern matches, else 75 when a scam keyword occurs in it, else
    50; so its confidence is never the score of [pattern_score_ussd].
    [check_sms_message] answers [safe = False] with confidence 0 for a blank
    message; otherwise it sums 5 for each of its indicators found in the
    lower-cased message, 10 for a link and 8 for a phone request, and
    answers [safe = False] with confidence 90 for a sum of at least 15, 75
    for at least 10, 60 for at least 5, and [safe = True] with confidence 95
    below 5. *)
Theorem clean_variant_is_a_lookup (f : string → string → option bool)
    (db : Database) (code msg : string) :
  ((∃ sc, sc ∈ safe_codes db ∧ Py.lower (sc_code sc) = Py.strip (Py.lower code)) →
   safe (check_ussd_code f db code) = true
   ∧ confidence (check_ussd_code f db code) = 95)
  ∧ ((¬ ∃ sc, sc ∈ safe_codes db
              ∧ Py.lower (sc_code sc) = Py.strip (Py.lower code)) →
     safe (check_ussd_code f db code) = false
     ∧ ((∃ p, p ∈ scam_patterns db ∧ f p (Py.strip (Py.lower code)) = Some true) →
        confidence (check_ussd_code f db code) = 90)
     ∧ ((¬ ∃ p, p ∈ scam_patterns db
                ∧ f p (Py.strip (Py.lower code)) = Some true) →
        ((∃ k, k ∈ scam_keywords db
               ∧ Py.contains k (Py.strip (Py.lower code)) = true) →
         confidence (check_ussd_code f db code) = 75)
        ∧ ((¬ ∃ k, k ∈ scam_keywords db
                   ∧ Py.contains k (Py.strip (Py.lower code)) = true) →
           confidence (check_ussd_code f db code) = 50)))
  ∧ confidence (check_ussd_code f db code) ≠ (pattern_score_ussd code).1
  ∧ (Py.strip msg = EmptyString →
     safe (check_sms_message msg) = false ∧ confidence (check_sms_message msg) = 0)
  ∧ (Py.strip msg ≠ EmptyString →
     ∀ n,
       n = 5 * hits scam_indicators (Py.lower msg)
           + (if Py.contains "http://" (Py.lower msg)
                 || Py.contains "https://" (Py.lower msg)
                 || Py.contains "www." (Py.lower msg) then 10 else 0)
           + (if Py.contains "call" (Py.lower msg) && any_isdigit (Py.lower msg)
              then 8 else 0) →
       (15 ≤ n →
        safe (check_sms_message msg) = false
        ∧ confidence (check_sms_message msg) = 90)
       ∧ (10 ≤ n < 15 →
          safe (check_sms_message msg) = false
          ∧ confidence (check_sms_message msg) = 75)
       ∧ (5 ≤ n < 10 →
          safe (check_sms_message msg) = false
          ∧ confidence (check_sms_message msg) = 60)
       ∧ (n < 5 →
          safe (check_sms_message msg) = true
          ∧ confidence (check_sms_message msg) = 95)).
Proof.
  pose proof (check_ussd_code_cases f db code) as [Hyes Hno].
  split; [exact Hyes|]. split; [exact Hno|].
  split.
  { pose proof (pattern_score_ussd_range code) as Hrange.
    pose proof (check_ussd_code_confidence f db code) as Hconf.
    rewrite !elem_of_cons, elem_of_nil in Hconf. lia. }
  split.
  { apply (check_sms_message_cases msg _ eq_refl). }
  intros Hne n Hn.
  apply (check_sms_message_cases msg n); [|done].
  by rewrite Hn, sms_score_fst.
Qed.

(** C8, counterexample.  With the database that [load_database] returns
    when its file is missing, the variant calls the whitelisted code
    [*901#] unsafe with confidence 50, where [pattern_score_ussd] gives the
    score 0; and it calls the text "call 0801234567 now" unsafe with
    confidence 60, where [improved_check_sms_scam] answers [scam = False]
    with confidence 5. *)
Lemma clean_variant_disagrees :
  safe (check_ussd_code (λ _ _, None) empty_database "*901#") = false
  ∧ confidence (check_ussd_code (λ _ _, None) empty_database "*901#") = 50
  ∧ pattern_score_ussd "*901#" = (0, ["Known safe telco/bank code"])
  ∧ safe (check_sms_message "call 0801234567 now") = false
  ∧ confidence (check_sms_message "call 0801234567 now") = 60
  ∧ scam (improved_check_sms_scam "call 0801234567 now") = false
  ∧ App.confidence (improved_check_sms_scam "call 0801234567 now") = 5.
Proof. repeat split; vm_compute; reflexivity. Qed.

Lemma clean_variant_is_a_lookup_witness :
  (∃ sc, sc ∈ safe_codes sample_database
         ∧ Py.lower (sc_code sc) = Py.strip (Py.lower " *901# "))
  ∧ safe (check_ussd_code (λ _ _, None) sample_database " *901# ") = true
  ∧ confidence (check_ussd_code (λ _ _, None) sample_database " *901# ") = 95
  ∧ Py.strip "call 0801234567 now" ≠ EmptyString
  ∧ safe (check_sms_message "call 0801234567 now") = false
  ∧ confidence (check_sms_message "call 0801234567 now") = 60.
Proof.
  assert (H : ∃ sc, sc ∈ safe_codes sample_database
                    ∧ Py.lower (sc_code sc) = Py.strip (Py.lower " *901# ")).
  { exists {| sc_code := "*901#"; sc_description := "Access Bank" |}.
    split; [apply list_elem_of_here | reflexivity]. }
  assert (Hne : Py.strip "call 0801234567 now" ≠ EmptyString)
    by (vm_compute; discriminate).
  pose proof (clean_variant_is_a_lookup (λ _ _, None) sample_database " *901# "
                "call 0801234567 now") as (Hyes & _ & _ & _ & Hsms).
  destruct (Hyes H) as [Hsafe Hconf].
  destruct (Hsms Hne 8 eq_refl) as (_ & _ & H60 & _).
  destruct H60 as [Hunsafe H60]; [lia|].
  split; [exact H|]. split; [exact Hsafe|]. split; [exact Hconf|].
  split; [exact Hne|]. split; [exact Hunsafe | exact H60].
Defined.

End VariantFacts.

(** ** More on the methods of [str] *)

Module StrFacts.
Import ReFacts PyFacts PyMore.

Lemma app_assoc (s t u : string) : (s +:+ t) +:+ u = s +:+ t +:+ u.
Proof. induction s as [|a s IH]; [done|]. rewrite !app_String. by f_equal. Qed.

Lemma rev_app_rev_app (s t u : string) :
  String.rev_app (String.rev_app s t) u = String.rev_app t (s +:+ u).
Proof.
  revert t u. induction s as [|a s IH]; intros t u; simpl; [done|].
  by rewrite IH.
Qed.

Lemma rev_involutive (s : string) : String.rev (String.rev s) = s.
Proof. unfold String.rev. rewrite rev_app_rev_app. simpl. apply app_empty_r. Qed.

Lemma rev_app_app (s t u : string) :
  String.rev_app (s +:+ t) u = String.rev_app t (String.rev_app s u).
Proof.
  revert u. induction s as [|a s IH]; intros u; [done|].
  rewrite app_String. simpl. apply IH.
Qed.

Lemma rev_app_spec (s t : string) : String.rev_app s t = String.rev s +:+ t.
Proof.
  unfold String.rev. revert t. induction s as [|a s IH]; intros t; simpl; [done|].
  rewrite IH, (IH (String a EmptyString)), app_assoc. done.
Qed.

Lemma rev_String (a : ascii) (s : string) :
  String.rev (String a s) = String.rev s +:+ String a EmptyString.
Proof. unfold String.rev at 1. simpl. apply rev_app_spec. Qed.

Lemma rev_snoc (a : ascii) (s : string) :
  String.rev (s +:+ String a EmptyString) = String a (String.rev s).
Proof. unfold String.rev. by rewrite rev_app_app. Qed.

(** *** [strip] *)

Lemma lstrip_length (s : string) : (String.length (Py.lstrip s) ≤ String.length s)%nat.
Proof.
  induction s as [|a s IH]; simpl; [done|]. destruct (Py.isspace a); simpl; lia.
Qed.

Lemma lstrip_idemp (s : string) : Py.lstrip (Py.lstrip s) = Py.lstrip s.
Proof.
  induction s as [|a s IH]; simpl; [done|].
  destruct (Py.isspace a) eqn:Ha; [done|]. simpl. by rewrite Ha.
Qed.

(** A string that [lstrip] leaves alone is empty or starts with a
    character that is not white space. *)
Lemma lstrip_fixed (s : string) :
  Py.lstrip s = s ↔
  match s with EmptyString => True | String a _ => Py.isspace a = false end.
Proof.
  destruct s as [|a s]; simpl; [done|].
  destruct (Py.isspace a) eqn:Ha; [|done].
  split; [|done]. intros H. pose proof (lstrip_length s) as Hl.
  rewrite H in Hl. simpl in Hl. lia.
Qed.

Lemma lstrip_snoc (s : string) (a : ascii) :
  Py.isspace a = false →
  ∃ u, Py.lstrip (s +:+ String a EmptyString) = u +:+ String a EmptyString.
Proof.
  intros Ha. induction s as [|b s IH].
  - exists EmptyString. simpl. by rewrite Ha.
  - rewrite app_String. simpl. destruct (Py.isspace b); [done|].
    by exists (String b s).
Qed.

Lemma strip_trimmed (s : string) : trimmed s → Py.strip s = s.
Proof.
  intros [Hl Hr]. unfold Py.strip, Py.rstrip. by rewrite Hl, Hr, rev_involutive.
Qed.

Lemma trimmed_strip (s : string) : trimmed (Py.strip s).
Proof.
  unfold trimmed, Py.strip, Py.rstrip. rewrite rev_involutive, lstrip_idemp.
  split; [|done].
  pose proof (lstrip_idemp s) as Hs. revert Hs.
  generalize (Py.lstrip s). intros t Ht.
  destruct t as [|a t]; [done|].
  apply lstrip_fixed in Ht.
  rewrite rev_String.
  destruct (lstrip_snoc (String.rev t) a Ht) as [u ->].
  rewrite rev_snoc. apply lstrip_fixed. done.
Qed.

(** [strip] is idempotent. *)
Lemma strip_idemp (s : string) : Py.strip (Py.strip s) = Py.strip s.
Proof. apply strip_trimmed, trimmed_strip. Qed.

(** *** [replace] of the space and [normalize_ussd] *)

Lemma remove_char_app (c : ascii) (s t : string) :
  Py.remove_char c (s +:+ t) = Py.remove_char c s +:+ Py.remove_char c t.
Proof.
  induction s as [|a s IH]; [done|]. rewrite app_String. simpl.
  destruct (Ascii.eqb a c); [done|]. by rewrite app_String, IH.
Qed.

Lemma remove_char_rev (c : ascii) (s : string) :
  Py.remove_char c (String.rev s) = String.rev (Py.remove_char c s).
Proof.
  induction s as [|a s IH]; [done|].
  rewrite rev_String, remove_char_app, IH. simpl.
  destruct (Ascii.eqb a c); [apply app_empty_r|]. by rewrite rev_String.
Qed.

Lemma remove_char_idemp (c : ascii) (s : string) :
  Py.remove_char c (Py.remove_char c s) = Py.remove_char c s.
Proof.
  induction s as [|a s IH]; [done|]. simpl.
  destruct (Ascii.eqb a c) eqn:Ha; [done|]. simpl. by rewrite Ha, IH.
Qed.

Lemma isspace_space : Py.isspace " " = true.
Proof. reflexivity. Qed.

Lemma lstrip_remove_space (s : string) :
  Py.lstrip s = s → Py.lstrip (Py.remove_char " " s) = Py.remove_char " " s.
Proof.
  rewrite lstrip_fixed. destruct s as [|a s]; [done|]. intros Ha. simpl.
  destruct (Ascii.eqb_spec a " ") as [->|_]; [by rewrite isspace_space in Ha|].
  by apply lstrip_fixed.
Qed.

Lemma trimmed_remove_space (s : string) :
  trimmed s → trimmed (Py.remove_char " " s).
Proof.
  intros [Hl Hr]. split; [by apply lstrip_remove_space|].
  rewrite <- remove_char_rev. by apply lstrip_remove_space.
Qed.

Lemma trimmed_normalize_ussd (code : string) : trimmed (App.normalize_ussd code).
Proof.
  destruct code as [|a code]; [done|]. apply trimmed_remove_space, trimmed_strip.
Qed.

(** [normalize_ussd] is idempotent. *)
Lemma normalize_ussd_idemp (code : string) :
  App.normalize_ussd (App.normalize_ussd code) = App.normalize_ussd code.
Proof.
  pose proof (trimmed_normalize_ussd code) as Ht.
  destruct code as [|a code]; [done|].
  unfold App.normalize_ussd at 1.
  destruct (App.normalize_ussd (String a code)) as [|b c] eqn:Hn; [done|].
  rewrite strip_trimmed by done. rewrite <- Hn. apply remove_char_idemp.
Qed.

(** *** [lower] *)

Lemma lower_char_idemp (a : ascii) : Py.lower_char (Py.lower_char a) = Py.lower_char a.
Proof. by destruct a as [[] [] [] [] [] [] [] []]. Qed.

Lemma isspace_lower_char (a : ascii) : Py.isspace (Py.lower_char a) = Py.isspace a.
Proof. by destruct a as [[] [] [] [] [] [] [] []]. Qed.

Lemma lower_idemp (s : string) : Py.lower (Py.lower s) = Py.lower s.
Proof. induction s as [|a s IH]; simpl; [done|]. by rewrite lower_char_idemp, IH. Qed.

Lemma lower_app (s t : string) : Py.lower (s +:+ t) = Py.lower s +:+ Py.lower t.
Proof. induction s as [|a s IH]; [done|]. rewrite app_String. simpl. by rewrite IH. Qed.

Lemma lower_rev (s : string) : Py.lower (String.rev s) = String.rev (Py.lower s).
Proof.
  induction s as [|a s IH]; [done|]. simpl.
  by rewrite !rev_String, lower_app, IH.
Qed.

Lemma lower_lstrip (s : string) : Py.lower (Py.lstrip s) = Py.lstrip (Py.lower s).
Proof.
  induction s as [|a s IH]; [done|]. simpl. rewrite isspace_lower_char.
  by destruct (Py.isspace a).
Qed.

(** Lower-casing and stripping commute. *)
Lemma lower_strip (s : string) : Py.lower (Py.strip s) = Py.strip (Py.lower s).
Proof.
  unfold Py.strip, Py.rstrip.
  by rewrite lower_rev, lower_lstrip, lower_rev, lower_lstrip.
Qed.

Lemma lower_eq_empty (s : string) : Py.lower s = EmptyString ↔ s = EmptyString.
Proof. by destruct s. Qed.

(** *** Strings without white space *)

Lemma no_space_app (s t : string) : no_space (s +:+ t) = no_space s && no_space t.
Proof.
  induction s as [|a s IH]; [done|]. rewrite app_String. simpl.
  by rewrite IH, andb_assoc.
Qed.

Lemma no_space_rev (s : string) : no_space (String.rev s) = no_space s.
Proof.
  induction s as [|a s IH]; [done|].
  rewrite rev_String, no_space_app, IH. simpl.
  rewrite andb_true_r. apply andb_comm.
Qed.

Lemma no_space_lstrip (s : string) : no_space s = true → Py.lstrip s = s.
Proof.
  intros H. apply lstrip_fixed. destruct s as [|a s]; [done|]. simpl in H.
  apply andb_true_iff in H as [H _]. by apply negb_true_iff.
Qed.

Lemma no_space_trimmed (s : string) : no_space s = true → trimmed s.
Proof.
  intros H. split; apply no_space_lstrip; [done|]. by rewrite no_space_rev.
Qed.

Lemma no_space_normalize_ussd (s : string) :
  no_space s = true → App.normalize_ussd s = s.
Proof.
  intros H. destruct s as [|a s]; [done|]. unfold App.normalize_ussd.
  rewrite strip_trimmed by by apply no_space_trimmed.
  revert H. generalize (String a s). clear. intros s.
  induction s as [|a s IH]; [done|]. simpl.
  intros [Ha Hs]%andb_true_iff.
  destruct (Ascii.eqb_spec a " ") as [->|_]; [done|]. by rewrite IH.
Qed.

(** *** [split] on a separator *)

Lemma split_go_app (sep : ascii) (cur s t : string) :
  Py.split_go sep cur (s +:+ String sep t)
  = Py.split_go sep cur s ++ Py.split_go sep EmptyString t.
Proof.
  revert cur. induction s as [|a s IH]; intros cur.
  - simpl. by rewrite Ascii.eqb_refl.
  - rewrite app_String. simpl. destruct (Ascii.eqb a sep); [|apply IH].
    by rewrite IH.
Qed.

Lemma split_app (sep : ascii) (s t : string) :
  Py.split sep (s +:+ String sep t) = Py.split sep s ++ Py.split sep t.
Proof. apply split_go_app. Qed.

Lemma split_go_none (sep : ascii) (cur s : string) :
  Py.char_in sep s = false →
  Py.split_go sep cur s = [String.rev (String.rev_app s cur)].
Proof.
  revert cur. induction s as [|a s IH]; intros cur; simpl; [done|].
  intros [Ha Hs]%orb_false_iff. rewrite Ascii.eqb_sym in Ha. rewrite Ha.
  by apply IH.
Qed.

Lemma split_none (sep : ascii) (s : string) :
  Py.char_in sep s = false → Py.split sep s = [s].
Proof.
  intros H. unfold Py.split. rewrite split_go_none by done.
  change (String.rev_app s EmptyString) with (String.rev s).
  by rewrite rev_involutive.
Qed.

Lemma no_space_no_newline (s : string) :
  no_space s = true → Py.char_in Re.newline s = false.
Proof.
  induction s as [|a s IH]; [done|]. cbn [no_space Py.char_in].
  intros [Ha Hs]%andb_true_iff. rewrite IH by done. rewrite orb_false_r.
  destruct (Ascii.eqb_spec Re.newline a) as [<-|]; [|done].
  vm_compute in Ha. discriminate.
Qed.

End StrFacts.

(** ** The two code lists: lines, appends and what the checks see *)

Module ListFacts.
Import App PyMore ReFacts PyFacts StrFacts.

Lemma strip_empty : Py.strip EmptyString = EmptyString.
Proof. reflexivity. Qed.

Lemma split_newline_end (t : string) :
  Py.split Re.newline (t +:+ String Re.newline EmptyString)
  = Py.split Re.newline t ++ [EmptyString].
Proof. by rewrite split_app. Qed.

Lemma nonblank_filter_snoc_empty (l : list string) :
  filter (λ l, Py.strip l ≠ EmptyString) (l ++ [EmptyString])
  = filter (λ l, Py.strip l ≠ EmptyString) l.
Proof.
  rewrite filter_app, filter_cons_False, filter_nil, app_nil_r; [done|].
  intros H. by apply H.
Qed.

Lemma app_assoc_list {A} (l1 l2 l3 : list A) : l1 ++ l2 ++ l3 = (l1 ++ l2) ++ l3.
Proof. by rewrite <- List.app_assoc. Qed.

(** On a file that is missing, empty or ends with a newline, appending a
    line without white space adds exactly that line to what [load_lines]
    returns. *)
Lemma load_lines_append (line : string) (f : option string) :
  terminated f → no_space line = true → line ≠ EmptyString →
  load_lines (append_line line f) = load_lines f ++ [line].
Proof.
  intros Hf Hline Hne.
  assert (Hstrip : Py.strip line = line) by by apply strip_trimmed, no_space_trimmed.
  assert (Hlast : load_lines (Some (line +:+ String Re.newline EmptyString)) = [line]).
  { unfold load_lines. rewrite split_newline_end, nonblank_filter_snoc_empty.
    rewrite split_none by by apply no_space_no_newline.
    rewrite filter_cons_True by by rewrite Hstrip. simpl. by rewrite Hstrip. }
  unfold append_line. destruct f as [text|]; simpl in *; [|exact Hlast].
  destruct Hf as [->|[t ->]]; [exact Hlast|].
  rewrite app_assoc, app_String, app_empty.
  unfold load_lines.
  rewrite !split_app.
  change (Py.split Re.newline EmptyString) with [EmptyString].
  rewrite app_assoc_list, !nonblank_filter_snoc_empty.
  rewrite (split_none _ line) by by apply no_space_no_newline.
  rewrite filter_app, fmap_app. f_equal.
  rewrite filter_cons_True by by rewrite Hstrip. simpl. by rewrite Hstrip.
Qed.

Lemma terminated_append_line (line : string) (f : option string) :
  terminated (append_line line f).
Proof.
  unfold append_line. simpl. right. exists (default EmptyString f +:+ line).
  by rewrite app_assoc.
Qed.

(** X1.  On a list file that is missing, empty or ends with a newline,
    appending a non-empty line without white space adds exactly that line,
    at the end, to what [load_lines] returns, and leaves a file that ends
    with a newline again. *)
Theorem appended_line_is_loaded (line : string) (f : option string) :
  terminated f → no_space line = true → line ≠ EmptyString →
  load_lines (append_line line f) = load_lines f ++ [line]
  ∧ terminated (append_line line f).
Proof.
  intros Hf Hline Hne. split; [by apply load_lines_append|].
  apply terminated_append_line.
Qed.

Lemma appended_line_is_loaded_witness :
  terminated AppMore.file_with_901
  ∧ no_space "*902#" = true
  ∧ "*902#" ≠ EmptyString
  ∧ load_lines (append_line "*902#" AppMore.file_with_901) = ["*901#"; "*902#"].
Proof.
  assert (H1 : terminated AppMore.file_with_901) by (right; by exists "*901#").
  assert (H2 : no_space "*902#" = true) by reflexivity.
  assert (H3 : "*902#" ≠ EmptyString) by discriminate.
  split; [exact H1|]. split; [exact H2|]. split; [exact H3|].
  exact (proj1 (appended_line_is_loaded "*902#" AppMore.file_with_901 H1 H2 H3)).
Defined.

End ListFacts.

(** ** [/check-ussd]: what decides the answer, and what it leaves alone *)

Module CheckFacts.
Import App PyMore ReFacts PyFacts StrFacts.

(** The score depends on the normalized code only. *)
Lemma pattern_score_ussd_normalize (code : string) :
  pattern_score_ussd (normalize_ussd code) = pattern_score_ussd code.
Proof. unfold pattern_score_ussd. by rewrite normalize_ussd_idemp. Qed.

Lemma online_verify_ussd_default (w : World) (code : string) :
  online_verify_ussd w code None = (false, None).
Proof. reflexivity. Qed.

Lemma check_ussd_world (code : string) (full_mode : bool) (w : World) :
  world_after (check_ussd code full_mode) w = w.
Proof.
  unfold world_after, check_ussd.
  destruct (String.eqb code EmptyString); [done|].
  unfold bind, ask, respond, raise. simpl.
  repeat case_match; simplify_eq/=; done.
Qed.

Lemma check_ussd_refuses_empty (full_mode : bool) (w : World) :
  check_ussd EmptyString full_mode w = (HTTPException 400 "USSD code required", w).
Proof. reflexivity. Qed.

Lemma check_ussd_cases (code : string) (full_mode : bool) (w : World) :
  code ≠ EmptyString →
  ∃ r, answer (check_ussd code full_mode) w = OK r
       ∧ ur_code r = normalize_ussd code
       ∧ (normalize_ussd code ∈ load_blacklist_ussd w →
          ur_safe r = false ∧ ur_score r = 10 ∧ ur_reasons r = ["Blacklisted"]
          ∧ ur_cached r = false)
       ∧ (normalize_ussd code ∉ load_blacklist_ussd w →
          ∀ entry, read_ussd_cache w !! normalize_ussd code = Some entry →
          ur_safe r = default false (ce_safe entry)
          ∧ ur_score r = default 0 (ce_score entry)
          ∧ ur_reasons r = default [] (ce_reasons entry)
          ∧ ur_cached r = true)
       ∧ (normalize_ussd code ∉ load_blacklist_ussd w →
          read_ussd_cache w !! normalize_ussd code = None →
          ur_score r = (pattern_score_ussd code).1
          ∧ ur_cached r = false
          ∧ ur_verified_online r = false
          ∧ (ur_safe r = true
             ↔ normalize_ussd code ∈ load_safe_ussd w
               ∨ (pattern_score_ussd code).1 < 5)).
Proof.
  intros Hne. unfold answer, check_ussd.
  rewrite (proj2 (String.eqb_neq _ _) Hne).
  rewrite <- (pattern_score_ussd_normalize code).
  generalize (normalize_ussd code). intros norm.
  unfold bind, ask, respond, raise. simpl.
  destruct (decide (norm ∈ load_blacklist_ussd w)) as [Hbl|Hbl].
  { rewrite bool_decide_eq_true_2 by done. simpl.
    eexists. split; [done|]. simpl. repeat split; try done. }
  rewrite bool_decide_eq_false_2 by done.
  destruct (read_ussd_cache w !! norm) as [entry|] eqn:Hcache.
  { eexists. split; [done|]. simpl.
    split; [done|]. split; [done|]. split; [|done].
    intros _ e [= <-]. done. }
  destruct (decide (norm ∈ load_safe_ussd w)) as [Hsafe|Hsafe].
  - rewrite bool_decide_eq_true_2 by done.
    destruct (full_mode && is_online w); simpl;
      (eexists; split; [done|]; simpl; split; [done|]; split; [done|];
       split; [done|]; intros _ _; repeat split; auto).
  - rewrite bool_decide_eq_false_2 by done.
    destruct (full_mode && is_online w); simpl;
      (eexists; split; [done|]; simpl; split; [done|]; split; [done|];
       split; [done|]; intros _ _; split; [done|]; split; [done|]; split; [done|];
       rewrite bool_decide_eq_true; split; [auto|]; intros [?|?]; done).
Qed.

(** X2.  White space around a code and spaces inside it do not change the
    answer: when the normalized code is not empty, [check_ussd] on the
    normalized code gives the same answer and store as on the code. *)
Theorem check_ussd_normalize (code : string) (full_mode : bool) (w : World) :
  normalize_ussd code ≠ EmptyString →
  check_ussd (normalize_ussd code) full_mode w = check_ussd code full_mode w.
Proof.
  intros Hn. unfold check_ussd.
  assert (Hc : code ≠ EmptyString) by (by intros ->).
  rewrite (proj2 (String.eqb_neq _ _) Hn), (proj2 (String.eqb_neq _ _) Hc).
  by rewrite normalize_ussd_idemp.
Qed.

(** X3.  [check_ussd] writes nothing: whatever the code, the mode and the
    store, whether it answers or raises, the store after the call is the
    store before it (the list of trusted sources is empty, so that the full
    mode never verifies a code and never fills the cache). *)
Theorem check_ussd_keeps_store (code : string) (full_mode : bool) (w : World) :
  world_after (check_ussd code full_mode) w = w.
Proof. apply check_ussd_world. Qed.

(** X4.  For a code that is not the empty string [check_ussd] answers, with
    the normalized code, and decides in this order: a blacklisted code is
    unsafe with score 10 and the one reason Blacklisted; otherwise a cached
    code gets the verdict, score and reasons of its cache entry (with their
    defaults) and is marked as cached; otherwise the score is that of
    [pattern_score_ussd], nothing is verified online, and the code is safe
    exactly when it is in the safe list or its score is below 5. *)
Theorem check_ussd_table (code : string) (full_mode : bool) (w : World) :
  code ≠ EmptyString →
  ∃ r, answer (check_ussd code full_mode) w = OK r
       ∧ ur_code r = normalize_ussd code
       ∧ (normalize_ussd code ∈ load_blacklist_ussd w →
          ur_safe r = false ∧ ur_score r = 10 ∧ ur_reasons r = ["Blacklisted"]
          ∧ ur_cached r = false)
       ∧ (normalize_ussd code ∉ load_blacklist_ussd w →
          ∀ entry, read_ussd_cache w !! normalize_ussd code = Some entry →
          ur_safe r = default false (ce_safe entry)
          ∧ ur_score r = default 0 (ce_score entry)
          ∧ ur_reasons r = default [] (ce_reasons entry)
          ∧ ur_cached r = true)
       ∧ (normalize_ussd code ∉ load_blacklist_ussd w →
          read_ussd_cache w !! normalize_ussd code = None →
          ur_score r = (pattern_score_ussd code).1
          ∧ ur_cached r = false
          ∧ ur_verified_online r = false
          ∧ (ur_safe r = true
             ↔ normalize_ussd code ∈ load_safe_ussd w
               ∨ (pattern_score_ussd code).1 < 5)).
Proof. apply check_ussd_cases. Qed.

Lemma check_ussd_table_witness :
  "*901#" ≠ EmptyString
  ∧ ∃ r, answer (check_ussd "*901#" false) world_blacklisting_901 = OK r
         ∧ ur_safe r = false ∧ ur_score r = 10 ∧ ur_reasons r = ["Blacklisted"].
Proof.
  assert (H : "*901#" ≠ EmptyString) by discriminate.
  split; [exact H|].
  destruct (check_ussd_table "*901#" false world_blacklisting_901 H)
    as (r & Hr & _ & Hbl & _).
  exists r. split; [exact Hr|].
  assert (Hin : normalize_ussd "*901#" ∈ load_blacklist_ussd world_blacklisting_901).
  { apply (bool_decide_eq_true_1 _). vm_compute. reflexivity. }
  destruct (Hbl Hin) as (H1 & H2 & H3 & _). by repeat split.
Defined.

Lemma check_ussd_normalize_witness :
  normalize_ussd " *9 01# " ≠ EmptyString
  ∧ check_ussd "*901#" true fresh_world = check_ussd " *9 01# " true fresh_world.
Proof.
  assert (H : normalize_ussd " *9 01# " ≠ EmptyString) by (vm_compute; discriminate).
  split; [exact H|].
  exact (check_ussd_normalize " *9 01# " true fresh_world H).
Defined.

End CheckFacts.

(** ** Moderation and the checks that follow it *)

Module FlowFacts.
Import App PyMore ReFacts PyFacts StrFacts ListFacts CheckFacts ModerationFacts.

Lemma run_ok_world {A} (m : handler A) (w w' : World) (a : A) :
  m w = (OK a, w') → world_after m w = w'.
Proof. unfold world_after. by intros ->. Qed.

Lemma add_blacklist_line_world (code : string) (w : World) :
  add_blacklist_line code w = (OK tt, world_after (add_blacklist_line code) w).
Proof.
  destruct (add_blacklist_line_runs code w) as [w' H].
  by rewrite (run_ok_world _ _ _ _ H).
Qed.

Lemma add_safe_line_world (code : string) (w : World) :
  add_safe_line code w = (OK tt, world_after (add_safe_line code) w).
Proof.
  destruct (add_safe_line_runs code w) as [w' H].
  by rewrite (run_ok_world _ _ _ _ H).
Qed.

(** What [add_blacklist_line] and [add_safe_line] change. *)
Lemma add_blacklist_line_frame (code : string) (w : World) :
  let w' := world_after (add_blacklist_line code) w in
  OFFLINE_USSD_CODES w' = OFFLINE_USSD_CODES w
  ∧ COMMUNITY_REPORTS_DB w' = COMMUNITY_REPORTS_DB w
  ∧ USSD_CACHE w' = USSD_CACHE w
  ∧ CURATED_CODES_FILE w' = CURATED_CODES_FILE w
  ∧ (terminated (BLACKLIST_USSD w) → terminated (BLACKLIST_USSD w')).
Proof.
  unfold world_after, add_blacklist_line, bind, ask, update, respond. simpl.
  case_bool_decide; simpl; repeat split; auto.
  intros _. apply terminated_append_line.
Qed.

Lemma add_safe_line_frame (code : string) (w : World) :
  let w' := world_after (add_safe_line code) w in
  BLACKLIST_USSD w' = BLACKLIST_USSD w
  ∧ COMMUNITY_REPORTS_DB w' = COMMUNITY_REPORTS_DB w
  ∧ USSD_CACHE w' = USSD_CACHE w
  ∧ CURATED_CODES_FILE w' = CURATED_CODES_FILE w
  ∧ (terminated (OFFLINE_USSD_CODES w) → terminated (OFFLINE_USSD_CODES w')).
Proof.
  unfold world_after, add_safe_line, bind, ask, update, respond. simpl.
  case_bool_decide; simpl; repeat split; auto.
  intros _. apply terminated_append_line.
Qed.

Lemma elem_of_lines_append (code : string) (f : option string) :
  terminated f → no_space code = true → code ≠ EmptyString →
  code ∈ (list_to_set (normalize_ussd <$> load_lines (append_line code f)) : gset string).
Proof.
  intros Hf Hs Hne. rewrite load_lines_append by done.
  rewrite fmap_app, elem_of_list_to_set, elem_of_app. right.
  simpl. rewrite no_space_normalize_ussd by done. apply list_elem_of_here.
Qed.

Lemma add_blacklist_line_listed (code : string) (w : World) :
  terminated (BLACKLIST_USSD w) → no_space code = true → code ≠ EmptyString →
  code ∈ load_blacklist_ussd (world_after (add_blacklist_line code) w).
Proof.
  intros Hf Hs Hne.
  unfold world_after, add_blacklist_line, bind, ask, update, respond. simpl.
  case_bool_decide as Hin; simpl; [done|].
  unfold load_blacklist_ussd. simpl. by apply elem_of_lines_append.
Qed.

Lemma add_safe_line_listed (code : string) (w : World) :
  terminated (OFFLINE_USSD_CODES w) → no_space code = true → code ≠ EmptyString →
  code ∈ load_safe_ussd (world_after (add_safe_line code) w).
Proof.
  intros Hf Hs Hne.
  unfold world_after, add_safe_line, bind, ask, update, respond. simpl.
  case_bool_decide as Hin; simpl; [done|].
  unfold load_safe_ussd. simpl. by apply elem_of_lines_append.
Qed.

(** The run of [update_report_status] at a valid index, step by step. *)
Lemma update_report_status_run (w : World) (i : nat) (r : Report) (s : string)
    (action : option string) :
  read_reports w !! i = Some r →
  let c := normalize_ussd (report_content r) in
  let w1 := if bool_decide (action = Some "add_safe")
            then world_after (add_safe_line c) w else w in
  let w2 := if bool_decide (action = Some "add_blacklist")
            then world_after (add_blacklist_line c) w1 else w1 in
  update_report_status
    {| us_index := Z.of_nat i; us_status := s; us_action := action |} w
  = (OK ("Report updated", with_status s r),
     set_reports (Holds (<[i := with_status s r]> (read_reports w))) w2).
Proof.
  intros Hi c w1 w2. unfold update_report_status, bind at 1, ask at 1. simpl.
  rewrite (lookup_good_index _ _ _ Hi), Nat2Z.id, Hi.
  unfold bind. fold c.
  assert (H1 : (if bool_decide (action = Some "add_safe")
                then add_safe_line c else respond tt) w = (OK tt, w1)).
  { unfold w1. destruct (bool_decide (action = Some "add_safe"));
      [apply add_safe_line_world | done]. }
  assert (H2 : (if bool_decide (action = Some "add_blacklist")
                then add_blacklist_line c else respond tt) w1 = (OK tt, w2)).
  { unfold w2. destruct (bool_decide (action = Some "add_blacklist"));
      [apply add_blacklist_line_world | done]. }
  simpl. fold c. rewrite H1, H2. reflexivity.
Qed.

Lemma normalize_nonempty (code : string) :
  normalize_ussd code ≠ EmptyString → code ≠ EmptyString.
Proof. by intros H ->. Qed.

(** X5.  Moderation and the check compose: after [update_report_status]
    with the action add_blacklist on a report whose normalized content is
    not empty and holds no white space, over a blacklist file that is
    missing, empty or ends with a newline, [check_ussd] on the reported
    content answers unsafe with score 10 and the one reason Blacklisted,
    whatever the safe list and the cache hold. *)
Theorem blacklisting_blocks_the_code (w : World) (i : nat) (r : Report)
    (s : string) (full_mode : bool) :
  read_reports w !! i = Some r →
  normalize_ussd (report_content r) ≠ EmptyString →
  no_space (normalize_ussd (report_content r)) = true →
  terminated (BLACKLIST_USSD w) →
  ∃ res,
    answer (check_ussd (report_content r) full_mode)
      (world_after
         (update_report_status
            {| us_index := Z.of_nat i; us_status := s;
               us_action := Some "add_blacklist" |}) w)
    = OK res
    ∧ ur_safe res = false ∧ ur_score res = 10 ∧ ur_reasons res = ["Blacklisted"].
Proof.
  intros Hi Hne Hns Hterm.
  pose proof (update_report_status_run w i r s (Some "add_blacklist") Hi) as Hrun.
  cbv zeta in Hrun.
  rewrite (bool_decide_eq_false_2 (Some "add_blacklist" = Some "add_safe")) in Hrun
    by discriminate.
  rewrite bool_decide_eq_true_2 in Hrun by done.
  rewrite (run_ok_world _ _ _ _ Hrun).
  match goal with |- context [set_reports ?v ?w2] => set (w3 := set_reports v w2) end.
  assert (Hbl : normalize_ussd (report_content r) ∈ load_blacklist_ussd w3).
  { change (load_blacklist_ussd w3) with
      (load_blacklist_ussd
         (world_after (add_blacklist_line (normalize_ussd (report_content r))) w)).
    by apply add_blacklist_line_listed. }
  destruct (check_ussd_cases (report_content r) full_mode w3
              (normalize_nonempty _ Hne)) as (res & Hres & _ & Hblack & _).
  exists res. split; [done|]. destruct (Hblack Hbl) as (? & ? & ? & _). done.
Qed.

(** X6.  After [update_report_status] with the action add_safe on a
    report whose normalized content is not empty and holds no white space,
    over a safe-list file that is missing, empty or ends with a newline,
    [check_ussd] on the reported content answers safe, with the score of
    [pattern_score_ussd], provided the code is neither blacklisted nor
    cached. *)
Theorem safe_listing_clears_the_code (w : World) (i : nat) (r : Report)
    (s : string) (full_mode : bool) :
  read_reports w !! i = Some r →
  normalize_ussd (report_content r) ≠ EmptyString →
  no_space (normalize_ussd (report_content r)) = true →
  terminated (OFFLINE_USSD_CODES w) →
  normalize_ussd (report_content r) ∉ load_blacklist_ussd w →
  read_ussd_cache w !! normalize_ussd (report_content r) = None →
  ∃ res,
    answer (check_ussd (report_content r) full_mode)
      (world_after
         (update_report_status
            {| us_index := Z.of_nat i; us_status := s;
               us_action := Some "add_safe" |}) w)
    = OK res
    ∧ ur_safe res = true ∧ ur_score res = (pattern_score_ussd (report_content r)).1.
Proof.
  intros Hi Hne Hns Hterm Hbl Hcache.
  pose proof (update_report_status_run w i r s (Some "add_safe") Hi) as Hrun.
  cbv zeta in Hrun.
  rewrite (bool_decide_eq_true_2 (Some "add_safe" = Some "add_safe")) in Hrun by done.
  rewrite (bool_decide_eq_false_2 (Some "add_safe" = Some "add_blacklist")) in Hrun
    by discriminate.
  rewrite (run_ok_world _ _ _ _ Hrun).
  match goal with |- context [set_reports ?v ?w2] => set (w3 := set_reports v w2) end.
  pose proof (add_safe_line_frame (normalize_ussd (report_content r)) w)
    as (Hfb & _ & Hfc & _).
  assert (Hsafe : normalize_ussd (report_content r) ∈ load_safe_ussd w3).
  { change (load_safe_ussd w3) with
      (load_safe_ussd
         (world_after (add_safe_line (normalize_ussd (report_content r))) w)).
    by apply add_safe_line_listed. }
  assert (Hbl3 : normalize_ussd (report_content r) ∉ load_blacklist_ussd w3).
  { unfold load_blacklist_ussd, w3. simpl. rewrite Hfb. exact Hbl. }
  assert (Hcache3 : read_ussd_cache w3 !! normalize_ussd (report_content r) = None).
  { unfold read_ussd_cache, w3. simpl. rewrite Hfc. exact Hcache. }
  destruct (check_ussd_cases (report_content r) full_mode w3
              (normalize_nonempty _ Hne)) as (res & Hres & _ & _ & _ & Hscore).
  exists res. split; [done|].
  destruct (Hscore Hbl3 Hcache3) as (Hsc & _ & _ & Hiff).
  split; [apply Hiff; by left | done].
Qed.

Lemma blacklisting_blocks_the_code_witness :
  read_reports world_with_report !! 0%nat = Some entry_of_901
  ∧ normalize_ussd "*901#" ≠ EmptyString
  ∧ no_space (normalize_ussd "*901#") = true
  ∧ terminated (BLACKLIST_USSD world_with_report)
  ∧ ∃ res,
      answer (check_ussd "*901#" false)
        (world_after
           (update_report_status
              {| us_index := 0; us_status := "Verified";
                 us_action := Some "add_blacklist" |}) world_with_report)
      = OK res
      ∧ ur_safe res = false ∧ ur_score res = 10 ∧ ur_reasons res = ["Blacklisted"].
Proof.
  assert (H1 : read_reports world_with_report !! 0%nat = Some entry_of_901)
    by reflexivity.
  assert (H2 : normalize_ussd (report_content entry_of_901) ≠ EmptyString)
    by (vm_compute; discriminate).
  assert (H3 : no_space (normalize_ussd (report_content entry_of_901)) = true)
    by reflexivity.
  assert (H4 : terminated (BLACKLIST_USSD world_with_report)) by (by left).
  split; [exact H1|]. split; [exact H2|]. split; [exact H3|]. split; [exact H4|].
  exact (blacklisting_blocks_the_code world_with_report 0 entry_of_901
           "Verified" false H1 H2 H3 H4).
Defined.

Lemma safe_listing_clears_the_code_witness :
  read_reports world_with_report !! 0%nat = Some entry_of_901
  ∧ normalize_ussd "*901#" ≠ EmptyString
  ∧ no_space (normalize_ussd "*901#") = true
  ∧ terminated (OFFLINE_USSD_CODES world_with_report)
  ∧ (normalize_ussd "*901#" ∉ load_blacklist_ussd world_with_report)
  ∧ read_ussd_cache world_with_report !! normalize_ussd "*901#" = None
  ∧ ∃ res,
      answer (check_ussd "*901#" false)
        (world_after
           (update_report_status
              {| us_index := 0; us_status := "Verified";
                 us_action := Some "add_safe" |}) world_with_report)
      = OK res
      ∧ ur_safe res = true ∧ ur_score res = (pattern_score_ussd "*901#").1.
Proof.
  assert (H1 : read_reports world_with_report !! 0%nat = Some entry_of_901)
    by reflexivity.
  assert (H2 : normalize_ussd (report_content entry_of_901) ≠ EmptyString)
    by (vm_compute; discriminate).
  assert (H3 : no_space (normalize_ussd (report_content entry_of_901)) = true)
    by reflexivity.
  assert (H4 : terminated (OFFLINE_USSD_CODES world_with_report)) by (by left).
  assert (H5 : normalize_ussd (report_content entry_of_901)
               ∉ load_blacklist_ussd world_with_report).
  { apply (bool_decide_eq_false_1 _). vm_compute. reflexivity. }
  assert (H6 : read_ussd_cache world_with_report
                 !! normalize_ussd (report_content entry_of_901) = None)
    by reflexivity.
  split; [exact H1|]. split; [exact H2|]. split; [exact H3|]. split; [exact H4|].
  split; [exact H5|]. split; [exact H6|].
  exact (safe_listing_clears_the_code world_with_report 0 entry_of_901
           "Verified" false H1 H2 H3 H4 H5 H6).
Defined.

End FlowFacts.

(** ** Curation: the pending list and the curated codes *)

Module CurationFacts.
Import App AppMore PyMore ModerationFacts FlowFacts.

Lemma elem_of_pending (reports : list Report) (r : Report) (i : nat) :
  (r, i) ∈ filter (λ ri : Report * nat, is_pending_ussd ri.1)
                  (imap (λ i report, (report, i)) reports)
  ↔ reports !! i = Some r ∧ is_pending_ussd r.
Proof.
  rewrite list_elem_of_filter, elem_of_lookup_imap. simpl. split.
  - intros [Hp (j & y & [= -> ->] & Hj)]. done.
  - intros [Hi Hp]. split; [done|]. by exists i, r.
Qed.

Lemma get_pending_reports_answer (w : World) :
  answer get_pending_reports w
  = OK (filter (λ ri : Report * nat, is_pending_ussd ri.1)
               (imap (λ i report, (report, i)) (read_reports w))).
Proof. reflexivity. Qed.

(** [submit_report] raises when it builds the entry, before it appends and
    writes. *)
Lemma submit_report_raises (req : ReportRequest) (w : World) :
  submit_report req w = (HTTPException 500 "Internal Server Error", w).
Proof.
  unfold submit_report, bind, ask. simpl.
  by destruct (geocode_location w (rq_location req)).
Qed.

(** For a report whose code is not curated yet, [approve_report] raises
    when it builds the new code, before it writes anything. *)
Lemma approve_report_raises (str_upper : string → string) (w : World) (i : nat)
    (r : Report) :
  read_reports w !! i = Some r →
  report_type r = "ussd" →
  code_exists str_upper (normalize_code str_upper (report_content r))
    (load_curated_codes w) = false →
  approve_report str_upper {| ca_index := Z.of_nat i |} w
  = (HTTPException 500 "Internal Server Error", w).
Proof.
  intros Hi Hty Hex. unfold code_exists in Hex.
  unfold approve_report, bind, ask. simpl.
  rewrite (lookup_good_index _ _ _ Hi), Nat2Z.id, Hi, Hty. simpl.
  by rewrite Hex.
Qed.

(** X8.  What approving a pending report does.  For a report that
    [get_pending_reports] lists, [approve_report] at the index listed with
    it succeeds when the code of the report is curated already, and then
    the pending listing is the old one without that entry (the other
    entries keep their indices).  When the code is not curated yet,
    [approve_report] answers 500 and writes nothing: the code is not added
    to the curated codes or to the safe list, and the report stays
    pending. *)
Theorem approval_of_a_pending_report (str_upper : string → string) (w : World)
    (pending : list (Report * nat)) (r : Report) (i : nat) :
  answer get_pending_reports w = OK pending →
  (r, i) ∈ pending →
  (code_exists str_upper (normalize_code str_upper (report_content r))
     (load_curated_codes w) = true →
   answer (approve_report str_upper {| ca_index := Z.of_nat i |}) w
     = OK "Report approved and code added to database"
   ∧ ∃ pending',
       answer get_pending_reports
         (world_after (approve_report str_upper {| ca_index := Z.of_nat i |}) w)
       = OK pending'
       ∧ ∀ r' j, (r', j) ∈ pending' ↔ (r', j) ∈ pending ∧ j ≠ i)
  ∧ (code_exists str_upper (normalize_code str_upper (report_content r))
       (load_curated_codes w) = false →
     approve_report str_upper {| ca_index := Z.of_nat i |} w
     = (HTTPException 500 "Internal Server Error", w)).
Proof.
  rewrite get_pending_reports_answer. intros [= <-] [Hi [Hst Hty]]%elem_of_pending.
  split; [|by apply approve_report_raises].
  intros Hex.
  pose proof (approve_report_curated_run str_upper w i r Hi Hty Hex) as Hrun.
  unfold answer at 1, world_after. rewrite Hrun. simpl. split; [done|].
  eexists. split; [apply get_pending_reports_answer|].
  intros r' j. rewrite !elem_of_pending, read_reports_set_reports.
  destruct (decide (i = j)) as [<-|Hne].
  - rewrite list_lookup_insert_eq by by apply lookup_lt_Some in Hi.
    split; [|by intros [_ ?]].
    intros [[= <-] [Hst' _]]. done.
  - rewrite list_lookup_insert_ne by done. split; [intros [? ?]|intros [[? ?] _]]; done.
Qed.

Lemma approval_of_a_pending_report_witness :
  answer get_pending_reports world_with_report = OK [(entry_of_901, 0%nat)]
  ∧ ((entry_of_901, 0%nat) ∈ [(entry_of_901, 0%nat)])
  ∧ code_exists Py.lower (normalize_code Py.lower "*901#")
      (load_curated_codes world_with_report) = false
  ∧ approve_report Py.lower {| ca_index := 0 |} world_with_report
    = (HTTPException 500 "Internal Server Error", world_with_report).
Proof.
  assert (H1 : answer get_pending_reports world_with_report
               = OK [(entry_of_901, 0%nat)]) by reflexivity.
  assert (H2 : (entry_of_901, 0%nat) ∈ [(entry_of_901, 0%nat)])
    by apply list_elem_of_here.
  assert (H3 : code_exists Py.lower
                 (normalize_code Py.lower (report_content entry_of_901))
                 (load_curated_codes world_with_report) = false) by reflexivity.
  split; [exact H1|]. split; [exact H2|]. split; [exact H3|].
  exact (proj2 (approval_of_a_pending_report Py.lower world_with_report
                  _ entry_of_901 0 H1 H2) H3).
Defined.

Section Curated.

Context (str_upper : string → string).

Lemma code_exists_spec (target : string) (cs : list CuratedCode) :
  code_exists str_upper target cs = true ↔ target ∈ code_key str_upper <$> cs.
Proof.
  unfold code_exists, Py.any. rewrite List.existsb_exists, list_elem_of_fmap. split.
  - intros (c & Hin%list_elem_of_In & Heq%bool_decide_eq_true). by exists c.
  - intros (c & -> & Hin). exists c. split; [by apply list_elem_of_In|].
    by apply bool_decide_eq_true.
Qed.

Lemma code_exists_false (target : string) (cs : list CuratedCode) :
  code_exists str_upper target cs = false ↔ target ∉ code_key str_upper <$> cs.
Proof. rewrite <- code_exists_spec. by destruct (code_exists _ _ _). Qed.

Lemma filter_length_eq {A} (P : A → Prop) `{∀ x, Decision (P x)} (l : list A) :
  length (filter P l) = length l ↔ Forall P l.
Proof.
  induction l as [|x l IH]; [by split|].
  destruct (decide (P x)) as [Hx|Hx].
  - rewrite filter_cons_True by done. simpl. rewrite Forall_cons.
    split; [intros [= ?]; split; [done|by apply IH] | intros [_ ?]; f_equal; by apply IH].
  - rewrite filter_cons_False by done. rewrite Forall_cons. simpl.
    pose proof (length_filter P l). split; [lia|]. by intros [? _].
Qed.

Lemma not_elem_of_filter_codes (target : string) (cs : list CuratedCode) :
  target ∉ code_key str_upper <$>
    filter (λ c, normalize_code str_upper (cc_code c) ≠ target) cs.
Proof.
  rewrite list_elem_of_fmap. intros (c & -> & Hin).
  apply list_elem_of_filter in Hin as [Hne _]. done.
Qed.

Lemma all_other_codes (target : string) (cs : list CuratedCode) :
  Forall (λ c, normalize_code str_upper (cc_code c) ≠ target) cs
  ↔ target ∉ code_key str_upper <$> cs.
Proof.
  rewrite Forall_forall, list_elem_of_fmap. split.
  - intros H (c & -> & Hin). by apply (H c).
  - intros H c Hin Heq. apply H. exists c. by rewrite <- Heq.
Qed.

Lemma load_curated_codes_set_curated (cs : list CuratedCode) (w : World) :
  load_curated_codes (set_curated (Holds cs) w) = cs.
Proof. reflexivity. Qed.

(** The run of [add_curated_code]: it refuses a code that is curated
    already, and for any other code it raises when it builds the new entry,
    before it appends, saves and writes the safe list. *)
Lemma add_curated_code_run (request : CurationRequest) (w : World) :
  (code_exists str_upper (normalize_code str_upper (cr_code request))
     (load_curated_codes w) = true →
   add_curated_code str_upper request w
   = (HTTPException 400 "Code already exists in database", w))
  ∧ (code_exists str_upper (normalize_code str_upper (cr_code request))
       (load_curated_codes w) = false →
     add_curated_code str_upper request w
     = (HTTPException 500 "Internal Server Error", w)).
Proof.
  split; intros H; unfold add_curated_code, bind at 1, ask at 1;
    cbv beta iota zeta; by rewrite H.
Qed.

(** The run of [delete_curated_code]. *)
Lemma delete_curated_code_run (code : string) (w : World) :
  let target := normalize_code str_upper code in
  (target ∉ code_key str_upper <$> load_curated_codes w →
   delete_curated_code str_upper code w
   = (HTTPException 404 "Code not found in database", w))
  ∧ (target ∈ code_key str_upper <$> load_curated_codes w →
     delete_curated_code str_upper code w
     = (OK ("Code " +:+ code +:+ " deleted successfully"),
        set_curated
          (Holds (filter (λ c, normalize_code str_upper (cc_code c) ≠ target)
                         (load_curated_codes w))) w)).
Proof.
  intros target. subst target. split.
  - intros H.
    unfold delete_curated_code, bind at 1, ask at 1. cbv beta iota zeta.
    rewrite bool_decide_eq_true_2; [done|].
    by apply filter_length_eq, all_other_codes.
  - intros H.
    unfold delete_curated_code, bind at 1, ask at 1. cbv beta iota zeta.
    rewrite bool_decide_eq_false_2; [done|].
    rewrite filter_length_eq, all_other_codes. by intros ?.
Qed.

(** The loop of [bulk_add_codes] passes over the items whose code is
    curated already and raises at the first other item, be it one without
    a code or one with a new code; it never reaches its writes. *)
Lemma bulk_loop_run (codes : list BulkItem) (cs : list CuratedCode) (n : nat)
    (w : World) :
  (Forall (already_curated str_upper cs) codes →
   bulk_loop str_upper codes cs n w = (OK (cs, n), w))
  ∧ (¬ Forall (already_curated str_upper cs) codes →
     bulk_loop str_upper codes cs n w
     = (HTTPException 500 "Internal Server Error", w)).
Proof.
  induction codes as [|item codes [IHyes IHno]].
  { split; [done|]. intros H. destruct H. constructor. }
  cbn [bulk_loop].
  destruct (bi_code item) as [code|] eqn:Hcode.
  2:{ split; [|done].
      intros [(code & Hc & _) _]%Forall_cons. congruence. }
  destruct (code_exists str_upper (normalize_code str_upper code) cs) eqn:Hex.
  - assert (Hitem : already_curated str_upper cs item) by by exists code.
    split.
    + intros [_ Hrest]%Forall_cons. by apply IHyes.
    + intros Hnot. apply IHno. intros Hrest. apply Hnot. by apply Forall_cons.
  - split; [|done].
    intros [(code' & Hc & Hex') _]%Forall_cons. congruence.
Qed.

Lemma bulk_add_codes_run (codes : list BulkItem) (w : World) :
  (Forall (already_curated str_upper (load_curated_codes w)) codes →
   bulk_add_codes str_upper codes w
   = (OK "Added 0 new codes", set_curated (Holds (load_curated_codes w)) w))
  ∧ (¬ Forall (already_curated str_upper (load_curated_codes w)) codes →
     bulk_add_codes str_upper codes w
     = (HTTPException 500 "Internal Server Error", w)).
Proof.
  destruct (bulk_loop_run codes (load_curated_codes w) 0 w) as [Hyes Hno].
  split; intros H; unfold bulk_add_codes, bind at 1, ask at 1;
    cbv beta iota zeta; unfold bind at 1.
  - by rewrite (Hyes H).
  - by rewrite (Hno H).
Qed.

(** X10.  The curation endpoints never add a code.  [add_curated_code]
    answers 400 for a code whose normalized form is curated already and 500
    for every other code; [bulk_add_codes] answers that it added 0 codes
    when every item carries a code that is curated already (it then writes
    the curated codes back as they were read) and answers 500 otherwise.
    Whenever one of them answers with an error, the store is left as it
    was. *)
Theorem curation_never_adds (request : CurationRequest) (codes : list BulkItem)
    (w : World) :
  (code_exists str_upper (normalize_code str_upper (cr_code request))
     (load_curated_codes w) = true →
   add_curated_code str_upper request w
   = (HTTPException 400 "Code already exists in database", w))
  ∧ (code_exists str_upper (normalize_code str_upper (cr_code request))
       (load_curated_codes w) = false →
     add_curated_code str_upper request w
     = (HTTPException 500 "Internal Server Error", w))
  ∧ (Forall (already_curated str_upper (load_curated_codes w)) codes →
     bulk_add_codes str_upper codes w
     = (OK "Added 0 new codes", set_curated (Holds (load_curated_codes w)) w))
  ∧ (¬ Forall (already_curated str_upper (load_curated_codes w)) codes →
     bulk_add_codes str_upper codes w
     = (HTTPException 500 "Internal Server Error", w)).
Proof.
  destruct (add_curated_code_run request w) as [H400 H500].
  destruct (bulk_add_codes_run codes w) as [Hyes Hno].
  done.
Qed.

(** X11.  After [delete_curated_code] no curated code has the normalized
    form of the deleted one, and the curated codes that remain are exactly
    the earlier ones with another normalized form (all entries that
    normalize to the target go, not one).  The handler answers 404 exactly
    when no entry has that normalized form, and then the store is
    unchanged. *)
Theorem delete_curated_code_removes (w : World) (code : string) :
  let target := normalize_code str_upper code in
  let w' := world_after (delete_curated_code str_upper code) w in
  (target ∉ code_key str_upper <$> load_curated_codes w')
  ∧ (∀ c, c ∈ load_curated_codes w'
          ↔ c ∈ load_curated_codes w ∧ code_key str_upper c ≠ target)
  ∧ (answer (delete_curated_code str_upper code) w
       = HTTPException 404 "Code not found in database"
     ↔ target ∉ code_key str_upper <$> load_curated_codes w)
  ∧ (target ∉ code_key str_upper <$> load_curated_codes w → w' = w).
Proof.
  intros target w'. subst target w'.
  destruct (delete_curated_code_run code w) as [Hmiss Hhit].
  destruct (decide (normalize_code str_upper code
                    ∈ code_key str_upper <$> load_curated_codes w)) as [Hin|Hin].
  - unfold world_after, answer. rewrite (Hhit Hin). simpl.
    rewrite load_curated_codes_set_curated.
    split; [apply not_elem_of_filter_codes|].
    split; [intros c; rewrite list_elem_of_filter; unfold code_key; tauto|].
    split; [|done]. split; [done|]. by intros ?.
  - unfold world_after, answer. rewrite (Hmiss Hin). simpl.
    split; [done|]. split; [|done].
    intros c. split; [|tauto]. intros Hc. split; [done|].
    intros Heq. apply Hin. rewrite list_elem_of_fmap. by exists c.
Qed.

End Curated.

Lemma curation_never_adds_witness :
  code_exists Py.lower (normalize_code Py.lower (cr_code request_for_770))
    (load_curated_codes fresh_world) = false
  ∧ add_curated_code Py.lower request_for_770 fresh_world
    = (HTTPException 500 "Internal Server Error", fresh_world)
  ∧ bulk_add_codes Py.lower [] fresh_world
    = (OK "Added 0 new codes", fresh_world).
Proof.
  assert (H : code_exists Py.lower (normalize_code Py.lower (cr_code request_for_770))
                (load_curated_codes fresh_world) = false) by reflexivity.
  pose proof (curation_never_adds Py.lower request_for_770 [] fresh_world)
    as (_ & H500 & Hbulk & _).
  split; [exact H|]. split; [exact (H500 H)|].
  exact (Hbulk (Forall_nil_2 _)).
Defined.

End CurationFacts.

(** ** The server: what its writes can and cannot do *)

Module ServerFacts.
Import App AppMore PyMore ListFacts CheckFacts ModerationFacts FlowFacts CurationFacts.

(** *** Each handler's writes *)

Lemma alter_at (f : Report → Report) (reports : list Report) (i : nat) (r : Report) :
  reports !! i = Some r → alter f i reports = <[i := f r]> reports.
Proof.
  intros Hi. apply list_eq. intros j. destruct (decide (i = j)) as [<-|Hne].
  - rewrite list_lookup_alter_eq, Hi, list_lookup_insert_eq; [done|].
    by apply lookup_lt_Some in Hi.
  - by rewrite list_lookup_alter_ne, list_lookup_insert_ne.
Qed.

Lemma valid_index (index : Z) (reports : list Report) :
  bad_index index reports = false →
  ∃ i r, index = Z.of_nat i ∧ reports !! i = Some r.
Proof.
  unfold bad_index. intros [H0 Hlen]%orb_false_iff.
  apply bool_decide_eq_false_1 in H0, Hlen.
  destruct (lookup_lt_is_Some_2 reports (Z.to_nat index)) as [r Hr]; [lia|].
  exists (Z.to_nat index), r. split; [lia|done].
Qed.

Lemma reject_report_run (w : World) (i : nat) (r : Report) :
  read_reports w !! i = Some r →
  reject_report {| ca_index := Z.of_nat i |} w
  = (OK "Report rejected",
     set_reports (Holds (<[i := with_status "Rejected" r]> (read_reports w))) w).
Proof.
  intros Hi. unfold reject_report, bind, ask, respond, write_reports, update. simpl.
  by rewrite (lookup_good_index _ _ _ Hi), Nat2Z.id, (alter_at _ _ _ _ Hi).
Qed.

Lemma add_safe_line_writes (w : World) (i : nat) (r : Report) :
  read_reports w !! i = Some r →
  rtc write w (world_after (add_safe_line (normalize_ussd (report_content r))) w)
  ∧ read_reports (world_after (add_safe_line (normalize_ussd (report_content r))) w)
    = read_reports w.
Proof.
  intros Hi. unfold world_after, add_safe_line, bind, ask, update, respond. simpl.
  case_bool_decide; simpl; (split; [|done]); [done|].
  apply rtc_once. by eapply write_safe_line.
Qed.

Lemma add_blacklist_line_writes (w : World) (i : nat) (r : Report) :
  read_reports w !! i = Some r →
  rtc write w (world_after (add_blacklist_line (normalize_ussd (report_content r))) w)
  ∧ read_reports
      (world_after (add_blacklist_line (normalize_ussd (report_content r))) w)
    = read_reports w.
Proof.
  intros Hi. unfold world_after, add_blacklist_line, bind, ask, update, respond. simpl.
  case_bool_decide; simpl; (split; [|done]); [done|].
  apply rtc_once. by eapply write_blacklist_line.
Qed.

Lemma update_report_status_writes (data : UpdateReportStatus) (w : World) :
  rtc write w (world_after (update_report_status data) w).
Proof.
  destruct data as [index s action].
  destruct (bad_index index (read_reports w)) eqn:Hbad.
  { unfold world_after. by rewrite (proj1 (moderation_bad_index id w index s action Hbad)). }
  destruct (valid_index _ _ Hbad) as (i & r & -> & Hi).
  pose proof (update_report_status_run w i r s action Hi) as Hrun.
  cbv zeta in Hrun. unfold world_after at 1. rewrite Hrun. cbn [snd].
  set (c := normalize_ussd (report_content r)) in *.
  set (w1 := if bool_decide (action = Some "add_safe")
             then world_after (add_safe_line c) w else w).
  assert (H1 : rtc write w w1 ∧ read_reports w1 = read_reports w).
  { unfold w1. destruct (bool_decide (action = Some "add_safe"));
      [by apply (add_safe_line_writes w i r) | done]. }
  destruct H1 as [Hw1 Hr1].
  set (w2 := if bool_decide (action = Some "add_blacklist")
             then world_after (add_blacklist_line c) w1 else w1).
  assert (H2 : rtc write w1 w2 ∧ read_reports w2 = read_reports w1).
  { unfold w2. destruct (bool_decide (action = Some "add_blacklist")); [|done].
    apply (add_blacklist_line_writes w1 i r). by rewrite Hr1. }
  destruct H2 as [Hw2 Hr2].
  etrans; [exact Hw1|]. etrans; [exact Hw2|].
  apply rtc_once. rewrite <- Hr1, <- Hr2. apply write_status.
  by rewrite Hr2, Hr1.
Qed.

Lemma reject_report_writes (request : CodeActionRequest) (w : World) :
  rtc write w (world_after (reject_report request) w).
Proof.
  destruct request as [index].
  destruct (bad_index index (read_reports w)) eqn:Hbad.
  { unfold world_after.
    by rewrite (proj2 (proj2 (moderation_bad_index id w index EmptyString None Hbad))). }
  destruct (valid_index _ _ Hbad) as (i & r & -> & Hi).
  unfold world_after. rewrite (reject_report_run w i r Hi). cbn [snd].
  apply rtc_once. by apply write_status.
Qed.

Section Handlers.

Context (str_upper : string → string).

Lemma approve_report_writes (request : CodeActionRequest) (w : World) :
  rtc write w (world_after (approve_report str_upper request) w).
Proof.
  destruct request as [index].
  destruct (bad_index index (read_reports w)) eqn:Hbad.
  { unfold world_after.
    by rewrite (proj1 (proj2 (moderation_bad_index str_upper w index EmptyString
                                None Hbad))). }
  destruct (valid_index _ _ Hbad) as (i & r & -> & Hi).
  destruct (decide (report_type r = "ussd")) as [Hty|Hty].
  2:{ unfold world_after. by rewrite (approve_report_refuses str_upper w i r Hi Hty). }
  destruct (code_exists str_upper (normalize_code str_upper (report_content r))
              (load_curated_codes w)) eqn:Hex.
  - unfold world_after.
    rewrite (approve_report_curated_run str_upper w i r Hi Hty Hex). cbn [snd].
    apply rtc_once. by apply write_status.
  - unfold world_after. by rewrite (approve_report_raises str_upper w i r Hi Hty Hex).
Qed.

Lemma add_curated_code_writes (request : CurationRequest) (w : World) :
  world_after (add_curated_code str_upper request) w = w.
Proof.
  destruct (add_curated_code_run str_upper request w) as [H400 H500].
  unfold world_after.
  destruct (code_exists str_upper (normalize_code str_upper (cr_code request))
              (load_curated_codes w)) eqn:Hex;
    [by rewrite H400 | by rewrite H500].
Qed.

Lemma bulk_loop_world (codes : list BulkItem) (cs : list CuratedCode) (n : nat)
    (w : World) :
  bulk_loop str_upper codes cs n w = (OK (cs, n), w)
  ∨ bulk_loop str_upper codes cs n w = (HTTPException 500 "Internal Server Error", w).
Proof.
  induction codes as [|item codes IH]; [by left|].
  cbn [bulk_loop]. destruct (bi_code item) as [code|]; [|by right].
  destruct (code_exists _ _ _); [exact IH | by right].
Qed.

Lemma bulk_add_codes_writes (codes : list BulkItem) (w : World) :
  rtc write w (world_after (bulk_add_codes str_upper codes) w).
Proof.
  unfold world_after, bulk_add_codes, bind at 1, ask at 1. cbv beta iota zeta.
  unfold bind at 1.
  destruct (bulk_loop_world codes (load_curated_codes w) 0 w) as [-> | ->]; [|done].
  cbn. apply rtc_once. by apply write_curated.
Qed.

Lemma delete_curated_code_writes (code : string) (w : World) :
  rtc write w (world_after (delete_curated_code str_upper code) w).
Proof.
  destruct (delete_curated_code_run str_upper code w) as [Hmiss Hhit].
  unfold world_after.
  destruct (decide (normalize_code str_upper code
                    ∈ code_key str_upper <$> load_curated_codes w)) as [Hin|Hin].
  - rewrite (Hhit Hin). cbn [snd]. apply rtc_once, write_curated, sublist_filter.
  - by rewrite (Hmiss Hin).
Qed.

(** Every request is answered with writes of the four kinds only. *)
Lemma serve_writes (w : World) (rq : request) : rtc write w (serve str_upper w rq).
Proof.
  destruct rq; cbn [serve]; try done.
  - by rewrite check_ussd_world.
  - unfold world_after, mobile_check_ussd, bind, ask. cbv zeta.
    by destruct (bool_decide _).
  - unfold world_after. by rewrite submit_report_raises.
  - unfold world_after, get_reports, bind, ask, respond. simpl.
    by destruct st as [[|]|].
  - apply update_report_status_writes.
  - by rewrite add_curated_code_writes.
  - apply bulk_add_codes_writes.
  - apply approve_report_writes.
  - apply reject_report_writes.
  - apply delete_curated_code_writes.
Qed.

Lemma serve_all_writes (w : World) (rqs : list request) :
  rtc write w (serve_all str_upper w rqs).
Proof.
  unfold serve_all. revert w. induction rqs as [|rq rqs IH]; intros w; [done|].
  simpl. etrans; [apply serve_writes | apply IH].
Qed.

End Handlers.

(** *** What one write keeps *)

Lemma write_lists_terminated (w w' : World) :
  write w w' → lists_terminated w → lists_terminated w'.
Proof.
  intros [w0 i r s Hi|w0 i r Hi|w0 i r Hi|w0 cs Hcs] [Hs Hb]; split; try done.
  - apply terminated_append_line.
  - apply terminated_append_line.
Qed.

Lemma write_curated_codes (w w' : World) :
  write w w' → load_curated_codes w' `sublist_of` load_curated_codes w.
Proof. by intros [w0 i r s Hi|w0 i r Hi|w0 i r Hi|w0 cs Hcs]. Qed.

Lemma without_status_with_status (s : string) (r : Report) :
  without_status (with_status s r) = without_status r.
Proof. reflexivity. Qed.

Lemma write_reports_kept (w w' : World) :
  write w w' →
  without_status <$> read_reports w' = without_status <$> read_reports w.
Proof.
  intros [w0 i r s Hi|w0 i r Hi|w0 i r Hi|w0 cs Hcs]; try done.
  rewrite read_reports_set_reports, list_fmap_insert, without_status_with_status.
  apply list_insert_id. by rewrite list_lookup_fmap, Hi.
Qed.



(** *** What any sequence of requests keeps *)

(** X7.  Whatever requests the server answers, and in whatever order, it
    keeps the two code lists well formed: if the safe-list file and the
    blacklist file are each missing, empty or ending with a newline, they
    still are after any sequence of requests, so that a code appended next
    starts a line of its own. *)
Theorem code_lists_stay_terminated (str_upper : string → string) (w : World)
    (rqs : list request) :
  lists_terminated w → lists_terminated (serve_all str_upper w rqs).
Proof.
  intros Hw. induction (serve_all_writes str_upper w rqs) as [|w1 w2 w3 H12 _ IH];
    [done|].
  apply IH. by apply (write_lists_terminated w1).
Qed.

Lemma code_lists_stay_terminated_witness :
  lists_terminated world_with_report
  ∧ lists_terminated
      (serve_all Py.lower world_with_report
         [ ReqUpdateReport {| us_index := 0; us_status := "Verified";
                           us_action := Some "add_safe" |};
           ReqUpdateReport {| us_index := 0; us_status := "Rejected";
                           us_action := Some "add_blacklist" |};
           ReqSubmitReport report_of_901 ]).
Proof.
  assert (H : lists_terminated world_with_report) by (split; by left).
  split; [exact H|].
  exact (code_lists_stay_terminated Py.lower world_with_report _ H).
Defined.

(** X9.  The curated codes never grow: after any sequence of requests the
    curated codes are some of the codes that were there before, in the same
    order (the handlers that are to add a code raise before they save, and
    [delete_curated_code] only removes).  So curated codes that were
    distinct by their normalized form stay distinct. *)
Theorem curated_codes_never_grow (str_upper : string → string) (w : World)
    (rqs : list request) :
  load_curated_codes (serve_all str_upper w rqs) `sublist_of` load_curated_codes w
  ∧ (distinct_codes str_upper (load_curated_codes w) →
     distinct_codes str_upper (load_curated_codes (serve_all str_upper w rqs))).
Proof.
  assert (Hsub : load_curated_codes (serve_all str_upper w rqs)
                 `sublist_of` load_curated_codes w).
  { induction (serve_all_writes str_upper w rqs) as [|w1 w2 w3 H12 _ IH]; [done|].
    etrans; [exact IH | by apply write_curated_codes]. }
  split; [exact Hsub|].
  unfold distinct_codes. intros Hd. eapply sublist_NoDup; [exact Hd|].
  by apply fmap_sublist.
Qed.

(** X27.  No report is ever created.  [submit_report] answers 500 for
    every request and writes nothing, and after any sequence of requests
    the report database holds the reports it held before, in the same
    order and changed in nothing but their status. *)
Theorem reports_are_never_created (str_upper : string → string) (w : World)
    (req : ReportRequest) (rqs : list request) :
  submit_report req w = (HTTPException 500 "Internal Server Error", w)
  ∧ without_status <$> read_reports (serve_all str_upper w rqs)
    = without_status <$> read_reports w
  ∧ length (read_reports (serve_all str_upper w rqs)) = length (read_reports w).
Proof.
  split; [apply submit_report_raises|].
  assert (Hkept : without_status <$> read_reports (serve_all str_upper w rqs)
                  = without_status <$> read_reports w).
  { induction (serve_all_writes str_upper w rqs) as [|w1 w2 w3 H12 _ IH]; [done|].
    by rewrite IH, (write_reports_kept w1 w2). }
  split; [exact Hkept|].
  apply (f_equal length) in Hkept. by rewrite !length_fmap in Hkept.
Qed.



End ServerFacts.

(** ** The USSD rules: what is enough for an unsafe score *)

Module RuleFacts.
Import App PyMore ScoreFacts StrFacts CheckFacts.

Lemma hit_snd (pts : Z) (r : string) (st : acc) : (hit pts r st).2 = st.2 ++ [r].
Proof. reflexivity. Qed.

Lemma hit_fst (pts : Z) (r : string) (st : acc) : (hit pts r st).1 = st.1 + pts.
Proof. reflexivity. Qed.

Lemma hit_if_reasons (b : bool) (pts : Z) (r : string) (st : acc) :
  st.2 ≠ [] → (if b then hit pts r st else st).2 ≠ [].
Proof.
  intros H. destruct b; [|done]. rewrite hit_snd. by intros [? _]%app_eq_nil.
Qed.

Lemma keyword_loop_reasons (kws : list string) (pts : Z) (label low : string)
    (st : acc) :
  st.2 ≠ [] → (keyword_loop kws pts label low st).2 ≠ [].
Proof.
  unfold keyword_loop. revert st. induction kws as [|k kws IH]; intros st H; [done|].
  simpl. apply IH. by apply hit_if_reasons.
Qed.

Lemma ussd_rules_reasons (c : string) : (ussd_rules c).2 ≠ [].
Proof.
  unfold ussd_rules. cbv zeta.
  destruct (Py.any (Py.startswith c) SAFE_PREFIX_PATTERNS) eqn:Hknown.
  - do 4 apply hit_if_reasons. do 2 apply keyword_loop_reasons.
    assert (H : ∀ st : acc, (Z.max 0 (st.1 - 2), st.2 ++ ["Known safe prefix"]).2 ≠ [])
      by (intros st; simpl; by intros [_ [=]]%app_eq_nil).
    repeat case_bool_decide; rewrite ?hit_snd;
      first [ apply H | by intros [_ [=]]%app_eq_nil ].
  - cbn [negb]. rewrite hit_snd. by intros [_ [=]]%app_eq_nil.
Qed.

Lemma length_sub_class_empty (p : ascii → bool) (s : string) :
  String.length (Re.sub_class_empty (λ a, negb (p a)) s) = count p s.
Proof.
  induction s as [|a s IH]; simpl; [done|].
  destruct (p a); simpl; by rewrite IH.
Qed.

Lemma known_safe_codes_shape :
  forallb (λ c, is_ussd_format c && bool_decide (count Py.isdecimal c < 9)%nat)
          KNOWN_SAFE_CODES_literal = true.
Proof. vm_compute. reflexivity. Qed.

Lemma known_safe_codes_format (c : string) :
  c ∈ KNOWN_SAFE_CODES → is_ussd_format c = true ∧ (count Py.isdecimal c < 9)%nat.
Proof.
  intros Hc%elem_of_known_safe%list_elem_of_In.
  pose proof known_safe_codes_shape as H.
  rewrite List.forallb_forall in H. apply H in Hc.
  apply andb_true_iff in Hc as [Hf Hd]. split; [done|].
  by apply bool_decide_eq_true_1 in Hd.
Qed.

Lemma ussd_rules_digits (c : string) :
  (9 ≤ count Py.isdecimal c)%nat → 6 ≤ (ussd_rules c).1.
Proof.
  intros Hd.
  pose proof (hits_nonneg high_risk_kw (Py.lower c)).
  pose proof (hits_nonneg medium_risk_kw (Py.lower c)).
  unfold ussd_rules. cbv zeta.
  do 4 (etrans; [|apply hit_if_ge; lia]).
  rewrite !keyword_loop_fst, !length_sub_class_empty.
  rewrite (bool_decide_eq_true_2 (9 ≤ count Py.isdecimal c)%nat) by done.
  destruct (is_ussd_format c), (Py.any (Py.startswith c) SAFE_PREFIX_PATTERNS);
    unfold hit; cbn [fst snd negb]; lia.
Qed.

Lemma ussd_rules_ill_formed (c : string) :
  is_ussd_format c = false →
  Py.any (Py.startswith c) SAFE_PREFIX_PATTERNS = false →
  5 ≤ (ussd_rules c).1.
Proof.
  intros Hf Hp.
  pose proof (hits_nonneg high_risk_kw (Py.lower c)).
  pose proof (hits_nonneg medium_risk_kw (Py.lower c)).
  unfold ussd_rules. cbv zeta. rewrite Hf, Hp. cbn [negb].
  rewrite andb_true_r.
  rewrite (hit_fst 1).
  match goal with |- 5 ≤ ?x + 1 => enough (4 ≤ x) by lia end.
  do 3 (etrans; [|apply hit_if_ge; lia]).
  rewrite !keyword_loop_fst.
  repeat case_bool_decide; unfold hit; cbn [fst snd]; lia.
Qed.

(** X12.  A code whose normalized form holds nine or more decimal digits
    scores at least 6 (and at most 10): the long numeric sequence alone
    puts it above the threshold 5 below which [check_ussd] calls a code
    safe, whatever its prefix and format, and no whitelisted code is that
    long. *)
Theorem long_digit_run_scores_six (code : string) :
  (9 ≤ count Py.isdecimal (normalize_ussd code))%nat →
  6 ≤ (pattern_score_ussd code).1 ≤ 10.
Proof.
  intros Hd. pose proof (ussd_rules_digits _ Hd) as Hr.
  unfold pattern_score_ussd. cbv zeta.
  destruct (String.eqb_spec (normalize_ussd code) EmptyString) as [He|_].
  { rewrite He in Hd. simpl in Hd. lia. }
  case_bool_decide as Hsafe.
  { apply known_safe_codes_format in Hsafe as [_ ?]. lia. }
  cbn [fst]. lia.
Qed.

(** X13.  A code whose normalized form is not empty, does not have the
    USSD format and starts with none of the known safe prefixes scores at
    least 5 (and at most 10), so that [check_ussd] does not call it safe by
    its score. *)
Theorem ill_formed_code_scores_five (code : string) :
  normalize_ussd code ≠ EmptyString →
  is_ussd_format (normalize_ussd code) = false →
  Py.any (Py.startswith (normalize_ussd code)) SAFE_PREFIX_PATTERNS = false →
  5 ≤ (pattern_score_ussd code).1 ≤ 10.
Proof.
  intros Hne Hf Hp. pose proof (ussd_rules_ill_formed _ Hf Hp) as Hr.
  unfold pattern_score_ussd. cbv zeta.
  destruct (String.eqb_spec (normalize_ussd code) EmptyString) as [|_]; [done|].
  case_bool_decide as Hsafe.
  { apply known_safe_codes_format in Hsafe as [? _]. congruence. }
  cbn [fst]. lia.
Qed.

Lemma nonempty_is_cons {A} (l : list A) : l ≠ [] → ∃ x l', l = x :: l'.
Proof. destruct l as [|x l']; [done|]. intros _. by exists x, l'. Qed.

(** X14.  [pattern_score_ussd] never returns an empty list of reasons:
    every score, also the score 0 of a whitelisted code and the sentinel 100
    of an empty one, comes with at least one reason. *)
Theorem pattern_score_ussd_has_reason (code : string) :
  ∃ reason others, (pattern_score_ussd code).2 = reason :: others.
Proof.
  apply nonempty_is_cons.
  unfold pattern_score_ussd. cbv zeta.
  destruct (String.eqb _ _); [done|]. case_bool_decide; [done|].
  apply ussd_rules_reasons.
Qed.

Lemma long_digit_run_scores_six_witness :
  (9 ≤ count Py.isdecimal (normalize_ussd "*123*0801234567#"))%nat
  ∧ 6 ≤ (pattern_score_ussd "*123*0801234567#").1 ≤ 10.
Proof.
  assert (H : (9 ≤ count Py.isdecimal (normalize_ussd "*123*0801234567#"))%nat)
    by (vm_compute; lia).
  split; [exact H|].
  exact (long_digit_run_scores_six "*123*0801234567#" H).
Defined.

Lemma ill_formed_code_scores_five_witness :
  normalize_ussd "901#" ≠ EmptyString
  ∧ is_ussd_format (normalize_ussd "901#") = false
  ∧ Py.any (Py.startswith (normalize_ussd "901#")) SAFE_PREFIX_PATTERNS = false
  ∧ 5 ≤ (pattern_score_ussd "901#").1 ≤ 10.
Proof.
  assert (H1 : normalize_ussd "901#" ≠ EmptyString) by (vm_compute; discriminate).
  assert (H2 : is_ussd_format (normalize_ussd "901#") = false) by reflexivity.
  assert (H3 : Py.any (Py.startswith (normalize_ussd "901#")) SAFE_PREFIX_PATTERNS
               = false) by reflexivity.
  split; [exact H1|]. split; [exact H2|]. split; [exact H3|].
  exact (ill_formed_code_scores_five "901#" H1 H2 H3).
Defined.

End RuleFacts.

(** ** The SMS scorer: verdict, confidence and reasons *)

Module SmsMoreFacts.
Import App PyMore ScoreFacts.

Lemma word_loop_trace (m : gmap string Z) (words : list string) (st : Z * list string) :
  ∃ l, (word_loop m words st).2 = st.2 ++ l
       ∧ (l = [] → (word_loop m words st).1 = st.1).
Proof.
  unfold word_loop. revert st.
  induction words as [|w words IH]; intros st; simpl.
  - exists []. by rewrite app_nil_r.
  - destruct (m !! w) as [pts|]; [|apply IH].
    destruct (IH (st.1 + pts, st.2 ++ [w])) as (l & -> & _).
    exists (w :: l). cbn [snd]. split; [by rewrite <- app_assoc|done].
Qed.

Lemma pattern_loop_trace (normalized : string) (st : acc) :
  ∃ l, (pattern_loop normalized st).2 = st.2 ++ l
       ∧ (l = [] → (pattern_loop normalized st).1 = st.1).
Proof.
  unfold pattern_loop. generalize patterns. intros ps. revert st.
  induction ps as [|p ps IH]; intros st; simpl.
  - exists []. by rewrite app_nil_r.
  - destruct (Re.search p.1.1 normalized); [|apply IH].
    destruct (IH (hit p.1.2 p.2 st)) as (l & -> & _).
    exists (p.2 :: l). cbn [hit snd]. split; [by rewrite <- app_assoc|done].
Qed.

Lemma sms_rules_silent (normalized : string) (words : list string) :
  (sms_rules normalized words).2 = [] → (sms_rules normalized words).1 = 0.
Proof.
  unfold sms_rules. cbv zeta.
  match goal with |- (if ?b then _ else _).2 = _ → _ => destruct b end; [done|].
  match goal with
  | |- (pattern_loop _ ?st).2 = _ → _ =>
      destruct (pattern_loop_trace normalized st) as (l & -> & Hl)
  end.
  cbn [fst snd] in *. intros [Ht ->]%app_eq_nil. rewrite Hl by done.
  match type of Ht with
  | match (word_loop ?m ?ws ?st).2 with _ => _ end = _ =>
      destruct (word_loop_trace m ws st) as (t & Ht2 & Ht1);
      destruct (word_loop m ws st).2 eqn:E; [|done]
  end.
  symmetry in Ht2. apply app_eq_nil in Ht2 as [_ ->]. by rewrite Ht1.
Qed.

(** X15.  The three parts of the answer of [improved_check_sms_scam]
    agree: the verdict is scam exactly when the confidence is at least 6,
    and an answer without reasons is never a scam verdict and has the
    confidence 0, so that every scam verdict comes with a reason. *)
Theorem sms_verdict_is_explained (content : string) :
  (scam (improved_check_sms_scam content) = true
   ↔ 6 ≤ confidence (improved_check_sms_scam content))
  ∧ (reasons (improved_check_sms_scam content) = [] →
     scam (improved_check_sms_scam content) = false
     ∧ confidence (improved_check_sms_scam content) = 0).
Proof.
  unfold improved_check_sms_scam. cbv zeta.
  destruct (String.eqb _ _); [by split|].
  destruct (is_ussd_format _); [by split|].
  destruct (Py.any _ _); [by split|].
  cbn [scam confidence reasons]. split.
  - rewrite bool_decide_eq_true. lia.
  - intros H%sms_rules_silent. rewrite H. by split.
Qed.

(** *** Letter case *)

Section Stable.

Variable f : ascii → ascii.

Lemma stable_cat (r1 r2 : Re.regex) :
  stable f r1 → stable f r2 → stable f (Re.cat r1 r2).
Proof. destruct r1, r2; simpl; tauto. Qed.

Lemma stable_alt (r1 r2 : Re.regex) :
  stable f r1 → stable f r2 → stable f (Re.alt r1 r2).
Proof. destruct r1, r2; simpl; tauto. Qed.

Lemma stable_deriv (a : ascii) (r : Re.regex) : stable f r → stable f (Re.deriv a r).
Proof.
  induction r as [| |p|r1 IH1 r2 IH2|r1 IH1 r2 IH2|r1 IH1]; simpl.
  - done.
  - done.
  - intros _. by destruct (p a).
  - intros [H1 H2]. destruct (Re.nullable r1).
    + apply stable_alt; [apply stable_cat|]; auto.
    + apply stable_cat; auto.
  - intros [H1 H2]. apply stable_alt; auto.
  - intros H. apply stable_cat; auto.
Qed.

Lemma deriv_stable (a : ascii) (r : Re.regex) :
  stable f r → Re.deriv (f a) r = Re.deriv a r.
Proof.
  induction r as [| |p|r1 IH1 r2 IH2|r1 IH1 r2 IH2|r1 IH1]; simpl.
  - done.
  - done.
  - intros H. by rewrite H.
  - intros [H1 H2]. by rewrite IH1, IH2.
  - intros [H1 H2]. by rewrite IH1, IH2.
  - intros H. by rewrite IH1.
Qed.

End Stable.

Lemma matches_lower (r : Re.regex) (s : string) :
  stable Py.lower_char r → Re.matches r (Py.lower s) = Re.matches r s.
Proof.
  revert r. induction s as [|a s IH]; intros r Hr; simpl; [done|].
  rewrite deriv_stable by done. apply IH. by apply stable_deriv.
Qed.

Lemma is_ussd_format_lower (s : string) :
  is_ussd_format (Py.lower s) = is_ussd_format s.
Proof.
  unfold is_ussd_format, Re.match_dollar. apply matches_lower.
  repeat split; intros a; by destruct a as [[] [] [] [] [] [] [] []].
Qed.

(** X16.  The SMS verdict does not depend on letter case: the verdict, the
    confidence, the score and the reasons of [improved_check_sms_scam] on
    the lower-cased text are those on the text itself (also for the test
    that takes the text for a USSD code, which is made on the text as
    typed). *)
Theorem sms_verdict_ignores_case (content : string) :
  scam (improved_check_sms_scam (Py.lower content))
    = scam (improved_check_sms_scam content)
  ∧ confidence (improved_check_sms_scam (Py.lower content))
    = confidence (improved_check_sms_scam content)
  ∧ score (improved_check_sms_scam (Py.lower content))
    = score (improved_check_sms_scam content)
  ∧ reasons (improved_check_sms_scam (Py.lower content))
    = reasons (improved_check_sms_scam content).
Proof.
  unfold improved_check_sms_scam. cbv zeta.
  rewrite <- StrFacts.lower_strip, is_ussd_format_lower, StrFacts.lower_idemp.
  assert (He : String.eqb (Py.lower content) EmptyString
               = String.eqb content EmptyString) by by destruct content.
  rewrite He. clear He.
  destruct (String.eqb _ _); [done|].
  destruct (is_ussd_format _); [done|].
  by destruct (Py.any _ _).
Qed.

End SmsMoreFacts.

(** ** [/mobile/check], the enhanced score and the bank verifier *)

Module MobileFacts.
Import App AppMore ScoreFacts CheckFacts.

Lemma mobile_check_ussd_run (code : string) (w : World) :
  mobile_check_ussd code w
  = (OK (if bool_decide (normalize_ussd code ∈ load_safe_ussd w)
         then {| mo_safe := true; mo_reason := Some "known_safe"; mo_score := None;
                 mo_reasons := None; mo_confidence := 95 |}
         else {| mo_safe := bool_decide ((pattern_score_ussd code).1 < 6);
                 mo_reason := None;
                 mo_score := Some (pattern_score_ussd code).1;
                 mo_reasons := Some (take 3 (pattern_score_ussd code).2);
                 mo_confidence := Z.max 0 (100 - (pattern_score_ussd code).1 * 10) |}),
     w).
Proof.
  unfold mobile_check_ussd, bind, ask, respond. cbv zeta.
  by destruct (bool_decide _).
Qed.

(** X17.  [mobile_check_ussd] always answers and writes nothing; its
    confidence lies between 0 and 100, its verdict is safe exactly when the
    confidence is above 40, and it returns at most three reasons. *)
Theorem mobile_check_ussd_confidence (code : string) (w : World) :
  ∃ r, mobile_check_ussd code w = (OK r, w)
       ∧ 0 ≤ mo_confidence r ≤ 100
       ∧ (mo_safe r = true ↔ 40 < mo_confidence r)
       ∧ (∀ rs, mo_reasons r = Some rs → (length rs ≤ 3)%nat).
Proof.
  rewrite mobile_check_ussd_run. eexists. split; [done|].
  pose proof (pattern_score_ussd_range code) as Hr.
  case_bool_decide as Hsafe; cbn [mo_safe mo_confidence mo_reasons].
  - split; [lia|]. split; [|done]. split; [lia|done].
  - split; [lia|]. split.
    + rewrite bool_decide_eq_true. lia.
    + intros rs [= <-]. rewrite length_take. lia.
Qed.

(** X18.  The mobile check is the more lenient one: on a code without a
    cache entry, whatever [check_ussd] answers as safe, in either mode,
    [mobile_check_ussd] answers as safe too (it asks for a score below 6
    where [check_ussd] asks for one below 5, and reads no blacklist). *)
Theorem mobile_check_clears_what_check_ussd_clears (code : string)
    (full_mode : bool) (w : World) (r : UssdResult) :
  answer (check_ussd code full_mode) w = OK r →
  read_ussd_cache w !! normalize_ussd code = None →
  ur_safe r = true →
  ∃ m, answer (mobile_check_ussd code) w = OK m ∧ mo_safe m = true.
Proof.
  intros Hr Hcache Hsafe.
  assert (Hne : code ≠ EmptyString).
  { intros ->. unfold answer in Hr. by rewrite check_ussd_refuses_empty in Hr. }
  destruct (check_ussd_cases code full_mode w Hne)
    as (r' & Hr' & _ & Hbl & _ & Hscore).
  rewrite Hr in Hr'. injection Hr' as <-.
  unfold answer. rewrite mobile_check_ussd_run. eexists. split; [done|].
  destruct (decide (normalize_ussd code ∈ load_blacklist_ussd w)) as [Hb|Hb].
  { apply Hbl in Hb as [Hb _]. congruence. }
  destruct (Hscore Hb Hcache) as (_ & _ & _ & Hiff).
  apply Hiff in Hsafe as [Hin|Hlt].
  - by rewrite bool_decide_eq_true_2.
  - case_bool_decide; [done|]. cbn [mo_safe]. rewrite bool_decide_eq_true. lia.
Qed.

(** *** The enhanced score *)

Lemma calculate_enhanced_score_le (basic : UssdResult) (bank : Bank.BankResult)
    (ml : MlResult) :
  calculate_enhanced_score basic bank ml ≤ 10.
Proof. unfold calculate_enhanced_score. cbv zeta. lia. Qed.

(** X19.  The enhanced score never exceeds 10 and never rises by more than
    2 over the basic score (taken as 0 when negative).  For a basic score
    that is not negative it is not negative either and lies at most 5 below
    the basic score capped at 10.  When the classifier calls the code
    legitimate the enhanced score does not exceed the basic one, and when
    neither the bank nor the classifier vouches for the code it is not below
    the basic score capped at 10. *)
Theorem calculate_enhanced_score_bounds (basic : UssdResult)
    (bank : Bank.BankResult) (ml : MlResult) :
  calculate_enhanced_score basic bank ml ≤ 10
  ∧ calculate_enhanced_score basic bank ml ≤ Z.max 0 (ur_score basic) + 2
  ∧ (0 ≤ ur_score basic →
     0 ≤ calculate_enhanced_score basic bank ml
     ∧ Z.min 10 (ur_score basic) - 5 ≤ calculate_enhanced_score basic bank ml)
  ∧ (legitimate ml = true →
     calculate_enhanced_score basic bank ml ≤ Z.max 0 (ur_score basic))
  ∧ (Bank.verified bank = false → legitimate ml = false →
     Z.min 10 (ur_score basic) ≤ calculate_enhanced_score basic bank ml).
Proof.
  unfold calculate_enhanced_score. cbv zeta.
  destruct (Bank.verified bank), (legitimate ml), (above_0_7 (ml_confidence ml));
    cbn [andb negb]; repeat split; intros; try lia; try done.
Qed.

(** *** The bank verifier *)

Lemma verify_ussd_code_lookup (now : string) (ussd_code : string)
    (b : Bank.BankVerification) :
  Bank.verified_cache (Bank.verify_ussd_code now ussd_code b).2 !! ussd_code
  = Some (Bank.verify_ussd_code now ussd_code b).1.
Proof.
  unfold Bank.verify_ussd_code.
  destruct (Bank.verified_cache b !! ussd_code) as [cached|] eqn:Hc; [done|].
  cbv zeta. cbn [fst snd].
  unfold Bank.save_cache. cbn [Bank.cache_file_writable Bank.verified_cache].
  destruct (Bank.cache_file_writable b); cbn [Bank.verified_cache];
    by rewrite lookup_insert_eq.
Qed.

(** X20.  With the optional modules present and a code that is not the
    empty string, [check_ussd_enhanced] answers, leaves the store as it was,
    carries the answer of [check_ussd] unchanged, reports an enhanced score
    of at most 10, and leaves the bank verifier with a cache entry for the
    normalized code that holds the verdict, source and bank name it
    reports. *)
Theorem check_ussd_enhanced_extends_check_ussd (env : Enhanced) (code : string)
    (full_mode : bool) (w : World) :
  code ≠ EmptyString →
  ENHANCED_FEATURES env = true →
  ∃ er b',
    check_ussd_enhanced env code full_mode w = (OK er, w, b')
    ∧ answer (check_ussd code full_mode) w = OK (er_basic er)
    ∧ er_enhanced_score er ≤ 10
    ∧ ∃ br, Bank.verified_cache b' !! normalize_ussd code = Some br
            ∧ Bank.verified br = er_bank_verified er
            ∧ Bank.source br = er_bank_source er
            ∧ Bank.bank br = er_bank_name er.
Proof.
  intros Hne Hfeat. unfold check_ussd_enhanced.
  rewrite (proj2 (String.eqb_neq _ _) Hne), Hfeat. cbn [negb]. cbv zeta.
  destruct (check_ussd_cases code full_mode w Hne) as (r & Hr & _).
  pose proof (check_ussd_world code full_mode w) as Hw.
  unfold answer in *. unfold world_after in Hw.
  destruct (check_ussd code full_mode w) as [resp w']. cbn [fst snd] in *.
  subst resp w'.
  eexists _, _. split; [done|]. cbn [er_basic er_enhanced_score].
  split; [done|].
  split; [apply calculate_enhanced_score_le|].
  eexists. split; [apply verify_ussd_code_lookup|]. done.
Qed.

Lemma nibss_within_cbn (c : string) :
  c ∈ Bank.nibss_verified → c ∈ Bank.cbn_verified_codes.
Proof.
  unfold Bank.nibss_verified, Bank.cbn_verified_codes.
  rewrite !elem_of_list_to_set, !elem_of_cons, !elem_of_nil. tauto.
Qed.

Lemma verified_cache_save_cache (b : Bank.BankVerification) :
  Bank.verified_cache (Bank.save_cache b) = Bank.verified_cache b.
Proof. unfold Bank.save_cache. by destruct (Bank.cache_file_writable b). Qed.

(** X21.  The bank verifier answers from its cache: verifying a code a
    second time, at any later time, returns the result of the first
    verification (with its timestamp) and changes neither the cache nor the
    cache file, whether or not the file could be written. *)
Theorem verify_ussd_code_is_cached (now now' : string) (ussd_code : string)
    (b : Bank.BankVerification) :
  Bank.verify_ussd_code now' ussd_code (Bank.verify_ussd_code now ussd_code b).2
  = Bank.verify_ussd_code now ussd_code b.
Proof.
  unfold Bank.verify_ussd_code at 2 3.
  destruct (Bank.verified_cache b !! ussd_code) as [cached|] eqn:Hc; cbn [fst snd].
  - unfold Bank.verify_ussd_code. by rewrite Hc.
  - cbv zeta. unfold Bank.verify_ussd_code.
    rewrite verified_cache_save_cache. cbn [Bank.verified_cache].
    by rewrite lookup_insert_eq.
Qed.

(** X22.  A code that is not in the verifier's cache is verified exactly
    when the registry of the central bank lists it, and then the source is
    cbn, otherwise none: the source nibss is never given, since every code
    of the second registry is in the first.  The timestamp is the current
    time and the result is entered in the cache under the code. *)
Theorem verify_ussd_code_fresh (now : string) (ussd_code : string)
    (b : Bank.BankVerification) :
  Bank.verified_cache b !! ussd_code = None →
  (Bank.verified (Bank.verify_ussd_code now ussd_code b).1 = true
   ↔ ussd_code ∈ Bank.cbn_verified_codes)
  ∧ Bank.source (Bank.verify_ussd_code now ussd_code b).1
    = (if bool_decide (ussd_code ∈ Bank.cbn_verified_codes) then "cbn" else "none")
  ∧ Bank.timestamp (Bank.verify_ussd_code now ussd_code b).1 = now
  ∧ Bank.verified_cache (Bank.verify_ussd_code now ussd_code b).2
    = <[ussd_code := (Bank.verify_ussd_code now ussd_code b).1]>
        (Bank.verified_cache b).
Proof.
  intros Hc. unfold Bank.verify_ussd_code. rewrite Hc. cbv zeta. cbn [fst snd].
  rewrite verified_cache_save_cache. cbn [Bank.verified_cache].
  unfold Bank.verify_with_cbn_registry, Bank.verify_with_nibss.
  destruct (decide (ussd_code ∈ Bank.cbn_verified_codes)) as [Hcbn|Hcbn].
  - rewrite !(bool_decide_eq_true_2 _ Hcbn). by repeat split.
  - rewrite !(bool_decide_eq_false_2 _ Hcbn).
    rewrite bool_decide_eq_false_2 by (intros ?%nibss_within_cbn; done).
    by repeat split.
Qed.

Lemma mobile_check_clears_what_check_ussd_clears_witness :
  (∃ r, answer (check_ussd "*901#" false) fresh_world = OK r ∧ ur_safe r = true)
  ∧ read_ussd_cache fresh_world !! normalize_ussd "*901#" = None
  ∧ ∃ m, answer (mobile_check_ussd "*901#") fresh_world = OK m ∧ mo_safe m = true.
Proof.
  destruct (check_ussd_cases "*901#" false fresh_world) as (r & Hr & _);
    [discriminate|].
  assert (Hsafe : ur_safe r = true).
  { revert Hr. unfold answer. vm_compute. by intros [= <-]. }
  assert (Hcache : read_ussd_cache fresh_world !! normalize_ussd "*901#" = None)
    by reflexivity.
  split; [by exists r|]. split; [exact Hcache|].
  exact (mobile_check_clears_what_check_ussd_clears "*901#" false fresh_world r
           Hr Hcache Hsafe).
Defined.

Lemma check_ussd_enhanced_extends_check_ussd_witness :
  "*901#" ≠ EmptyString
  ∧ ENHANCED_FEATURES sample_enhanced = true
  ∧ ∃ er b',
      check_ussd_enhanced sample_enhanced "*901#" false fresh_world
      = (OK er, fresh_world, b')
      ∧ answer (check_ussd "*901#" false) fresh_world = OK (er_basic er)
      ∧ er_enhanced_score er ≤ 10.
Proof.
  assert (H1 : "*901#" ≠ EmptyString) by discriminate.
  assert (H2 : ENHANCED_FEATURES sample_enhanced = true) by reflexivity.
  split; [exact H1|]. split; [exact H2|].
  destruct (check_ussd_enhanced_extends_check_ussd sample_enhanced "*901#" false
              fresh_world H1 H2) as (er & b' & Hrun & Hbasic & Hle & _).
  by exists er, b'.
Defined.

Lemma verify_ussd_code_fresh_witness :
  Bank.verified_cache (Bank.load_cache Unreadable false) !! "*326#" = None
  ∧ Bank.verified
      (Bank.verify_ussd_code "2025-01-01T00:00:00" "*326#"
         (Bank.load_cache Unreadable false)).1 = true
  ∧ Bank.source
      (Bank.verify_ussd_code "2025-01-01T00:00:00" "*326#"
         (Bank.load_cache Unreadable false)).1 = "cbn".
Proof.
  assert (H : Bank.verified_cache (Bank.load_cache Unreadable false) !! "*326#" = None)
    by reflexivity.
  split; [exact H|].
  pose proof (verify_ussd_code_fresh "2025-01-01T00:00:00" "*326#"
                (Bank.load_cache Unreadable false) H) as (Hv & Hs & _).
  split.
  - apply Hv. apply (bool_decide_eq_true_1 _). vm_compute. reflexivity.
  - rewrite Hs. vm_compute. reflexivity.
Defined.

End MobileFacts.

(** ** [cyberguard_clean.py]: letter case, white space and links *)

Module CleanFacts.
Import Clean CleanMore StrFacts VariantFacts.

Lemma lstrip_app_nonspace (u v : string) (a : ascii) :
  Py.isspace a = false → Py.lstrip (u +:+ String a v) ≠ EmptyString.
Proof.
  intros Ha. induction u as [|b u IH].
  - simpl. by rewrite Ha.
  - rewrite ReFacts.app_String. simpl. by destruct (Py.isspace b).
Qed.

(** A string is blank for [strip] exactly when it is for [lstrip]. *)
Lemma strip_eq_empty (s : string) :
  Py.strip s = EmptyString ↔ Py.lstrip s = EmptyString.
Proof.
  unfold Py.strip, Py.rstrip. split; [|by intros ->].
  pose proof (lstrip_idemp s) as Hs. revert Hs.
  generalize (Py.lstrip s). intros t Ht H.
  destruct t as [|a t]; [done|]. exfalso.
  apply lstrip_fixed in Ht.
  apply (f_equal String.rev) in H. rewrite rev_involutive in H.
  change (String.rev EmptyString) with EmptyString in H.
  rewrite rev_String in H. by apply lstrip_app_nonspace in H.
Qed.

Lemma contains_not_blank (b : ascii) (k s : string) :
  Py.isspace b = false → Py.contains (String b k) s = true →
  Py.strip s ≠ EmptyString.
Proof.
  intros Hb (pre & post & ->)%PyFacts.contains_spec.
  rewrite strip_eq_empty, ReFacts.app_String. by apply lstrip_app_nonspace.
Qed.

Lemma strip_lower_eq_empty (s : string) :
  Py.strip (Py.lower s) = EmptyString ↔ Py.strip s = EmptyString.
Proof. by rewrite <- lower_strip, lower_eq_empty. Qed.

(** X23.  The variant of [cyberguard_clean.py] ignores letter case, and
    white space around a code: [check_ussd_code] answers the same on a code,
    on its lower-cased form and on its stripped form, and
    [check_sms_message] answers the same on a message and on its lower-cased
    form. *)
Theorem clean_checks_ignore_case (f : string → string → option bool)
    (db : Database) (code msg : string) :
  check_ussd_code f db (Py.lower code) = check_ussd_code f db code
  ∧ check_ussd_code f db (Py.strip code) = check_ussd_code f db code
  ∧ check_sms_message (Py.lower msg) = check_sms_message msg.
Proof.
  split; [|split].
  - unfold check_ussd_code. by rewrite lower_idemp.
  - unfold check_ussd_code. by rewrite lower_strip, strip_idemp.
  - unfold check_sms_message. rewrite lower_idemp.
    destruct (String.eqb_spec (Py.strip (Py.lower msg)) EmptyString) as [H|H];
      destruct (String.eqb_spec (Py.strip msg) EmptyString) as [H'|H']; try done;
      by rewrite strip_lower_eq_empty in H.
Qed.

(** X24.  In the variant one finding is enough for an unsafe verdict: a
    message that contains one of the scam indicators, in any letter case,
    is answered as not safe with a confidence of at least 60, and a message
    that contains [http://], [https://] or [www.] is answered as not safe
    with a confidence of at least 75. *)
Theorem clean_sms_indicators (msg k : string) :
  (k ∈ scam_indicators → Py.contains k (Py.lower msg) = true →
   safe (check_sms_message msg) = false
   ∧ 60 ≤ confidence (check_sms_message msg))
  ∧ (k ∈ ["http://"; "https://"; "www."] → Py.contains k (Py.lower msg) = true →
     safe (check_sms_message msg) = false
     ∧ 75 ≤ confidence (check_sms_message msg)).
Proof.
  pose proof (ScoreFacts.hits_nonneg scam_indicators (Py.lower msg)) as Hnn.
  split; intros Hk Hc.
  - assert (Hne : Py.strip msg ≠ EmptyString).
    { rewrite <- strip_lower_eq_empty.
      unfold scam_indicators in Hk. rewrite !elem_of_cons, elem_of_nil in Hk.
      repeat destruct Hk as [->|Hk]; try done;
        by apply contains_not_blank in Hc. }
    pose proof (ScoreFacts.hits_pos k _ _ Hk Hc) as Hp.
    unfold check_sms_message. cbv zeta.
    rewrite (proj2 (String.eqb_neq _ _) Hne).
    pose proof (sms_score_fst (Py.lower msg)) as Hs.
    destruct (_ || _), (_ && _);
      repeat case_bool_decide; cbn [safe confidence]; split; (done || lia).
  - assert (Hne : Py.strip msg ≠ EmptyString).
    { rewrite <- strip_lower_eq_empty.
      rewrite !elem_of_cons, elem_of_nil in Hk.
      repeat destruct Hk as [->|Hk]; try done;
        by apply contains_not_blank in Hc. }
    assert (Hurl : Py.contains "http://" (Py.lower msg)
                   || Py.contains "https://" (Py.lower msg)
                   || Py.contains "www." (Py.lower msg) = true).
    { rewrite !elem_of_cons, elem_of_nil in Hk.
      repeat destruct Hk as [->|Hk]; try done; rewrite Hc;
        by rewrite ?orb_true_r. }
    unfold check_sms_message. cbv zeta.
    rewrite (proj2 (String.eqb_neq _ _) Hne).
    pose proof (sms_score_fst (Py.lower msg)) as Hs. rewrite Hurl in Hs.
    destruct (_ && _);
      repeat case_bool_decide; cbn [safe confidence]; split; (done || lia).
Qed.

End CleanFacts.

(** ** Normal forms: what [normalize_ussd] returns and what the lists hold *)

Module EdgeFacts.
Import App AppMore PyMore StrFacts CheckFacts.

Lemma remove_space_eq_empty (s : string) :
  trimmed s → Py.remove_char " " s = EmptyString → s = EmptyString.
Proof.
  intros [Hl _]. apply lstrip_fixed in Hl. destruct s as [|a s]; [done|]. simpl.
  destruct (Ascii.eqb_spec a " ") as [->|_]; [by rewrite isspace_space in Hl|done].
Qed.

Lemma count_space_remove_char (s : string) :
  count (Ascii.eqb " ") (Py.remove_char " " s) = 0%nat.
Proof.
  induction s as [|a s IH]; [done|]. cbn [Py.remove_char].
  destruct (Ascii.eqb a " ") eqn:Ha; [done|]. cbn [count].
  by rewrite Ascii.eqb_sym, Ha, IH.
Qed.

Lemma normalize_ussd_eq_empty (code : string) :
  normalize_ussd code = EmptyString ↔ Py.strip code = EmptyString.
Proof.
  destruct code as [|a code]; [done|]. unfold normalize_ussd. split.
  - apply remove_space_eq_empty, trimmed_strip.
  - by intros ->.
Qed.

(** X25.  [normalize_ussd] returns a normal form: normalizing twice is
    normalizing once, the result has no white space at either end and no
    space character anywhere, and it is empty exactly when the code is blank
    (empty after [strip]). *)
Theorem normalize_ussd_canonical (code : string) :
  normalize_ussd (normalize_ussd code) = normalize_ussd code
  ∧ trimmed (normalize_ussd code)
  ∧ count (Ascii.eqb " ") (normalize_ussd code) = 0%nat
  ∧ (normalize_ussd code = EmptyString ↔ Py.strip code = EmptyString).
Proof.
  split; [apply normalize_ussd_idemp|].
  split; [apply trimmed_normalize_ussd|].
  split; [|apply normalize_ussd_eq_empty].
  destruct code as [|a code]; [done|]. apply count_space_remove_char.
Qed.

Lemma elem_of_load_lines (l : string) (f : option string) :
  l ∈ load_lines f → l ≠ EmptyString ∧ trimmed l.
Proof.
  destruct f as [text|]; simpl; [|by intros ?%elem_of_nil].
  intros (l0 & -> & [Hne _]%list_elem_of_filter)%list_elem_of_fmap.
  split; [done|apply trimmed_strip].
Qed.

Lemma elem_of_normalized_lines (c : string) (f : option string) :
  c ∈ (list_to_set (normalize_ussd <$> load_lines f) : gset string) →
  c ≠ EmptyString ∧ normalize_ussd c = c.
Proof.
  rewrite elem_of_list_to_set.
  intros (l & -> & [Hne Ht]%elem_of_load_lines)%list_elem_of_fmap.
  split; [|apply normalize_ussd_idemp].
  rewrite normalize_ussd_eq_empty. by rewrite strip_trimmed.
Qed.

(** The safe list and the blacklist hold normal forms only, and never
    the empty code. *)
Lemma listed_codes_are_normalized (w : World) (c : string) :
  c ∈ load_safe_ussd w ∨ c ∈ load_blacklist_ussd w →
  c ≠ EmptyString ∧ normalize_ussd c = c.
Proof. intros [H|H]; by apply elem_of_normalized_lines in H. Qed.

(** X26.  A code that is not the empty string but consists of white space
    only passes the test for a missing code: if the cache has no entry for
    the empty code, [check_ussd] answers it, with the empty string as the
    code, as not safe with the score 100, outside the range 0 to 10 of the
    other scores; no list can clear it, since neither list ever holds the
    empty code. *)
Theorem blank_code_scores_100 (code : string) (full_mode : bool) (w : World) :
  code ≠ EmptyString →
  Py.strip code = EmptyString →
  read_ussd_cache w !! EmptyString = None →
  ∃ r, check_ussd code full_mode w = (OK r, w)
       ∧ ur_code r = EmptyString ∧ ur_safe r = false ∧ ur_score r = 100
       ∧ ur_cached r = false.
Proof.
  intros Hne Hblank%normalize_ussd_eq_empty Hcache.
  destruct (check_ussd_cases code full_mode w Hne)
    as (r & Hr & Hcode & _ & _ & Hscore).
  pose proof (check_ussd_world code full_mode w) as Hw.
  unfold answer in Hr. unfold world_after in Hw.
  destruct (check_ussd code full_mode w) as [resp w']. cbn [fst snd] in *.
  subst resp w'. exists r. split; [done|].
  rewrite Hblank in *. split; [done|].
  assert (Hbl : EmptyString ∉ load_blacklist_ussd w).
  { by intros [? _]%elem_of_normalized_lines. }
  destruct (Hscore Hbl Hcache) as (Hs & Hc & _ & Hsafe).
  assert (Hp : pattern_score_ussd code = (100, ["Empty code"])).
  { unfold pattern_score_ussd. by rewrite Hblank. }
  rewrite Hp in *. cbn [fst] in *. split; [|done].
  destruct (ur_safe r); [|done].
  destruct (proj1 Hsafe eq_refl) as [[? _]%elem_of_normalized_lines|?]; [done|lia].
Qed.

Lemma blank_code_scores_100_witness :
  " " ≠ EmptyString
  ∧ Py.strip " " = EmptyString
  ∧ read_ussd_cache fresh_world !! EmptyString = None
  ∧ ∃ r, check_ussd " " false fresh_world = (OK r, fresh_world)
         ∧ ur_code r = EmptyString ∧ ur_safe r = false ∧ ur_score r = 100
         ∧ ur_cached r = false.
Proof.
  assert (H1 : " " ≠ EmptyString) by discriminate.
  assert (H2 : Py.strip " " = EmptyString) by reflexivity.
  assert (H3 : read_ussd_cache fresh_world !! EmptyString = None) by reflexivity.
  split; [exact H1|]. split; [exact H2|]. split; [exact H3|].
  exact (blank_code_scores_100 " " false fresh_world H1 H2 H3).
Defined.

End EdgeFacts.

(** ** Community reports: listing and counting *)

Module ReportFacts.
Import App AppMore StoreFacts ModerationFacts CurationFacts StrFacts.

(** *** [/community/reports] *)

Lemma get_reports_run (st : option string) (w : World) :
  get_reports st w
  = (OK (match st with
         | None | Some EmptyString => read_reports w
         | Some s => filter (λ r, Py.lower (status r) = Py.lower s) (read_reports w)
         end), w).
Proof. unfold get_reports, bind, ask, respond. simpl. by destruct st as [[|]|]. Qed.

(** X29.  [get_reports] with a status that is not empty answers, writes
    nothing, and returns, in the order of the database, exactly the reports
    whose status equals the given one up to letter case; the lower-cased
    status gives the same listing. *)
Theorem get_reports_filters (s : string) (w : World) :
  s ≠ EmptyString →
  ∃ rs, get_reports (Some s) w = (OK rs, w)
        ∧ rs `sublist_of` read_reports w
        ∧ (∀ r, r ∈ rs ↔ r ∈ read_reports w ∧ Py.lower (status r) = Py.lower s)
        ∧ get_reports (Some (Py.lower s)) w = (OK rs, w).
Proof.
  intros Hne. rewrite !get_reports_run.
  destruct s as [|a s]; [done|]. eexists. split; [done|].
  split; [apply sublist_filter|].
  split; [intros r; rewrite list_elem_of_filter; tauto|].
  cbn [Py.lower]. f_equal. f_equal.
  apply list_filter_iff. intros r.
  cbn [Py.lower]. by rewrite lower_char_idemp, lower_idemp.
Qed.

(** *** [/curation/stats] *)

Lemma length_filter_imap {A B} (P : A → Prop) `{!∀ x, Decision (P x)}
    (g : nat → A → B) (l : list A) :
  length (filter (λ ri : A * B, P ri.1) (imap (λ i x, (x, g i x)) l))
  = length (filter P l).
Proof.
  revert g. induction l as [|x l IH]; intros g; [done|].
  rewrite imap_cons. destruct (decide (P x)) as [Hx|Hx].
  - rewrite !filter_cons_True by done. simpl. f_equal. apply (IH (g ∘ S)).
  - rewrite !filter_cons_False by done. apply (IH (g ∘ S)).
Qed.

(** X30.  The curation statistics agree with the listings: the count of
    pending reports is the length of the listing of [get_pending_reports],
    the total is the number of codes that [get_curated_codes] returns, the
    count of verified codes equals the total whatever the entries say, and
    the count of bank codes does not exceed it. *)
Theorem curation_stats_agree (w : World) :
  ∃ stats pending codes,
    get_curation_stats w = (OK stats, w)
    ∧ answer get_pending_reports w = OK pending
    ∧ answer get_curated_codes w = OK codes
    ∧ pending_reports stats = length pending
    ∧ total_codes stats = length codes
    ∧ verified_codes stats = total_codes stats
    ∧ (bank_codes stats ≤ total_codes stats)%nat.
Proof.
  eexists _, _, _. split; [reflexivity|]. split; [reflexivity|].
  split; [reflexivity|]. cbn [pending_reports total_codes verified_codes bank_codes].
  split.
  - symmetry. apply (length_filter_imap is_pending_ussd (λ i _, i)).
  - split; [done|]. split; [done|]. apply length_filter.
Qed.

Lemma get_reports_filters_witness :
  "PENDING" ≠ EmptyString
  ∧ ∃ rs, get_reports (Some "PENDING") world_with_report = (OK rs, world_with_report)
          ∧ get_reports (Some (Py.lower "PENDING")) world_with_report
            = (OK rs, world_with_report)
          ∧ (entry_of_901 ∈ rs).
Proof.
  assert (H : "PENDING" ≠ EmptyString) by discriminate.
  split; [exact H|].
  destruct (get_reports_filters "PENDING" world_with_report H)
    as (rs & Hrun & _ & Hin & Hlower).
  exists rs. split; [exact Hrun|]. split; [exact Hlower|].
  apply Hin. split; [apply list_elem_of_here | reflexivity].
Defined.

End ReportFacts.
